(** * Query operations of the Feishu spreadsheet gateway

    A shallow embedding of [feishu_spreadsheet_mcp/tools/spreadsheet_tools.py]
    (the five query operations [list_spreadsheets], [get_worksheets],
    [read_range], [read_multiple_ranges] and [find_cells]) together with the
    properties the specification states about them.

    Conventions of the embedding.
    - A Python [str] is a [string]: the UTF-8 encoding of its code points.
      The localized messages are written as they stand in the source;
      operations that Python defines on code points ([str.strip], iteration)
      work on the encoded code points.
    - A decoded JSON value, and every dynamically typed Python value the
      operations inspect, is a [pyval].
    - An exception is an [exn]; a computation that may raise returns a
      [result].  Exceptions outside the [Exception] hierarchy
      ([asyncio.CancelledError], [KeyboardInterrupt]) are [BaseError]s: no
      [except Exception] clause catches them.
    - The API client is an object with hidden state: a transition function
      [api] on a state type [St].  Every call the operation awaits is also
      appended to a log, the way a mock records its calls.
    - Arguments carry the types of the source's annotations, so the
      [isinstance] guards on them hold by typing; [page_size] is kept
      dynamic because its guard is the subject of a property. *)

From Stdlib Require Import ZArith List String Ascii Bool Lia DecimalString.
Import ListNotations.
Local Open Scope list_scope.
Local Open Scope string_scope.

(** ** Python values and exceptions *)

#[local] Set Warnings "-register-all".

(** A dynamically typed value: [None], a [bool], an [int], a [str], a [list]
    or a [dict] with string keys, in insertion order.  These are the values a
    JSON response decodes to, numbers with a fractional part apart. *)
Inductive pyval : Type :=
| PNone
| PBool (b : bool)
| PInt (n : Z)
| PStr (s : string)
| PList (l : list pyval)
| PDict (d : list (string * pyval)).

(** [FeishuAPIError(code, message, http_status)]. *)
Record FeishuAPIError : Type := mkFeishuAPIError {
  code : Z;
  message : string;
  http_status : Z
}.

(** [ValueError] and [FeishuAPIError] are the two classes the operations
    name; [OtherError] is any other subclass of [Exception], [BaseError] an
    exception that derives from [BaseException] only.  [cls] is the class
    name and [msg] is [str(e)]. *)
Inductive exn : Type :=
| ValueError (msg : string)
| APIError (e : FeishuAPIError)
| OtherError (cls : string) (msg : string)
| BaseError (cls : string) (msg : string).

Inductive result (A : Type) : Type :=
| Ok (a : A)
| Raise (e : exn).
Arguments Ok {A} a.
Arguments Raise {A} e.

Definition bind {A B : Type} (r : result A) (k : A -> result B) : result B :=
  match r with
  | Ok a => k a
  | Raise e => Raise e
  end.

Notation "x <- r ;; k" := (bind r (fun x => k))
  (at level 61, r at next level, right associativity).

(** [type(v).__name__]. *)
Definition type_name (v : pyval) : string :=
  match v with
  | PNone => "NoneType"
  | PBool _ => "bool"
  | PInt _ => "int"
  | PStr _ => "str"
  | PList _ => "list"
  | PDict _ => "dict"
  end.

(** [bool(v)]. *)
Definition py_truthy (v : pyval) : bool :=
  match v with
  | PNone => false
  | PBool b => b
  | PInt n => negb (n =? 0)%Z
  | PStr s => negb (s =? "")
  | PList l => match l with [] => false | _ => true end
  | PDict d => match d with [] => false | _ => true end
  end.

Fixpoint assoc (k : string) (d : list (string * pyval)) : option pyval :=
  match d with
  | [] => None
  | (k', v) :: rest => if k' =? k then Some v else assoc k rest
  end.

(** [v.get(k, default)]: a dict method, an [AttributeError] on anything else. *)
Definition py_get (v : pyval) (k : string) (default : pyval) : result pyval :=
  match v with
  | PDict d => Ok (match assoc k d with Some x => x | None => default end)
  | _ => Raise (OtherError "AttributeError"
                  ("'" ++ type_name v ++ "' object has no attribute 'get'"))
  end.

(** The number of bytes of the UTF-8 sequence that the lead byte [c]
    opens. *)
Definition utf8_width (c : ascii) : nat :=
  let n := nat_of_ascii c in
  if (n <? 192)%nat then 1%nat
  else if (n <? 224)%nat then 2%nat
  else if (n <? 240)%nat then 3%nat
  else 4%nat.

(** The code points of [s] in order, each as the string of its bytes:
    [current] holds the bytes read of the code point under way and [more]
    counts the bytes it still lacks. *)
Fixpoint code_points_from (more : nat) (current : string) (s : string)
  : list string :=
  match s with
  | "" => if current =? "" then [] else [current]
  | String c r =>
      match more with
      | O =>
          match utf8_width c with
          | S (S k) => code_points_from (S k) (String c "") r
          | _ => String c "" :: code_points_from 0 "" r
          end
      | S O => (current ++ String c "") :: code_points_from 0 "" r
      | S k => code_points_from k (current ++ String c "") r
      end
  end.

Definition code_points (s : string) : list string := code_points_from 0 "" s.

(** The items a [for] loop (or [enumerate]) draws from [v]: the items of a
    list, the keys of a dict, the characters of a string. *)
Definition py_iter (v : pyval) : result (list pyval) :=
  match v with
  | PList l => Ok l
  | PDict d => Ok (map (fun kv => PStr (fst kv)) d)
  | PStr s => Ok (map PStr (code_points s))
  | _ => Raise (OtherError "TypeError"
                  ("'" ++ type_name v ++ "' object is not iterable"))
  end.

(** [v == s] for a string literal [s]. *)
Definition py_eq_str (v : pyval) (s : string) : bool :=
  match v with
  | PStr s' => s' =? s
  | _ => false
  end.

(** [isinstance(v, int)] together with the integer it denotes; [bool] is a
    subclass of [int]. *)
Definition int_value (v : pyval) : option Z :=
  match v with
  | PInt n => Some n
  | PBool b => Some (if b then 1 else 0)%Z
  | _ => None
  end.

(** [str(i)] for a list index. *)
Definition str_of_nat (i : nat) : string :=
  NilEmpty.string_of_uint (Nat.to_uint i).

(** ** [str.strip] *)

(** Whitespace in the sense of [str.isspace] (what [str.strip] removes):
    the code points U+0009..U+000D, U+001C..U+0020, U+0085, U+00A0, U+1680,
    U+2000..U+200A, U+2028, U+2029, U+202F, U+205F and U+3000, recognised by
    their UTF-8 encodings of one, two or three bytes. *)
Definition is_space1 (c : ascii) : bool :=
  let n := nat_of_ascii c in
  ((9 <=? n)%nat && (n <=? 13)%nat) || ((28 <=? n)%nat && (n <=? 32)%nat).

(** U+0085 is C2 85 and U+00A0 is C2 A0. *)
Definition is_space2 (c1 c2 : ascii) : bool :=
  let n1 := nat_of_ascii c1 in
  let n2 := nat_of_ascii c2 in
  (n1 =? 194)%nat && ((n2 =? 133)%nat || (n2 =? 160)%nat).

(** U+1680 is E1 9A 80; U+2000..U+200A are E2 80 80..8A; U+2028, U+2029 and
    U+202F are E2 80 A8, A9 and AF; U+205F is E2 81 9F; U+3000 is
    E3 80 80. *)
Definition is_space3 (c1 c2 c3 : ascii) : bool :=
  let n1 := nat_of_ascii c1 in
  let n2 := nat_of_ascii c2 in
  let n3 := nat_of_ascii c3 in
  ((n1 =? 225)%nat && (n2 =? 154)%nat && (n3 =? 128)%nat)
  || ((n1 =? 226)%nat && (n2 =? 128)%nat
      && (((128 <=? n3)%nat && (n3 <=? 138)%nat)
          || (n3 =? 168)%nat || (n3 =? 169)%nat || (n3 =? 175)%nat))
  || ((n1 =? 226)%nat && (n2 =? 129)%nat && (n3 =? 159)%nat)
  || ((n1 =? 227)%nat && (n2 =? 128)%nat && (n3 =? 128)%nat).

(** What follows the whitespace code point at the head of [s], if there is
    one. *)
Definition space_prefix (s : string) : option string :=
  match s with
  | "" => None
  | String c1 r1 =>
      if is_space1 c1 then Some r1
      else
        match r1 with
        | "" => None
        | String c2 r2 =>
            if is_space2 c1 c2 then Some r2
            else
              match r2 with
              | "" => None
              | String c3 r3 =>
                  if is_space3 c1 c2 c3 then Some r3 else None
              end
        end
  end.

(** [s.lstrip()]. *)
Fixpoint lstrip (s : string) : string :=
  match s with
  | "" => ""
  | String c1 r1 =>
      if is_space1 c1 then lstrip r1
      else
        match r1 with
        | "" => s
        | String c2 r2 =>
            if is_space2 c1 c2 then lstrip r2
            else
              match r2 with
              | "" => s
              | String c3 r3 =>
                  if is_space3 c1 c2 c3 then lstrip r3 else s
              end
        end
  end.

(** [s] is made of whitespace only. *)
Fixpoint all_space (s : string) : bool :=
  match s with
  | "" => true
  | String c1 r1 =>
      if is_space1 c1 then all_space r1
      else
        match r1 with
        | "" => false
        | String c2 r2 =>
            if is_space2 c1 c2 then all_space r2
            else
              match r2 with
              | "" => false
              | String c3 r3 =>
                  if is_space3 c1 c2 c3 then all_space r3 else false
              end
        end
  end.

(** [s.rstrip()]: the text up to where only whitespace remains. *)
Fixpoint rstrip (s : string) : string :=
  match s with
  | "" => ""
  | String c r => if all_space s then "" else String c (rstrip r)
  end.

(** [s.strip()]. *)
Definition strip (s : string) : string := lstrip (rstrip s).

(** ** The range-spec validator *)

Module RangeSpecValidator.

Record RangeSpec : Type := mkRangeSpec {
  sheet_id : string;
  start_cell : string;
  end_cell : string;
  raw : string
}.

Definition is_upper (c : ascii) : bool :=
  let n := nat_of_ascii c in (65 <=? n)%nat && (n <=? 90)%nat.

Definition is_digit (c : ascii) : bool :=
  let n := nat_of_ascii c in (48 <=? n)%nat && (n <=? 57)%nat.

(** Longest prefix of [s] whose characters satisfy [p], and the rest. *)
Fixpoint span (p : ascii -> bool) (s : string) : string * string :=
  match s with
  | "" => ("", "")
  | String c r =>
      if p c then let (a, b) := span p r in (String c a, b) else ("", s)
  end.

(** [s.split(sep, 1)] when [sep] occurs in [s]. *)
Fixpoint split_first (sep : ascii) (s : string) : option (string * string) :=
  match s with
  | "" => None
  | String c r =>
      if Ascii.eqb c sep then Some ("", r)
      else match split_first sep r with
           | Some (a, b) => Some (String c a, b)
           | None => None
           end
  end.

(** One A1-style cell at the head of [s]: column letters, then row digits. *)
Definition take_cell (s : string) : option (string * string) :=
  let (letters, r1) := span is_upper s in
  let (digits, r2) := span is_digit r1 in
  if (letters =? "") || (digits =? "") then None
  else Some (letters ++ digits, r2).

(** [<cell>:<cell>] and nothing else. *)
Definition parse_cells (s : string) : option (string * string) :=
  match take_cell s with
  | Some (c1, String ":" r) =>
      match take_cell r with
      | Some (c2, "") => Some (c1, c2)
      | _ => None
      end
  | _ => None
  end.

(** Modelled from the spec: the validator ([validate_range_spec] of
    [models/data_models.py]) is not among the sources; only its callers and
    tests are.  Following section 4.5, [validate] trims surrounding
    whitespace, then fails with a Validation error ([ValueError]) when the
    string is empty or whitespace-only, when the [sheet_id!] segment is
    missing, or when the cell part is not
    column-letters+row-number [:] column-letters+row-number; otherwise it
    yields the RangeSpec of section 3.  The wording of the messages is the
    model's. *)
Definition validate (range_spec : string) : result RangeSpec :=
  let s := strip range_spec in
  if s =? "" then Raise (ValueError "Range specification cannot be empty")
  else
    match split_first "!" s with
    | None =>
        Raise (ValueError "Range specification must include a sheet ID (format: sheetId!A1:B10)")
    | Some (sid, cells) =>
        if sid =? "" then
          Raise (ValueError "Range specification must include a sheet ID (format: sheetId!A1:B10)")
        else
          match parse_cells cells with
          | Some (c1, c2) => Ok (mkRangeSpec sid c1 c2 s)
          | None =>
              Raise (ValueError "Invalid cell range (expected a range such as A1:B10)")
          end
    end.

(** Modelled from the spec: the callers send the value of
    [validate_range_spec] as the range string, and the repository's test
    expects [validate_range_spec("  Sheet1!A1:B2  ") == "Sheet1!A1:B2"]: the
    function the operations import returns the [raw] field of the validated
    RangeSpec. *)
Definition validate_raw (range_spec : string) : result string :=
  rs <- validate range_spec ;; Ok (raw rs).

End RangeSpecValidator.

(** ** Result records *)

(** [RangeData(range, major_dimension, values, revision)], as the source
    constructs it for a placeholder. *)
Record RangeData : Type := mkRangeData {
  range : string;
  major_dimension : string;
  values : list (list pyval);
  revision : Z
}.

(** ** The API client *)

(** The five client methods the operations await, with their keyword
    arguments.  [page_token] is present exactly when the operation put it
    among the parameters. *)
Inductive api_call : Type :=
| Call_list_files (folder_token : option string) (page_size : pyval)
                  (page_token : option pyval)
| Call_get_worksheets (spreadsheet_token : string)
| Call_read_range (spreadsheet_token range_spec value_render_option
                   date_time_render_option : string)
| Call_read_multiple_ranges (spreadsheet_token : string) (ranges : list string)
                            (value_render_option date_time_render_option : string)
| Call_find_cells (spreadsheet_token sheet_id range_spec find_text : string)
                  (match_case match_entire_cell search_by_regex
                   include_formulas : bool).

(** ** Argument validation shared by the operations *)

(** The guard every operation applies to a token-like argument [name]:
    non-empty, then trimmed, then non-empty again. *)
Definition require_text (name : string) (v : string) : result string :=
  if v =? "" then Raise (ValueError (name ++ " must be a non-empty string"))
  else
    let v' := strip v in
    if v' =? "" then
      Raise (ValueError (name ++ " cannot be empty or whitespace only"))
    else Ok v'.

Definition valid_value_options : list string :=
  ["ToString"; "Formula"; "FormattedValue"; "UnformattedValue"].

Definition valid_datetime_options : list string := ["FormattedString"].

(** [x in options]. *)
Definition py_in (x : string) (options : list string) : bool :=
  existsb (String.eqb x) options.

(** [repr] of the two option lists, as the f-strings print them. *)
Definition valid_value_options_repr : string :=
  "['ToString', 'Formula', 'FormattedValue', 'UnformattedValue']".

Definition valid_datetime_options_repr : string := "['FormattedString']".

Definition validate_render_options (value_render_option
                                    date_time_render_option : string)
  : result unit :=
  if negb (py_in value_render_option valid_value_options) then
    Raise (ValueError ("value_render_option must be one of "
                       ++ valid_value_options_repr))
  else if negb (py_in date_time_render_option valid_datetime_options) then
    Raise (ValueError ("date_time_render_option must be one of "
                       ++ valid_datetime_options_repr))
  else Ok tt.

(** [list_spreadsheets], lines 26-30: a positive integer, capped at 200. *)
Definition validate_page_size (page_size : pyval) : result pyval :=
  match int_value page_size with
  | None => Raise (ValueError "page_size must be a positive integer")
  | Some n =>
      if (n <=? 0)%Z then
        Raise (ValueError "page_size must be a positive integer")
      else if (200 <? n)%Z then Ok (PInt 200)
      else Ok page_size
  end.

(** [list_spreadsheets], lines 32-36. *)
Definition validate_folder_token (folder_token : option string)
  : result (option string) :=
  match folder_token with
  | None => Ok None
  | Some t =>
      if strip t =? "" then
        Raise (ValueError "folder_token must be a non-empty string if provided")
      else Ok (Some (strip t))
  end.

(** ** Error handlers *)

(** The unexpected-error wrapper [FeishuAPIError(code=-1, message=prefix +
    str(e), http_status=500)]. *)
Definition wrapped (prefix : string) (msg : string) : exn :=
  APIError (mkFeishuAPIError (-1) (prefix ++ msg) 500).

Definition auth_failed_message : string :=
  "认证失败。请检查app_id和app_secret配置。".

Definition spreadsheet_not_found_message : string :=
  "指定的电子表格不存在。请检查spreadsheet_token是否正确。".

Definition no_read_permission_message : string :=
  "没有读取权限。请检查电子表格权限设置或联系文档所有者。".

(** [FeishuAPIError(code=e.code, message=m, http_status=e.http_status)]. *)
Definition relabel (e : FeishuAPIError) (m : string) : FeishuAPIError :=
  mkFeishuAPIError (code e) m (http_status e).

(** ** Collaborators outside the sources *)

(** The [models] package ([models/data_models.py]) is not among the sources:
    the result classes with their [from_api_response] constructors, the
    function [validate_range_spec] and the method
    [FeishuAPIError.is_authentication_error] are taken as given.  A
    constructor, like the validator, returns its value or raises. *)
Class Models : Type := {
  validate_range_spec : string -> result string;
  SpreadsheetInfo : Type;
  WorksheetInfo : Type;
  FindResult : Type;
  SpreadsheetInfo_from_api_response : pyval -> result SpreadsheetInfo;
  WorksheetInfo_from_api_response : pyval -> result WorksheetInfo;
  RangeData_from_api_response : pyval -> result RangeData;
  FindResult_from_api_response : pyval -> result FindResult;
  is_authentication_error : FeishuAPIError -> bool
}.

(** What Python's [re.compile] does with a pattern: it compiles it, it
    raises [re.error] with [str(e) = msg], or it raises an exception of
    another class ([OverflowError] on a repetition count beyond the
    engine's limit, [RecursionError]). *)
Inductive compile_outcome : Type :=
| Compiled
| ReError (msg : string)
| CompileRaises (e : exn).

Class PyRe : Type := {
  re_compile : string -> compile_outcome
}.

(** The API client: hidden state and what each awaited method does to it. *)
Class ApiClient : Type := {
  St : Type;
  api : api_call -> St -> result pyval * St
}.

Section Operations.

Context {models : Models} {re : PyRe} {client : ApiClient}.

(** The client's state and the log of the calls made so far. *)
Definition world : Type := St * list api_call.

Definition M (A : Type) : Type := world -> result A * world.

(** [await api_client.<method>(...)]. *)
Definition call_api (c : api_call) : M pyval :=
  fun w =>
    let (r, s') := api c (fst w) in
    (r, (s', (snd w ++ [c])%list)).

(** The two [except] clauses that close every operation: a [FeishuAPIError]
    goes through the operation's table [remap]; any other [Exception] is
    wrapped with the operation's [prefix]; an exception outside the
    [Exception] hierarchy is caught by neither clause. *)
Definition except_clauses {A : Type} (remap : FeishuAPIError -> FeishuAPIError)
           (prefix : string) (r : result A) : result A :=
  match r with
  | Ok a => Ok a
  | Raise (APIError e) => Raise (APIError (remap e))
  | Raise (ValueError m) => Raise (wrapped prefix m)
  | Raise (OtherError _ m) => Raise (wrapped prefix m)
  | Raise (BaseError cls m) => Raise (BaseError cls m)
  end.

(** [read_multiple_ranges], lines 316-323: each member in turn, the first
    failure reported with its index. *)
Fixpoint validate_ranges_from (i : nat) (ranges : list string)
  : result (list string) :=
  match ranges with
  | [] => Ok []
  | range_spec :: rest =>
      match validate_range_spec range_spec with
      | Ok validated_range =>
          validated <- validate_ranges_from (S i) rest ;;
          Ok (validated_range :: validated)
      | Raise (ValueError e) =>
          Raise (ValueError ("Invalid range at index " ++ str_of_nat i
                             ++ ": " ++ e))
      | Raise e => Raise e
      end
  end.

(** [read_multiple_ranges], lines 308-323. *)
Definition validate_ranges (ranges : list string) : result (list string) :=
  if (List.length ranges =? 0)%nat then
    Raise (ValueError "ranges cannot be empty")
  else if (100 <? List.length ranges)%nat then
    Raise (ValueError "ranges cannot contain more than 100 items")
  else validate_ranges_from 0 ranges.

(** *** list_spreadsheets *)

Definition list_spreadsheets_remap (e : FeishuAPIError) : FeishuAPIError :=
  if (code e =? 1061004)%Z then
    relabel e "没有访问权限。请检查文档权限设置或联系文档所有者。"
  else if is_authentication_error e then relabel e auth_failed_message
  else e.

Definition list_spreadsheets_prefix : string :=
  "获取电子表格列表时发生错误: ".

(** Lines 55-66: the [for] loop over one page's files. *)
Fixpoint collect_spreadsheets (files : list pyval)
         (spreadsheets : list SpreadsheetInfo)
  : result (list SpreadsheetInfo) :=
  match files with
  | [] => Ok spreadsheets
  | file_data :: rest =>
      ty <- py_get file_data "type" PNone ;;
      if py_eq_str ty "sheet" then
        match SpreadsheetInfo_from_api_response file_data with
        | Ok spreadsheet =>
            collect_spreadsheets rest (spreadsheets ++ [spreadsheet])%list
        | Raise (ValueError _) => collect_spreadsheets rest spreadsheets
        | Raise e => Raise e
        end
      else collect_spreadsheets rest spreadsheets
  end.

(** Line 52: [response.get("data", {}).get("files", [])], as the [for] loop
    iterates it. *)
Definition response_files (response : pyval) : result (list pyval) :=
  data <- py_get response "data" (PDict []) ;;
  files <- py_get data "files" (PList []) ;;
  py_iter files.

(** Line 69: [response.get("data", {}).get("page_token")]. *)
Definition response_page_token (response : pyval) : result pyval :=
  data <- py_get response "data" (PDict []) ;;
  py_get data "page_token" PNone.

(** Lines 51-69: what one response adds to the list, and the next token. *)
Definition absorb_page (response : pyval)
           (spreadsheets : list SpreadsheetInfo)
  : result (list SpreadsheetInfo * pyval) :=
  items <- response_files response ;;
  spreadsheets' <- collect_spreadsheets items spreadsheets ;;
  page_token <- response_page_token response ;;
  Ok (spreadsheets', page_token).

(** Lines 43-73: the [while True] loop.  [fuel] bounds the number of
    iterations; [None] means the bound was reached with the loop still
    running. *)
Fixpoint list_spreadsheets_loop (fuel : nat) (folder_token : option string)
         (page_size : pyval) (page_token : pyval)
         (spreadsheets : list SpreadsheetInfo) (w : world)
  : option (result (list SpreadsheetInfo)) * world :=
  match fuel with
  | O => (None, w)
  | S fuel' =>
      let params_token :=
        if py_truthy page_token then Some page_token else None in
      match call_api (Call_list_files folder_token page_size params_token) w with
      | (Raise e, w') => (Some (Raise e), w')
      | (Ok response, w') =>
          match absorb_page response spreadsheets with
          | Raise e => (Some (Raise e), w')
          | Ok (spreadsheets', page_token') =>
              if negb (py_truthy page_token') then (Some (Ok spreadsheets'), w')
              else list_spreadsheets_loop fuel' folder_token page_size
                     page_token' spreadsheets' w'
          end
      end
  end.

Definition list_spreadsheets (fuel : nat) (folder_token : option string)
           (page_size : pyval) (w : world)
  : option (result (list SpreadsheetInfo)) * world :=
  match validate_page_size page_size with
  | Raise e => (Some (Raise e), w)
  | Ok page_size' =>
      match validate_folder_token folder_token with
      | Raise e => (Some (Raise e), w)
      | Ok folder_token' =>
          let (r, w') :=
            list_spreadsheets_loop fuel folder_token' page_size' PNone [] w in
          (option_map
             (except_clauses list_spreadsheets_remap list_spreadsheets_prefix)
             r, w')
      end
  end.

(** *** get_worksheets *)

Definition get_worksheets_remap (e : FeishuAPIError) : FeishuAPIError :=
  if (code e =? 1310214)%Z then relabel e spreadsheet_not_found_message
  else if (code e =? 1310213)%Z then relabel e no_read_permission_message
  else if is_authentication_error e then relabel e auth_failed_message
  else e.

Definition get_worksheets_prefix : string := "获取工作表列表时发生错误: ".

(** Lines 125-136. *)
Fixpoint collect_worksheets (worksheets_data : list pyval)
         (worksheets : list WorksheetInfo) : result (list WorksheetInfo) :=
  match worksheets_data with
  | [] => Ok worksheets
  | worksheet_data :: rest =>
      match WorksheetInfo_from_api_response worksheet_data with
      | Ok worksheet => collect_worksheets rest (worksheets ++ [worksheet])%list
      | Raise (ValueError _) => collect_worksheets rest worksheets
      | Raise e => Raise e
      end
  end.

(** Lines 118-138: the body of the [try]. *)
Definition get_worksheets_try (spreadsheet_token : string)
  : M (list WorksheetInfo) :=
  fun w =>
    let (r, w') := call_api (Call_get_worksheets spreadsheet_token) w in
    (response <- r ;;
     data <- py_get response "data" (PDict []) ;;
     sheets <- py_get data "sheets" (PList []) ;;
     worksheets_data <- py_iter sheets ;;
     collect_worksheets worksheets_data [], w').

Definition get_worksheets (spreadsheet_token : string)
  : M (list WorksheetInfo) :=
  fun w =>
    match require_text "spreadsheet_token" spreadsheet_token with
    | Raise e => (Raise e, w)
    | Ok spreadsheet_token' =>
        let (r, w') := get_worksheets_try spreadsheet_token' w in
        (except_clauses get_worksheets_remap get_worksheets_prefix r, w')
    end.

(** *** read_range *)

Definition read_range_remap (e : FeishuAPIError) : FeishuAPIError :=
  if (code e =? 1310214)%Z then relabel e spreadsheet_not_found_message
  else if (code e =? 1310215)%Z then
    relabel e "指定的工作表不存在。请检查range_spec中的工作表ID是否正确。"
  else if (code e =? 1310213)%Z then relabel e no_read_permission_message
  else if (code e =? 1310216)%Z then
    relabel e "范围格式无效。请使用正确的格式，如 'sheetId!A1:B10'。"
  else if (code e =? 1310218)%Z then
    relabel e "返回数据超过10MB限制。请缩小查询范围。"
  else if is_authentication_error e then relabel e auth_failed_message
  else e.

Definition read_range_prefix : string := "读取范围数据时发生错误: ".

(** Lines 214-229: the body of the [try]. *)
Definition read_range_try (spreadsheet_token range_spec value_render_option
                           date_time_render_option : string) : M RangeData :=
  fun w =>
    let (r, w') :=
      call_api (Call_read_range spreadsheet_token range_spec
                  value_render_option date_time_render_option) w in
    (response <- r ;;
     data <- py_get response "data" (PDict []) ;;
     range_data <- py_get data "valueRange" (PDict []) ;;
     RangeData_from_api_response range_data, w').

(** Lines 192-212: everything checked before the [try]. *)
Definition read_range_validate (spreadsheet_token range_spec
                                value_render_option
                                date_time_render_option : string)
  : result (string * string) :=
  spreadsheet_token' <- require_text "spreadsheet_token" spreadsheet_token ;;
  range_spec' <- validate_range_spec range_spec ;;
  _ <- validate_render_options value_render_option date_time_render_option ;;
  Ok (spreadsheet_token', range_spec').

Definition read_range (spreadsheet_token range_spec value_render_option
                       date_time_render_option : string) : M RangeData :=
  fun w =>
    match read_range_validate spreadsheet_token range_spec
            value_render_option date_time_render_option with
    | Raise e => (Raise e, w)
    | Ok (spreadsheet_token', range_spec') =>
        let (r, w') :=
          read_range_try spreadsheet_token' range_spec' value_render_option
            date_time_render_option w in
        (except_clauses read_range_remap read_range_prefix r, w')
    end.

(** *** read_multiple_ranges *)

Definition read_multiple_ranges_remap (e : FeishuAPIError) : FeishuAPIError :=
  if (code e =? 1310214)%Z then relabel e spreadsheet_not_found_message
  else if (code e =? 1310215)%Z then
    relabel e "指定的工作表不存在。请检查ranges中的工作表ID是否正确。"
  else if (code e =? 1310213)%Z then relabel e no_read_permission_message
  else if (code e =? 1310216)%Z then
    relabel e "范围格式无效。请使用正确的格式，如 'sheetId!A1:B10'。"
  else if (code e =? 1310218)%Z then
    relabel e "返回数据超过10MB限制。请减少查询范围的数量或大小。"
  else if is_authentication_error e then relabel e auth_failed_message
  else e.

Definition read_multiple_ranges_prefix : string :=
  "批量读取范围数据时发生错误: ".

(** Lines 361-372: the placeholder for the entry at index [i]. *)
Definition placeholder (validated_ranges : list string) (i : nat) : RangeData :=
  mkRangeData
    (if (i <? List.length validated_ranges)%nat then nth i validated_ranges ""
     else "unknown_range_" ++ str_of_nat i)
    "ROWS" [] 0.

(** Lines 349-372: the [for i, range_data in enumerate(value_ranges)] loop. *)
Fixpoint collect_ranges (validated_ranges : list string) (i : nat)
         (value_ranges : list pyval) (results : list RangeData)
  : result (list RangeData) :=
  match value_ranges with
  | [] => Ok results
  | range_data :: rest =>
      match RangeData_from_api_response range_data with
      | Ok result =>
          collect_ranges validated_ranges (S i) rest (results ++ [result])%list
      | Raise (ValueError _) =>
          collect_ranges validated_ranges (S i) rest
            (results ++ [placeholder validated_ranges i])%list
      | Raise e => Raise e
      end
  end.

(** Line 347: [response.get("data", {}).get("valueRanges", [])], as
    [enumerate] iterates it. *)
Definition response_value_ranges (response : pyval) : result (list pyval) :=
  data <- py_get response "data" (PDict []) ;;
  value_ranges <- py_get data "valueRanges" (PList []) ;;
  py_iter value_ranges.

(** Lines 337-374: the body of the [try]. *)
Definition read_multiple_ranges_try (spreadsheet_token : string)
           (validated_ranges : list string)
           (value_render_option date_time_render_option : string)
  : M (list RangeData) :=
  fun w =>
    let (r, w') :=
      call_api (Call_read_multiple_ranges spreadsheet_token validated_ranges
                  value_render_option date_time_render_option) w in
    (response <- r ;;
     items <- response_value_ranges response ;;
     collect_ranges validated_ranges 0 items [], w').

(** Lines 301-335: everything checked before the [try]. *)
Definition read_multiple_ranges_validate (spreadsheet_token : string)
           (ranges : list string)
           (value_render_option date_time_render_option : string)
  : result (string * list string) :=
  spreadsheet_token' <- require_text "spreadsheet_token" spreadsheet_token ;;
  validated_ranges <- validate_ranges ranges ;;
  _ <- validate_render_options value_render_option date_time_render_option ;;
  Ok (spreadsheet_token', validated_ranges).

Definition read_multiple_ranges (spreadsheet_token : string)
           (ranges : list string)
           (value_render_option date_time_render_option : string)
  : M (list RangeData) :=
  fun w =>
    match read_multiple_ranges_validate spreadsheet_token ranges
            value_render_option date_time_render_option with
    | Raise e => (Raise e, w)
    | Ok (spreadsheet_token', validated_ranges) =>
        let (r, w') :=
          read_multiple_ranges_try spreadsheet_token' validated_ranges
            value_render_option date_time_render_option w in
        (except_clauses read_multiple_ranges_remap
           read_multiple_ranges_prefix r, w')
    end.

(** *** find_cells *)

Definition find_cells_remap (e : FeishuAPIError) : FeishuAPIError :=
  if (code e =? 1310214)%Z then relabel e spreadsheet_not_found_message
  else if (code e =? 1310215)%Z then
    relabel e "指定的工作表不存在。请检查sheet_id是否正确。"
  else if (code e =? 1310213)%Z then relabel e no_read_permission_message
  else if (code e =? 1310216)%Z then
    relabel e "范围格式无效。请使用正确的格式，如 'A1:B10'。"
  else if (code e =? 1310219)%Z then
    relabel e "正则表达式格式无效。请检查正则表达式语法。"
  else if is_authentication_error e then relabel e auth_failed_message
  else e.

Definition find_cells_prefix : string := "查找单元格时发生错误: ".

(** Lines 490-495: the pattern is compiled after [find_text] was trimmed;
    [except re.error] turns that one class into a [ValueError] and lets
    anything else the compiler raises through. *)
Definition validate_regex (search_by_regex : bool) (find_text : string)
  : result unit :=
  if search_by_regex then
    match re_compile find_text with
    | Compiled => Ok tt
    | ReError e => Raise (ValueError ("Invalid regular expression: " ++ e))
    | CompileRaises e => Raise e
    end
  else Ok tt.

(** Lines 455-495: everything checked before the [try]. *)
Definition find_cells_validate (spreadsheet_token sheet_id range_spec
                                find_text : string) (search_by_regex : bool)
  : result (string * string * string * string) :=
  spreadsheet_token' <- require_text "spreadsheet_token" spreadsheet_token ;;
  sheet_id' <- require_text "sheet_id" sheet_id ;;
  range_spec' <- require_text "range_spec" range_spec ;;
  find_text' <- require_text "find_text" find_text ;;
  _ <- validate_regex search_by_regex find_text' ;;
  Ok (spreadsheet_token', sheet_id', range_spec', find_text').

(** Lines 497-516: the body of the [try]. *)
Definition find_cells_try (spreadsheet_token sheet_id range_spec
                           find_text : string)
           (match_case match_entire_cell search_by_regex
            include_formulas : bool) : M FindResult :=
  fun w =>
    let (r, w') :=
      call_api (Call_find_cells spreadsheet_token sheet_id range_spec find_text
                  match_case match_entire_cell search_by_regex
                  include_formulas) w in
    (response <- r ;;
     data <- py_get response "data" (PDict []) ;;
     find_data <- py_get data "find_result" (PDict []) ;;
     FindResult_from_api_response find_data, w').

Definition find_cells (spreadsheet_token sheet_id range_spec
                       find_text : string)
           (match_case match_entire_cell search_by_regex
            include_formulas : bool) : M FindResult :=
  fun w =>
    match find_cells_validate spreadsheet_token sheet_id range_spec find_text
            search_by_regex with
    | Raise e => (Raise e, w)
    | Ok (spreadsheet_token', sheet_id', range_spec', find_text') =>
        let (r, w') :=
          find_cells_try spreadsheet_token' sheet_id' range_spec' find_text'
            match_case match_entire_cell search_by_regex include_formulas w in
        (except_clauses find_cells_remap find_cells_prefix r, w')
    end.

End Operations.

(** ** Notions used to state the properties *)

(** [needle in hay]. *)
Fixpoint contains (needle hay : string) : bool :=
  String.prefix needle hay ||
  match hay with
  | "" => false
  | String _ rest => contains needle rest
  end.

(** The wording by which a localized message says that the entity does not
    exist. *)
Definition says_does_not_exist (m : string) : bool := contains "不存在" m.





Inductive ErrorCategory : Type :=
| Validation | Authentication | Permission | NotFound
| FormatInvalid | SizeLimit | RateLimited | Unknown.

(** A range string without the [sheetId!] prefix: no ["!"] in it, as in
    ["A1:B10"]. *)
Definition lacks_sheet_prefix (range_spec : string) : Prop :=
  RangeSpecValidator.split_first "!" range_spec = None.

Section Notions.

Context {models : Models} {re : PyRe} {client : ApiClient}.

(** Modelled from the spec: the code-to-category table ([ErrorCodeMapping]
    of [models/error_handling.py]) is not among the sources.  Sections 4.3
    and 8 fix three rows (1310214 NotFound, 1310213 Permission, 1310218
    SizeLimit), send a code matching the authentication predicate to
    Authentication and every other code to Unknown. *)
Definition classify (e : FeishuAPIError) : ErrorCategory :=
  if (code e =? 1310214)%Z then NotFound
  else if (code e =? 1310213)%Z then Permission
  else if (code e =? 1310218)%Z then SizeLimit
  else if is_authentication_error e then Authentication
  else Unknown.

(** What the client answers to a sequence of calls, and its state after. *)
Fixpoint replies (s : St) (calls : list api_call)
  : list (result pyval) * St :=
  match calls with
  | [] => ([], s)
  | c :: rest =>
      let (r, s1) := api c s in
      let (rs, s') := replies s1 rest in
      (r :: rs, s')
  end.

(** The page token a response carries ([None] when it has none). *)
Definition token_of (response : pyval) : pyval :=
  match response_page_token response with
  | Ok t => t
  | Raise _ => PNone
  end.

(** The listing request that follows a page token: the token is passed back
    when there is one. *)
Definition list_files_request (folder_token : option string)
           (page_size page_token : pyval) : api_call :=
  Call_list_files folder_token page_size
    (if py_truthy page_token then Some page_token else None).

(** The requests of a listing that receives [pages] and then asks once
    more: the first without a token, each later one with the token of the
    page before it. *)
Definition page_requests (folder_token : option string) (page_size : pyval)
           (pages : list pyval) : list api_call :=
  map (list_files_request folder_token page_size)
      (PNone :: map token_of pages).

(** What a listing keeps of one entry: the document, when the entry is of
    kind "sheet" and its record can be built. *)
Definition kept (file_data : pyval) : list SpreadsheetInfo :=
  match py_get file_data "type" PNone with
  | Ok ty =>
      if py_eq_str ty "sheet" then
        match SpreadsheetInfo_from_api_response file_data with
        | Ok spreadsheet => [spreadsheet]
        | Raise _ => []
        end
      else []
  | Raise _ => []
  end.

Definition page_documents (response : pyval) : list SpreadsheetInfo :=
  match response_files response with
  | Ok items => flat_map kept items
  | Raise _ => []
  end.

Definition documents (pages : list pyval) : list SpreadsheetInfo :=
  flat_map page_documents pages.

(** An entry of a page is a JSON object; when it is of kind "sheet" the
    record constructor either builds the record or rejects the entry as
    malformed ([ValueError]). *)
Definition entry_well_typed (file_data : pyval) : bool :=
  match file_data with
  | PDict _ =>
      match py_get file_data "type" PNone with
      | Ok ty =>
          if py_eq_str ty "sheet" then
            match SpreadsheetInfo_from_api_response file_data with
            | Ok _ => true
            | Raise (ValueError _) => true
            | Raise _ => false
            end
          else true
      | Raise _ => false
      end
  | _ => false
  end.

(** A page is an envelope whose file list and page token can be read and
    whose entries are well typed. *)
Definition page_well_typed (response : pyval) : bool :=
  match response_files response, response_page_token response with
  | Ok items, Ok _ => forallb entry_well_typed items
  | _, _ => false
  end.

(** The provider announces a further page. *)
Definition has_next (response : pyval) : bool := py_truthy (token_of response).

(** An entry of a batch response either maps to a record or is rejected as
    malformed ([ValueError]). *)
Definition range_entry_well_typed (range_data : pyval) : bool :=
  match RangeData_from_api_response range_data with
  | Ok _ => true
  | Raise (ValueError _) => true
  | Raise _ => false
  end.

(** Entry by entry, from index [i] on: the mapped record, or the placeholder
    for that index. *)
Fixpoint mapped_ranges (validated_ranges : list string) (i : nat)
         (value_ranges : list pyval) : list RangeData :=
  match value_ranges with
  | [] => []
  | range_data :: rest =>
      match RangeData_from_api_response range_data with
      | Ok result => result
      | Raise _ => placeholder validated_ranges i
      end :: mapped_ranges validated_ranges (S i) rest
  end.

(** The member ranges validate one by one, to [validated]. *)
Definition all_valid (ranges validated : list string) : Prop :=
  Forall2 (fun r v => validate_range_spec r = Ok v) ranges validated.

(** The page size carried by a listing request. *)
Definition call_page_size (c : api_call) : option pyval :=
  match c with
  | Call_list_files _ page_size _ => Some page_size
  | _ => None
  end.

(** The shape all five operations share: arguments are validated before the
    [try]; the body runs inside it; the two [except] clauses close it. *)
Definition guarded {A B : Type} (validated : result B) (body : B -> M A)
           (remap : FeishuAPIError -> FeishuAPIError) (prefix : string)
  : M A :=
  fun w =>
    match validated with
    | Raise e => (Raise e, w)
    | Ok b =>
        let (r, w') := body b w in
        (except_clauses remap prefix r, w')
    end.

(** How the loop ends when [reply] answers its request and closes the
    listing: by the exception raised, or with the list once the page carries
    no further token; [None] when the reply asks for another page. *)
Definition final_outcome (reply : result pyval)
           (spreadsheets : list SpreadsheetInfo)
  : option (result (list SpreadsheetInfo)) :=
  match reply with
  | Raise e => Some (Raise e)
  | Ok response =>
      match absorb_page response spreadsheets with
      | Raise e => Some (Raise e)
      | Ok (spreadsheets', page_token) =>
          if negb (py_truthy page_token) then Some (Ok spreadsheets')
          else None
      end
  end.

End Notions.

(** ** Test doubles *)

(** Stand-ins for the collaborators, on which the operations can be run: a
    client that replays scripted replies the way the tests' mocks do, record
    constructors that require the fields of the tests' fixtures, and a
    pattern compiler that knows the patterns the tests use. *)
Module TestDoubles.

(** [AsyncMock(side_effect=[...])]: each call takes the next scripted reply,
    whatever its arguments; once the script is used up the mock raises
    [StopAsyncIteration]. *)
Definition scripted : ApiClient := {|
  St := list (result pyval);
  api := fun _ script =>
    match script with
    | [] => (Raise (OtherError "StopAsyncIteration" ""), [])
    | r :: rest => (r, rest)
    end
|}.

Definition field (d : pyval) (k : string) : result pyval :=
  match d with
  | PDict kv =>
      match assoc k kv with
      | Some v => Ok v
      | None => Raise (ValueError ("Missing required field: " ++ k))
      end
  | _ => Raise (ValueError "Response data must be a dictionary")
  end.

Definition text_field (d : pyval) (k : string) : result string :=
  v <- field d k ;;
  match v with
  | PStr s => Ok s
  | _ => Raise (ValueError ("Field must be a string: " ++ k))
  end.

Record Doc : Type := mkDoc {
  doc_token : string;
  doc_name : string;
  doc_url : string
}.

Definition doc_from_api_response (d : pyval) : result Doc :=
  token <- text_field d "token" ;;
  name <- text_field d "name" ;;
  url <- text_field d "url" ;;
  Ok (mkDoc token name url).

Record Sheet : Type := mkSheet {
  sheet_id : string;
  title : string
}.

Definition sheet_from_api_response (d : pyval) : result Sheet :=
  sid <- text_field d "sheet_id" ;;
  t <- text_field d "title" ;;
  _ <- field d "index" ;;
  Ok (mkSheet sid t).

Fixpoint rows_of (l : list pyval) : result (list (list pyval)) :=
  match l with
  | [] => Ok []
  | PList row :: rest => rows <- rows_of rest ;; Ok (row :: rows)
  | _ => Raise (ValueError "values must be a list of rows")
  end.

Definition range_from_api_response (d : pyval) : result RangeData :=
  r <- text_field d "range" ;;
  dim <- text_field d "majorDimension" ;;
  vs <- field d "values" ;;
  rev <- field d "revision" ;;
  match vs, rev with
  | PList l, PInt n => rows <- rows_of l ;; Ok (mkRangeData r dim rows n)
  | _, _ => Raise (ValueError "Invalid range data")
  end.

Definition find_from_api_response (d : pyval) : result (list pyval) :=
  v <- field d "matched_cells" ;;
  match v with
  | PList l => Ok l
  | _ => Raise (ValueError "matched_cells must be a list")
  end.

Definition models : Models := {|
  validate_range_spec := RangeSpecValidator.validate_raw;
  SpreadsheetInfo := Doc;
  WorksheetInfo := Sheet;
  FindResult := list pyval;
  SpreadsheetInfo_from_api_response := doc_from_api_response;
  WorksheetInfo_from_api_response := sheet_from_api_response;
  RangeData_from_api_response := range_from_api_response;
  FindResult_from_api_response := find_from_api_response;
  is_authentication_error := fun e => (http_status e =? 401)%Z
|}.

(** The pattern compiler on the patterns used here, as CPython 3.11
    answers them: an unterminated set and a global flag after a leading
    space are [re.error]s, a repetition count of 2**32 is an
    [OverflowError]; anything else is taken to compile. *)
Definition re : PyRe := {|
  re_compile := fun pattern =>
    if pattern =? "[" then
      ReError "unterminated character set at position 0"
    else if pattern =? " (?i)a" then
      ReError "global flags not at the start of the expression at position 1"
    else if pattern =? "a{4294967296}" then
      CompileRaises
        (OtherError "OverflowError" "the repetition number is too large")
    else Compiled
|}.

(** A response envelope with the given [data]. *)
Definition envelope (data : list (string * pyval)) : pyval :=
  PDict [("code", PInt 0); ("msg", PStr "success"); ("data", PDict data)].

(** A file entry as in the tests' fixtures. *)
Definition file_entry (token name : string) : pyval :=
  PDict [("token", PStr token); ("name", PStr name); ("type", PStr "sheet");
         ("url", PStr "https://example.com/1");
         ("created_time", PStr "2023-01-01T00:00:00Z");
         ("modified_time", PStr "2023-01-01T00:00:00Z");
         ("owner_id", PStr "owner1")].

(** An entry of kind "sheet" without the required [url]. *)
Definition malformed_entry : pyval :=
  PDict [("token", PStr "invalid_sheet"); ("name", PStr "Invalid Sheet");
         ("type", PStr "sheet")].

(** An entry of another document kind. *)
Definition other_entry : pyval :=
  PDict [("token", PStr "doc1"); ("name", PStr "Notes");
         ("type", PStr "docx")].

(** The record built from [file_entry token name]. *)
Definition doc (token name : string) : Doc :=
  mkDoc token name "https://example.com/1".

(** A mock that answers one listing request with an empty page; no call
    made yet. *)
Definition empty_listing : St (ApiClient := scripted) * list api_call :=
  ([Ok (envelope [("files", PList [])])], []).

(** A provider that never stops announcing pages: every call is answered
    with an empty page carrying the token "more". *)
Definition endless : ApiClient := {|
  St := unit;
  api := fun _ s =>
    (Ok (envelope [("files", PList []); ("page_token", PStr "more")]), s)
|}.

(** A worksheet entry as in the tests' fixtures. *)
Definition sheet_entry (sheet_id title : string) : pyval :=
  PDict [("sheet_id", PStr sheet_id); ("title", PStr title);
         ("index", PInt 0); ("row_count", PInt 100);
         ("column_count", PInt 26); ("resource_type", PStr "sheet")].

(** The models with the authentication predicate forced to hold, as the
    tests do with [is_authentication_error = lambda: True]. *)
Definition always_auth_models : Models := {|
  validate_range_spec := RangeSpecValidator.validate_raw;
  SpreadsheetInfo := Doc;
  WorksheetInfo := Sheet;
  FindResult := list pyval;
  SpreadsheetInfo_from_api_response := doc_from_api_response;
  WorksheetInfo_from_api_response := sheet_from_api_response;
  RangeData_from_api_response := range_from_api_response;
  FindResult_from_api_response := find_from_api_response;
  is_authentication_error := fun _ => true
|}.

(** A constructor that fails on every entry with a [KeyError]. *)
Definition key_error_models : Models := {|
  validate_range_spec := RangeSpecValidator.validate_raw;
  SpreadsheetInfo := Doc;
  WorksheetInfo := Sheet;
  FindResult := list pyval;
  SpreadsheetInfo_from_api_response := doc_from_api_response;
  WorksheetInfo_from_api_response := sheet_from_api_response;
  RangeData_from_api_response :=
    fun _ => Raise (OtherError "KeyError" "'range'");
  FindResult_from_api_response := find_from_api_response;
  is_authentication_error := fun e => (http_status e =? 401)%Z
|}.

End TestDoubles.

(** ** The server's document tools *)

(** [server.py], lines 21-47: the argument classes of the four tools that
    work on one spreadsheet.  (The fifth tool, [list_spreadsheets], hands
    its two arguments to the operation of that name.) *)
Inductive ToolArgs : Type :=
| GetWorksheetsArgs (spreadsheet_token : string)
| ReadRangeArgs (spreadsheet_token range_spec value_render_option
                 date_time_render_option : string)
| ReadMultipleRangesArgs (spreadsheet_token : string) (ranges : list string)
                         (value_render_option date_time_render_option : string)
| FindCellsArgs (spreadsheet_token sheet_id range_spec find_text : string)
                (match_case match_entire_cell search_by_regex
                 include_formulas : bool).

(** The message by which an operation rejects a blank argument [name]: one
    wording for the empty string, another for a whitespace-only one. *)
Definition blank_message (name v : string) : string :=
  if v =? "" then name ++ " must be a non-empty string"
  else name ++ " cannot be empty or whitespace only".

(** The defaults of the argument classes. *)
Definition default_value_render_option : string := "UnformattedValue".
Definition default_date_time_render_option : string := "FormattedString".

Section Tools.

Context {models : Models} {re : PyRe} {client : ApiClient}.

(** What a tool returns: the value of its operation, whichever it is. *)
Inductive ToolResult : Type :=
| Worksheets (worksheets : list WorksheetInfo)
| Range (result : RangeData)
| Ranges (results : list RangeData)
| Found (result : FindResult).

Definition tag {A : Type} (f : A -> ToolResult) (r : result A)
  : result ToolResult :=
  a <- r ;; Ok (f a).

(** [server.py], lines 84-147: each registered tool awaits the operation of
    the same name on the server's client and returns its value. *)
Definition run_tool (args : ToolArgs) : M ToolResult :=
  fun w =>
    match args with
    | GetWorksheetsArgs tok =>
        let (r, w') := get_worksheets tok w in (tag Worksheets r, w')
    | ReadRangeArgs tok rng vro dtro =>
        let (r, w') := read_range tok rng vro dtro w in (tag Range r, w')
    | ReadMultipleRangesArgs tok ranges vro dtro =>
        let (r, w') := read_multiple_ranges tok ranges vro dtro w in
        (tag Ranges r, w')
    | FindCellsArgs tok sid rng text mc mec rx inc =>
        let (r, w') := find_cells tok sid rng text mc mec rx inc w in
        (tag Found r, w')
    end.

(** [get_worksheets], line 123:
    [response.get("data", {}).get("sheets", [])], as the loop iterates it. *)
Definition response_sheets (response : pyval) : result (list pyval) :=
  data <- py_get response "data" (PDict []) ;;
  sheets <- py_get data "sheets" (PList []) ;;
  py_iter sheets.

(** [read_range], line 224: [response.get("data", {}).get("valueRange", {})]. *)
Definition response_value_range (response : pyval) : result pyval :=
  data <- py_get response "data" (PDict []) ;;
  py_get data "valueRange" (PDict []).

(** [find_cells], line 511: [response.get("data", {}).get("find_result", {})]. *)
Definition response_find_result (response : pyval) : result pyval :=
  data <- py_get response "data" (PDict []) ;;
  py_get data "find_result" (PDict []).

(** The call a tool's arguments lead to once they pass the checks made
    before the [try], or the error of the first check that fails. *)
Definition tool_validate (args : ToolArgs) : result api_call :=
  match args with
  | GetWorksheetsArgs tok =>
      tok' <- require_text "spreadsheet_token" tok ;;
      Ok (Call_get_worksheets tok')
  | ReadRangeArgs tok rng vro dtro =>
      p <- read_range_validate tok rng vro dtro ;;
      Ok (Call_read_range (fst p) (snd p) vro dtro)
  | ReadMultipleRangesArgs tok ranges vro dtro =>
      p <- read_multiple_ranges_validate tok ranges vro dtro ;;
      Ok (Call_read_multiple_ranges (fst p) (snd p) vro dtro)
  | FindCellsArgs tok sid rng text mc mec rx inc =>
      p <- find_cells_validate tok sid rng text rx ;;
      match p with
      | (tok', sid', rng', text') =>
          Ok (Call_find_cells tok' sid' rng' text' mc mec rx inc)
      end
  end.

(** The error table and the message prefix of the operation behind a tool. *)
Definition tool_table (args : ToolArgs) : FeishuAPIError -> FeishuAPIError :=
  match args with
  | GetWorksheetsArgs _ => get_worksheets_remap
  | ReadRangeArgs _ _ _ _ => read_range_remap
  | ReadMultipleRangesArgs _ _ _ _ => read_multiple_ranges_remap
  | FindCellsArgs _ _ _ _ _ _ _ _ => find_cells_remap
  end.

Definition tool_prefix (args : ToolArgs) : string :=
  match args with
  | GetWorksheetsArgs _ => get_worksheets_prefix
  | ReadRangeArgs _ _ _ _ => read_range_prefix
  | ReadMultipleRangesArgs _ _ _ _ => read_multiple_ranges_prefix
  | FindCellsArgs _ _ _ _ _ _ _ _ => find_cells_prefix
  end.

(** The codes that have a row of their own in the table of a tool. *)
Definition tool_rows (args : ToolArgs) : list Z :=
  match args with
  | GetWorksheetsArgs _ => [1310214; 1310213]%Z
  | ReadRangeArgs _ _ _ _ =>
      [1310214; 1310215; 1310213; 1310216; 1310218]%Z
  | ReadMultipleRangesArgs _ _ _ _ =>
      [1310214; 1310215; 1310213; 1310216; 1310218]%Z
  | FindCellsArgs _ _ _ _ _ _ _ _ =>
      [1310214; 1310215; 1310213; 1310216; 1310219]%Z
  end.

(** The ranges a batch call asks for. *)
Definition call_ranges (c : api_call) : list string :=
  match c with
  | Call_read_multiple_ranges _ ranges _ _ => ranges
  | _ => []
  end.

(** The spreadsheet token a call carries. *)
Definition call_spreadsheet_token (c : api_call) : option string :=
  match c with
  | Call_list_files _ _ _ => None
  | Call_get_worksheets tok => Some tok
  | Call_read_range tok _ _ _ => Some tok
  | Call_read_multiple_ranges tok _ _ _ => Some tok
  | Call_find_cells tok _ _ _ _ _ _ _ => Some tok
  end.

(** The spreadsheet token among a tool's arguments. *)
Definition tool_spreadsheet_token (args : ToolArgs) : string :=
  match args with
  | GetWorksheetsArgs tok => tok
  | ReadRangeArgs tok _ _ _ => tok
  | ReadMultipleRangesArgs tok _ _ _ => tok
  | FindCellsArgs tok _ _ _ _ _ _ _ => tok
  end.

(** How the operation behind a tool maps the response to the call [c] into
    its value. *)
Definition tool_decode (args : ToolArgs) (c : api_call) (response : pyval)
  : result ToolResult :=
  match args with
  | GetWorksheetsArgs _ =>
      items <- response_sheets response ;;
      tag Worksheets (collect_worksheets items [])
  | ReadRangeArgs _ _ _ _ =>
      range_data <- response_value_range response ;;
      tag Range (RangeData_from_api_response range_data)
  | ReadMultipleRangesArgs _ _ _ _ =>
      items <- response_value_ranges response ;;
      tag Ranges (collect_ranges (call_ranges c) 0 items [])
  | FindCellsArgs _ _ _ _ _ _ _ _ =>
      find_data <- response_find_result response ;;
      tag Found (FindResult_from_api_response find_data)
  end.

(** The response is a JSON object in which [data], or the field [k] of
    [data], is absent. *)
Definition missing_field (response : pyval) (k : string) : bool :=
  match response with
  | PDict d =>
      match assoc "data" d with
      | None => true
      | Some (PDict d') =>
          match assoc k d' with
          | None => true
          | Some _ => false
          end
      | Some _ => false
      end
  | _ => false
  end.

(** What a worksheet listing keeps of one entry. *)
Definition kept_worksheet (worksheet_data : pyval) : list WorksheetInfo :=
  match WorksheetInfo_from_api_response worksheet_data with
  | Ok worksheet => [worksheet]
  | Raise _ => []
  end.

(** The record constructor builds the worksheet or rejects the entry as
    malformed ([ValueError]). *)
Definition worksheet_entry_well_typed (worksheet_data : pyval) : bool :=
  match WorksheetInfo_from_api_response worksheet_data with
  | Ok _ => true
  | Raise (ValueError _) => true
  | Raise _ => false
  end.

(** The page token a listing request carries. *)
Definition call_page_token (c : api_call) : option pyval :=
  match c with
  | Call_list_files _ _ page_token => page_token
  | _ => None
  end.

(** The listing requests that pass the tokens [tokens] back, in order. *)
Definition token_requests (folder_token : option string) (page_size : pyval)
           (tokens : list pyval) : list api_call :=
  map (fun t => Call_list_files folder_token page_size (Some t)) tokens.

(** A client that, from every state satisfying [inv], answers any call with
    a well-typed page announcing a further page, and stays in [inv]. *)
Definition always_more (inv : St -> Prop) : Prop :=
  forall s c,
    inv s ->
    exists response s',
      api c s = (Ok response, s')
      /\ page_well_typed response = true
      /\ has_next response = true
      /\ inv s'.

End Tools.

(** ** Proof automation *)

(** Case analysis along the rows of an error table applied to [e]. *)
Ltac table_cases e :=
  repeat match goal with
         | |- context [(code e =? ?c)%Z] =>
             let E := fresh "E" in
             destruct (Z.eqb_spec (code e) c) as [E|E]; try lia
         | |- context [@is_authentication_error ?m e] =>
             destruct (@is_authentication_error m e)
         end;
  simpl; auto.

(** * Properties *)

(** ** Trimming *)

Lemma append_nil_right (s : string) : s ++ "" = s.
Proof.
  induction s as [|c r IH]; simpl; [reflexivity|]. rewrite IH. reflexivity.
Qed.

Lemma append_associative (a b c : string) : (a ++ b) ++ c = a ++ (b ++ c).
Proof.
  induction a as [|x r IH]; simpl; [reflexivity|]. rewrite IH. reflexivity.
Qed.

(** Induction on the length of a string. *)
Lemma string_length_ind (P : string -> Prop) :
  (forall s, (forall t, (String.length t < String.length s)%nat -> P t) -> P s) ->
  forall s, P s.
Proof.
  intros Hstep s.
  remember (String.length s) as n eqn:Hn. revert s Hn.
  induction n as [n IH] using lt_wf_ind. intros s ->.
  apply Hstep. intros t Ht. exact (IH _ Ht t eq_refl).
Qed.

Lemma space_prefix_split (s rest : string) :
  space_prefix s = Some rest ->
  exists p, s = p ++ rest /\ (String.length rest < String.length s)%nat.
Proof.
  unfold space_prefix.
  destruct s as [|c1 r1]; [discriminate|].
  destruct (is_space1 c1).
  { intros H. injection H as <-. exists (String c1 ""). simpl. auto. }
  destruct r1 as [|c2 r2]; [discriminate|].
  destruct (is_space2 c1 c2).
  { intros H. injection H as <-. exists (String c1 (String c2 "")).
    simpl. auto. }
  destruct r2 as [|c3 r3]; [discriminate|].
  destruct (is_space3 c1 c2 c3); [|discriminate].
  intros H. injection H as <-.
  exists (String c1 (String c2 (String c3 ""))). simpl. auto.
Qed.

Lemma space_prefix_app (s rest t : string) :
  space_prefix s = Some rest -> space_prefix (s ++ t) = Some (rest ++ t).
Proof.
  unfold space_prefix.
  destruct s as [|c1 r1]; [discriminate|]. cbn [append].
  destruct (is_space1 c1); [intros H; injection H as <-; reflexivity|].
  destruct r1 as [|c2 r2]; [discriminate|]. cbn [append].
  destruct (is_space2 c1 c2); [intros H; injection H as <-; reflexivity|].
  destruct r2 as [|c3 r3]; [discriminate|]. cbn [append].
  destruct (is_space3 c1 c2 c3); [|discriminate].
  intros H. injection H as <-. reflexivity.
Qed.

Lemma lstrip_unfold (s : string) :
  lstrip s = match space_prefix s with
             | Some rest => lstrip rest
             | None => s
             end.
Proof.
  destruct s as [|c1 r1]; [reflexivity|]. cbn [lstrip space_prefix].
  destruct (is_space1 c1); [reflexivity|].
  destruct r1 as [|c2 r2]; [reflexivity|].
  destruct (is_space2 c1 c2); [reflexivity|].
  destruct r2 as [|c3 r3]; [reflexivity|].
  destruct (is_space3 c1 c2 c3); reflexivity.
Qed.

Lemma all_space_unfold (s : string) :
  all_space s = match s with
                | "" => true
                | _ => match space_prefix s with
                       | Some rest => all_space rest
                       | None => false
                       end
                end.
Proof.
  destruct s as [|c1 r1]; [reflexivity|]. cbn [all_space space_prefix].
  destruct (is_space1 c1); [reflexivity|].
  destruct r1 as [|c2 r2]; [reflexivity|].
  destruct (is_space2 c1 c2); [reflexivity|].
  destruct r2 as [|c3 r3]; [reflexivity|].
  destruct (is_space3 c1 c2 c3); reflexivity.
Qed.

(** [lstrip] cuts a prefix off, and what it leaves does not start with
    whitespace. *)
Lemma lstrip_suffix (s : string) : exists p, s = p ++ lstrip s.
Proof.
  induction s as [s IH] using string_length_ind.
  rewrite lstrip_unfold.
  destruct (space_prefix s) as [rest|] eqn:E.
  - destruct (space_prefix_split _ _ E) as (p0 & -> & Hlen).
    destruct (IH rest Hlen) as [p1 Hp1].
    exists (p0 ++ p1). rewrite append_associative, <- Hp1. reflexivity.
  - exists "". reflexivity.
Qed.

Lemma lstrip_no_space_prefix (s : string) : space_prefix (lstrip s) = None.
Proof.
  induction s as [s IH] using string_length_ind.
  rewrite lstrip_unfold.
  destruct (space_prefix s) as [rest|] eqn:E; [|exact E].
  destruct (space_prefix_split _ _ E) as (p0 & _ & Hlen).
  exact (IH rest Hlen).
Qed.

Lemma lstrip_idempotent (s : string) : lstrip (lstrip s) = lstrip s.
Proof.
  rewrite (lstrip_unfold (lstrip s)), lstrip_no_space_prefix. reflexivity.
Qed.

(** Whitespace followed by [b] is whitespace only when [b] is. *)
Lemma all_space_app (a b : string) :
  all_space a = true -> all_space (a ++ b) = all_space b.
Proof.
  induction a as [a IH] using string_length_ind.
  destruct a as [|c r]; [reflexivity|].
  rewrite all_space_unfold.
  destruct (space_prefix (String c r)) as [rest|] eqn:E; [|discriminate].
  intros Hrest.
  destruct (space_prefix_split _ _ E) as (p0 & _ & Hlen).
  rewrite (all_space_unfold (String c r ++ b)).
  cbn [append]. change (String c (r ++ b)) with (String c r ++ b).
  rewrite (space_prefix_app _ _ b E).
  exact (IH rest Hlen Hrest).
Qed.

(** [rstrip] cuts a whitespace suffix off. *)
Lemma rstrip_split (s : string) :
  exists q, s = rstrip s ++ q /\ all_space q = true.
Proof.
  induction s as [|c r IH]; [exists ""; auto|].
  cbn [rstrip]. destruct (all_space (String c r)) eqn:E.
  - exists (String c r). auto.
  - destruct IH as (q & Hq & Hspace). exists q. split; [|exact Hspace].
    cbn [append]. rewrite <- Hq. reflexivity.
Qed.

Lemma rstrip_idempotent (s : string) : rstrip (rstrip s) = rstrip s.
Proof.
  induction s as [|c r IH]; [reflexivity|].
  cbn [rstrip]. destruct (all_space (String c r)) eqn:E; [reflexivity|].
  cbn [rstrip]. rewrite IH.
  destruct (all_space (String c (rstrip r))) eqn:E'; [|reflexivity].
  exfalso. destruct (rstrip_split r) as (q & Hq & Hspace).
  pose proof (all_space_app (String c (rstrip r)) q E') as Happ.
  cbn [append] in Happ. rewrite <- Hq, Hspace, E in Happ. discriminate.
Qed.

(** A text without trailing whitespace has none after a prefix is cut off. *)
Lemma rstrip_fixed_suffix (a b : string) :
  rstrip (a ++ b) = a ++ b -> rstrip b = b.
Proof.
  induction a as [|c r IH]; [trivial|].
  cbn [append rstrip].
  destruct (all_space (String c (r ++ b))); [discriminate|].
  intros H. injection H as H. exact (IH H).
Qed.

Lemma strip_idempotent (s : string) : strip (strip s) = strip s.
Proof.
  unfold strip.
  destruct (lstrip_suffix (rstrip s)) as [p Hp].
  assert (Hfixed : rstrip (lstrip (rstrip s)) = lstrip (rstrip s)).
  { apply (rstrip_fixed_suffix p). rewrite <- Hp. apply rstrip_idempotent. }
  rewrite Hfixed. apply lstrip_idempotent.
Qed.

(** ** The range-spec validator *)

Lemma validate_raw_value (x y : string) :
  RangeSpecValidator.validate_raw x = Ok y -> y = strip x.
Proof.
  unfold RangeSpecValidator.validate_raw, RangeSpecValidator.validate.
  destruct (strip x =? ""); [discriminate|].
  destruct (RangeSpecValidator.split_first "!" (strip x)) as [[sid cells]|];
    [|discriminate].
  destruct (sid =? ""); [discriminate|].
  destruct (RangeSpecValidator.parse_cells cells) as [[c1 c2]|];
    [|discriminate].
  simpl. intros H. injection H as H. symmetry. exact H.
Qed.

Lemma validate_value (x : string) (rs : RangeSpecValidator.RangeSpec) :
  RangeSpecValidator.validate x = Ok rs ->
  RangeSpecValidator.raw rs = strip x.
Proof.
  intros H. apply validate_raw_value.
  unfold RangeSpecValidator.validate_raw. rewrite H. reflexivity.
Qed.

Lemma validate_strip (x : string) :
  RangeSpecValidator.validate (strip x) = RangeSpecValidator.validate x.
Proof.
  unfold RangeSpecValidator.validate. rewrite strip_idempotent. reflexivity.
Qed.

(** C9.  The range-spec validator trims surrounding whitespace before
    matching and is idempotent: validating a validated string gives the same
    result again, both for the RangeSpec ([validate(validate(x).raw) ==
    validate(x)]) and for the string the operations use ([validate(validate(x))
    == validate(x)]); and [validate(" Sheet1!A1:B10 ")] equals
    [validate("Sheet1!A1:B10")], namely the trimmed string. *)
Theorem C9_validate_idempotent (x y : string) :
  RangeSpecValidator.validate_raw x = Ok y ->
  RangeSpecValidator.validate_raw y = RangeSpecValidator.validate_raw x
  /\ RangeSpecValidator.validate y = RangeSpecValidator.validate x
  /\ RangeSpecValidator.validate_raw (strip x) = RangeSpecValidator.validate_raw x
  /\ (forall rs, RangeSpecValidator.validate x = Ok rs ->
        RangeSpecValidator.validate (RangeSpecValidator.raw rs) = Ok rs)
  /\ RangeSpecValidator.validate_raw " Sheet1!A1:B10 "
     = RangeSpecValidator.validate_raw "Sheet1!A1:B10".
Proof.
  intros H.
  pose proof (validate_raw_value _ _ H) as Hy. subst y.
  repeat split.
  - unfold RangeSpecValidator.validate_raw. rewrite validate_strip. reflexivity.
  - apply validate_strip.
  - unfold RangeSpecValidator.validate_raw. rewrite validate_strip. reflexivity.
  - intros rs Hrs. rewrite (validate_value _ _ Hrs), validate_strip. exact Hrs.
Qed.

Lemma C9_validate_idempotent_witness :
  RangeSpecValidator.validate_raw " Sheet1!A1:B10 " = Ok "Sheet1!A1:B10"
  /\ RangeSpecValidator.validate_raw "Sheet1!A1:B10"
     = RangeSpecValidator.validate_raw " Sheet1!A1:B10 ".
Proof.
  split; [reflexivity|].
  apply (C9_validate_idempotent " Sheet1!A1:B10 " "Sheet1!A1:B10").
  reflexivity.
Defined.

(** A string without ["!"] has no [sheetId!] prefix, trimmed or not. *)
Lemma split_first_app_none (c : ascii) (a b : string) :
  RangeSpecValidator.split_first c (a ++ b) = None ->
  RangeSpecValidator.split_first c a = None
  /\ RangeSpecValidator.split_first c b = None.
Proof.
  induction a as [|x r IH]; [auto|].
  cbn [append RangeSpecValidator.split_first].
  destruct (Ascii.eqb x c); [discriminate|].
  destruct (RangeSpecValidator.split_first c (r ++ b)) as [[u v]|] eqn:E;
    [discriminate|].
  intros _. destruct (IH eq_refl) as [Ha Hb]. rewrite Ha. auto.
Qed.

Lemma split_first_lstrip_none (c : ascii) (s : string) :
  RangeSpecValidator.split_first c s = None ->
  RangeSpecValidator.split_first c (lstrip s) = None.
Proof.
  intros H. destruct (lstrip_suffix s) as [p Hp]. rewrite Hp in H.
  exact (proj2 (split_first_app_none c p (lstrip s) H)).
Qed.

Lemma split_first_rstrip_none (c : ascii) (s : string) :
  RangeSpecValidator.split_first c s = None ->
  RangeSpecValidator.split_first c (rstrip s) = None.
Proof.
  intros H. destruct (rstrip_split s) as (q & Hq & _). rewrite Hq in H.
  exact (proj1 (split_first_app_none c (rstrip s) q H)).
Qed.

Lemma validate_raw_without_prefix (x : string) :
  RangeSpecValidator.split_first "!" x = None ->
  exists m, RangeSpecValidator.validate_raw x = Raise (ValueError m).
Proof.
  intros H.
  unfold RangeSpecValidator.validate_raw, RangeSpecValidator.validate, strip.
  rewrite (split_first_lstrip_none _ _ (split_first_rstrip_none _ _ H)).
  destruct (lstrip (rstrip x) =? ""); simpl; eauto.
Qed.

Lemma validate_raw_raises_value_error (x : string) (e : exn) :
  RangeSpecValidator.validate_raw x = Raise e -> exists m, e = ValueError m.
Proof.
  unfold RangeSpecValidator.validate_raw, RangeSpecValidator.validate.
  destruct (strip x =? ""); simpl; [intros H; injection H as <-; eauto|].
  destruct (RangeSpecValidator.split_first "!" (strip x)) as [[sid cells]|];
    simpl; [|intros H; injection H as <-; eauto].
  destruct (sid =? ""); simpl; [intros H; injection H as <-; eauto|].
  destruct (RangeSpecValidator.parse_cells cells) as [[c1 c2]|]; simpl;
    [discriminate|intros H; injection H as <-; eauto].
Qed.

Lemma require_text_raises_value_error (name v : string) (e : exn) :
  require_text name v = Raise e -> exists m, e = ValueError m.
Proof.
  unfold require_text.
  destruct (v =? ""); [intros H; injection H as <-; eauto|].
  destruct (strip v =? ""); [intros H; injection H as <-; eauto|discriminate].
Qed.

Section ValidationProperties.

Context {models : Models} {re : PyRe} {client : ApiClient}.

Lemma validate_ranges_from_ok (ranges validated : list string) :
  all_valid ranges validated ->
  forall i, validate_ranges_from i ranges = Ok validated.
Proof.
  induction 1 as [|r v rs vs Hr _ IH]; intros i; simpl; [reflexivity|].
  rewrite Hr, IH. reflexivity.
Qed.

Lemma validate_ranges_from_first_error (ranges : list string) :
  forall (k i : nat) (r e : string),
    nth_error ranges k = Some r ->
    validate_range_spec r = Raise (ValueError e) ->
    (forall j r', (j < k)%nat -> nth_error ranges j = Some r' ->
                  exists v, validate_range_spec r' = Ok v) ->
    validate_ranges_from i ranges
    = Raise (ValueError ("Invalid range at index " ++ str_of_nat (i + k)
                         ++ ": " ++ e)).
Proof.
  induction ranges as [|r0 rest IH]; intros k i r e Hk He Hbefore.
  - destruct k; discriminate.
  - destruct k as [|k]; simpl in *.
    + injection Hk as ->. rewrite He, Nat.add_0_r. reflexivity.
    + destruct (Hbefore 0%nat r0 (Nat.lt_0_succ k) eq_refl) as [v Hv].
      rewrite Hv.
      rewrite (IH k (S i) r e Hk He).
      * simpl. rewrite Nat.add_succ_r. reflexivity.
      * intros j r' Hj Hr'. apply (Hbefore (S j) r'); [lia|exact Hr'].
Qed.

Lemma validate_ranges_from_member_error (ranges : list string) :
  (forall r e, validate_range_spec r = Raise e -> exists m, e = ValueError m) ->
  forall (i : nat) (r : string) (m : string),
    In r ranges ->
    validate_range_spec r = Raise (ValueError m) ->
    exists m', validate_ranges_from i ranges = Raise (ValueError m').
Proof.
  intros Honly.
  induction ranges as [|r0 rest IH]; intros i r m Hin Hr; [destruct Hin|].
  simpl. destruct (validate_range_spec r0) as [v|e] eqn:E0.
  - destruct Hin as [->|Hin]; [congruence|].
    destruct (IH (S i) r m Hin Hr) as [m' ->]. simpl. eauto.
  - destruct (Honly _ _ E0) as [m0 ->]. eauto.
Qed.

End ValidationProperties.

Section InputValidation.

Context {models : Models} {re : PyRe} {client : ApiClient}.

Lemma read_range_invalid_range (tok r vro dtro m : string) (w : world) :
  validate_range_spec r = Raise (ValueError m) ->
  exists m', read_range tok r vro dtro w = (Raise (ValueError m'), w).
Proof.
  intros Hr. unfold read_range, read_range_validate.
  destruct (require_text "spreadsheet_token" tok) as [tok'|e] eqn:Et; simpl.
  - rewrite Hr. simpl. eauto.
  - destruct (require_text_raises_value_error _ _ _ Et) as [m' ->]. eauto.
Qed.

Lemma validate_ranges_member_error (ranges : list string) (r m : string) :
  (forall r e, validate_range_spec r = Raise e -> exists m, e = ValueError m) ->
  In r ranges ->
  validate_range_spec r = Raise (ValueError m) ->
  exists m', validate_ranges ranges = Raise (ValueError m').
Proof.
  intros Honly Hin Hr. unfold validate_ranges.
  destruct (List.length ranges =? 0)%nat; [eauto|].
  destruct (100 <? List.length ranges)%nat; [eauto|].
  eapply validate_ranges_from_member_error; eauto.
Qed.

Lemma read_multiple_ranges_invalid (tok : string) (ranges : list string)
      (vro dtro m : string) (w : world) :
  validate_ranges ranges = Raise (ValueError m) ->
  exists m',
    read_multiple_ranges tok ranges vro dtro w = (Raise (ValueError m'), w).
Proof.
  intros Hr. unfold read_multiple_ranges, read_multiple_ranges_validate.
  destruct (require_text "spreadsheet_token" tok) as [tok'|e] eqn:Et; simpl.
  - rewrite Hr. simpl. eauto.
  - destruct (require_text_raises_value_error _ _ _ Et) as [m' ->]. eauto.
Qed.

Lemma find_cells_invalid_regex (tok sid rng text m : string)
      (mc mec inc : bool) (w : world) :
  re_compile (strip text) = ReError m ->
  exists m',
    find_cells tok sid rng text mc mec true inc w = (Raise (ValueError m'), w).
Proof.
  intros Hre. unfold find_cells, find_cells_validate.
  destruct (require_text "spreadsheet_token" tok) as [tok'|e] eqn:Et; simpl;
    [|destruct (require_text_raises_value_error _ _ _ Et) as [m' ->]; eauto].
  destruct (require_text "sheet_id" sid) as [sid'|e] eqn:Es; simpl;
    [|destruct (require_text_raises_value_error _ _ _ Es) as [m' ->]; eauto].
  destruct (require_text "range_spec" rng) as [rng'|e] eqn:Er; simpl;
    [|destruct (require_text_raises_value_error _ _ _ Er) as [m' ->]; eauto].
  destruct (require_text "find_text" text) as [text'|e] eqn:Ef; simpl;
    [|destruct (require_text_raises_value_error _ _ _ Ef) as [m' ->]; eauto].
  assert (text' = strip text) as ->.
  { unfold require_text in Ef. destruct (text =? ""); [discriminate|].
    destruct (strip text =? ""); [discriminate|]. congruence. }
  unfold validate_regex. rewrite Hre. simpl. eauto.
Qed.

(** C3, as the code has it.  With the validator of section 4.5, a range
    string lacking the [sheetId!] prefix makes [read_range] raise a
    Validation error ([ValueError]), and so does [read_multiple_ranges] as
    soon as one member of the list lacks it; a search text on whose trimmed
    form the pattern compiler raises [re.error] makes [find_cells] with
    [search_by_regex=true] raise one too.  In each case the world comes back
    as it was given: the client was not called and its log has no new
    entry. *)
Theorem C3_invalid_input_raises_before_any_call (w : world) :
  (forall r, validate_range_spec r = RangeSpecValidator.validate_raw r) ->
  (forall tok r vro dtro,
      lacks_sheet_prefix r ->
      exists m, read_range tok r vro dtro w = (Raise (ValueError m), w))
  /\ (forall tok ranges r vro dtro,
         In r ranges -> lacks_sheet_prefix r ->
         exists m,
           read_multiple_ranges tok ranges vro dtro w
           = (Raise (ValueError m), w))
  /\ (forall tok sid rng text mc mec inc m,
         re_compile (strip text) = ReError m ->
         exists m',
           find_cells tok sid rng text mc mec true inc w
           = (Raise (ValueError m'), w)).
Proof.
  intros Hv. split; [|split].
  - intros tok r vro dtro Hr.
    destruct (validate_raw_without_prefix r Hr) as [m Hm].
    apply read_range_invalid_range with (m := m). rewrite Hv. exact Hm.
  - intros tok ranges r vro dtro Hin Hr.
    destruct (validate_raw_without_prefix r Hr) as [m Hm].
    destruct (validate_ranges_member_error ranges r m) as [m' Hm'].
    + intros r0 e. rewrite Hv. apply validate_raw_raises_value_error.
    + exact Hin.
    + rewrite Hv. exact Hm.
    + apply read_multiple_ranges_invalid with (m := m'). exact Hm'.
  - intros tok sid rng text mc mec inc m Hre.
    apply find_cells_invalid_regex with (m := m). exact Hre.
Qed.

End InputValidation.

Lemma C3_invalid_input_raises_before_any_call_witness :
  (exists m,
      read_range (models := TestDoubles.models) (client := TestDoubles.scripted)
        "test_token" "A1:B10" "UnformattedValue" "FormattedString" ([], [])
      = (Raise (ValueError m), ([], [])))
  /\ (exists m,
         read_multiple_ranges (models := TestDoubles.models)
           (client := TestDoubles.scripted)
           "test_token" ["Sheet1!A1:B2"; "A1:B10"] "UnformattedValue"
           "FormattedString" ([], [])
         = (Raise (ValueError m), ([], [])))
  /\ (exists m,
         find_cells (models := TestDoubles.models) (re := TestDoubles.re)
           (client := TestDoubles.scripted)
           "test_token" "sheet123" "A1:B10" "[" false false true false ([], [])
         = (Raise (ValueError m), ([], []))).
Proof.
  destruct (C3_invalid_input_raises_before_any_call
              (models := TestDoubles.models) (re := TestDoubles.re)
              (client := TestDoubles.scripted) ([], []) (fun r => eq_refl))
    as (H1 & H2 & H3).
  split; [|split].
  - apply H1. reflexivity.
  - apply H2 with (r := "A1:B10"); [simpl; auto | reflexivity].
  - apply H3 with (m := "unterminated character set at position 0").
    reflexivity.
Defined.

(** What is compiled is the trimmed search text.  The text [" (?i)a"] does
    not compile as it stands (the flag does not open the expression), yet
    [find_cells] trims it to ["(?i)a"], finds that this compiles, and calls
    the client with it. *)
Lemma C3_untrimmed_text_that_does_not_compile_is_sent :
  re_compile (PyRe := TestDoubles.re) " (?i)a"
  = ReError "global flags not at the start of the expression at position 1"
  /\ find_cells (models := TestDoubles.models) (re := TestDoubles.re)
       (client := TestDoubles.scripted)
       "test_token" "sheet123" "A1:B10" " (?i)a" false false true false
       ([Ok (TestDoubles.envelope
               [("find_result",
                 PDict [("matched_cells", PList [PStr "A1:A1"])])])], [])
     = (Ok [PStr "A1:A1"],
        ([], [Call_find_cells "test_token" "sheet123" "A1:B10" "(?i)a" false
                false true false])).
Proof.
  split; reflexivity.
Qed.

Section BatchLimits.

Context {models : Models} {client : ApiClient}.

Lemma all_valid_length (ranges validated : list string) :
  all_valid ranges validated -> List.length validated = List.length ranges.
Proof.
  induction 1; simpl; congruence.
Qed.

Lemma read_multiple_ranges_log (tok tok' : string)
      (ranges validated : list string) (vro dtro : string) (w : world) :
  read_multiple_ranges_validate tok ranges vro dtro = Ok (tok', validated) ->
  snd (snd (read_multiple_ranges tok ranges vro dtro w))
  = (snd w ++ [Call_read_multiple_ranges tok' validated vro dtro])%list.
Proof.
  intros Hv. unfold read_multiple_ranges. rewrite Hv.
  unfold read_multiple_ranges_try, call_api.
  destruct (api _ (fst w)) as [r s']. reflexivity.
Qed.

(** C4.  [read_multiple_ranges] with an empty list, or with more than 100
    ranges, raises a Validation error ([ValueError]) and leaves the world as
    it was: no call.  When the first invalid member is at index [i], the
    error reads "Invalid range at index i: ..." with the validator's message,
    again without a call.  A list of 1 to 100 valid ranges (so one of exactly
    100) goes on to exactly one client call, the batched read of the
    validated ranges. *)
Theorem C4_batch_size_limits (tok : string) (ranges : list string)
        (vro dtro : string) (w : world) :
  (List.length ranges = 0%nat \/ (100 < List.length ranges)%nat ->
   exists m,
     read_multiple_ranges tok ranges vro dtro w = (Raise (ValueError m), w))
  /\ (forall tok' i r e,
         require_text "spreadsheet_token" tok = Ok tok' ->
         (List.length ranges <= 100)%nat ->
         nth_error ranges i = Some r ->
         validate_range_spec r = Raise (ValueError e) ->
         (forall j r', (j < i)%nat -> nth_error ranges j = Some r' ->
                       exists v, validate_range_spec r' = Ok v) ->
         read_multiple_ranges tok ranges vro dtro w
         = (Raise (ValueError ("Invalid range at index " ++ str_of_nat i
                               ++ ": " ++ e)), w))
  /\ (forall tok' validated,
         require_text "spreadsheet_token" tok = Ok tok' ->
         (0 < List.length ranges <= 100)%nat ->
         all_valid ranges validated ->
         validate_render_options vro dtro = Ok tt ->
         snd (snd (read_multiple_ranges tok ranges vro dtro w))
         = (snd w ++ [Call_read_multiple_ranges tok' validated vro dtro])%list).
Proof.
  split; [|split].
  - intros Hlen.
    apply read_multiple_ranges_invalid
      with (m := if (List.length ranges =? 0)%nat
                 then "ranges cannot be empty"
                 else "ranges cannot contain more than 100 items").
    unfold validate_ranges.
    destruct Hlen as [H0|H100].
    + rewrite H0. reflexivity.
    + destruct (Nat.eqb_spec (List.length ranges) 0); [lia|].
      apply Nat.ltb_lt in H100. rewrite H100. reflexivity.
  - intros tok' i r e Ht Hlen Hi Hr Hbefore.
    unfold read_multiple_ranges, read_multiple_ranges_validate.
    rewrite Ht. simpl. unfold validate_ranges.
    assert (Hpos : (i < List.length ranges)%nat).
    { apply nth_error_Some. congruence. }
    destruct (Nat.eqb_spec (List.length ranges) 0); [lia|].
    destruct (Nat.ltb_spec 100 (List.length ranges)); [lia|].
    rewrite (validate_ranges_from_first_error ranges i 0 r e Hi Hr Hbefore).
    reflexivity.
  - intros tok' validated Ht Hlen Hall Hopt.
    apply read_multiple_ranges_log.
    unfold read_multiple_ranges_validate. rewrite Ht. simpl.
    unfold validate_ranges.
    destruct (Nat.eqb_spec (List.length ranges) 0); [lia|].
    destruct (Nat.ltb_spec 100 (List.length ranges)); [lia|].
    rewrite (validate_ranges_from_ok _ _ Hall). simpl.
    rewrite Hopt. reflexivity.
Qed.

End BatchLimits.

Lemma C4_batch_size_limits_witness :
  (exists m,
      read_multiple_ranges (models := TestDoubles.models)
        (client := TestDoubles.scripted)
        "test_token" (repeat "range" 101) "UnformattedValue" "FormattedString"
        ([], [])
      = (Raise (ValueError m), ([], [])))
  /\ read_multiple_ranges (models := TestDoubles.models)
       (client := TestDoubles.scripted)
       "test_token" ["Sheet1!A1:B2"; "invalid"] "UnformattedValue"
       "FormattedString" ([], [])
     = (Raise (ValueError
                 "Invalid range at index 1: Range specification must include a sheet ID (format: sheetId!A1:B10)"),
        ([], []))
  /\ snd (snd (read_multiple_ranges (models := TestDoubles.models)
                 (client := TestDoubles.scripted)
                 "test_token" (repeat "Sheet1!A1:B2" 100) "UnformattedValue"
                 "FormattedString" ([], [])))
     = [Call_read_multiple_ranges "test_token" (repeat "Sheet1!A1:B2" 100)
          "UnformattedValue" "FormattedString"].
Proof.
  split; [|split].
  - apply (C4_batch_size_limits (models := TestDoubles.models)
             (client := TestDoubles.scripted)).
    right. simpl. lia.
  - apply (C4_batch_size_limits (models := TestDoubles.models)
             (client := TestDoubles.scripted)
             "test_token" ["Sheet1!A1:B2"; "invalid"] "UnformattedValue"
             "FormattedString" ([], []))
      with (tok' := "test_token") (i := 1%nat) (r := "invalid").
    + reflexivity.
    + simpl. lia.
    + reflexivity.
    + reflexivity.
    + intros j r' Hj Hr'. assert (j = 0%nat) as -> by lia.
      injection Hr' as <-. exists "Sheet1!A1:B2". reflexivity.
  - apply (C4_batch_size_limits (models := TestDoubles.models)
             (client := TestDoubles.scripted)
             "test_token" (repeat "Sheet1!A1:B2" 100) "UnformattedValue"
             "FormattedString" ([], []))
      with (tok' := "test_token").
    + reflexivity.
    + simpl. lia.
    + unfold all_valid. simpl. repeat (apply Forall2_cons; [reflexivity|]).
      apply Forall2_nil.
    + reflexivity.
Defined.

(** ** Listing documents *)

Section Listing.

Context {models : Models} {client : ApiClient}.

(** Every iteration of the loop issues the same kind of request, with the
    page size the loop was entered with; the first one as soon as there is
    fuel for it. *)
Lemma list_spreadsheets_loop_log (fuel : nat) (ft : option string)
      (ps : pyval) :
  forall (tok : pyval) (acc : list SpreadsheetInfo) (w : world),
  exists new,
    snd (snd (list_spreadsheets_loop fuel ft ps tok acc w))
    = (snd w ++ new)%list
    /\ Forall (fun c => call_page_size c = Some ps) new
    /\ ((0 < fuel)%nat ->
        exists rest, new = list_files_request ft ps tok :: rest).
Proof.
  induction fuel as [|fuel IH]; intros tok acc w; simpl.
  - exists []. rewrite app_nil_r. repeat split; [constructor|lia].
  - unfold call_api.
    destruct (api _ (fst w)) as [[response|e] s'] eqn:Eapi.
    + destruct (absorb_page response acc) as [[acc' tok']|e].
      * destruct (negb (py_truthy tok')).
        -- eexists [_]. simpl. repeat split; [repeat constructor|eauto].
        -- destruct (IH tok' acc'
                       (s', (snd w ++ [list_files_request ft ps tok])%list))
             as (new & Hlog & Hall & _).
           exists (list_files_request ft ps tok :: new).
           unfold list_files_request in *. rewrite Hlog. simpl.
           rewrite <- app_assoc. simpl.
           repeat split; [constructor; [reflexivity|exact Hall]|eauto].
      * eexists [_]. simpl. repeat split; [repeat constructor|eauto].
    + eexists [_]. simpl. repeat split; [repeat constructor|eauto].
Qed.

Lemma list_spreadsheets_log (fuel : nat) (ft ft' : option string)
      (p ps : pyval) (w : world) :
  validate_page_size p = Ok ps ->
  exists new,
    snd (snd (list_spreadsheets fuel ft p w)) = (snd w ++ new)%list
    /\ Forall (fun c => call_page_size c = Some ps) new
    /\ (validate_folder_token ft = Ok ft' -> (0 < fuel)%nat ->
        exists rest, new = Call_list_files ft' ps None :: rest).
Proof.
  intros Hp. unfold list_spreadsheets. rewrite Hp.
  destruct (validate_folder_token ft) as [ft0|e].
  - destruct (list_spreadsheets_loop_log fuel ft0 ps PNone [] w)
      as (new & Hlog & Hall & Hfirst).
    destruct (list_spreadsheets_loop fuel ft0 ps PNone [] w) as [r w'].
    exists new. simpl in *. repeat split; [exact Hlog|exact Hall|].
    intros Hft Hfuel. injection Hft as <-. exact (Hfirst Hfuel).
  - exists []. simpl. rewrite app_nil_r.
    repeat split; [constructor|discriminate].
Qed.

(** C2.  For a page size above 200 every call [list_spreadsheets] issues
    carries [page_size = 200]; for a page size from 1 to 200 every call
    carries the page size as given; in both cases a first call is issued once
    the folder token is accepted.  A page size that is not an integer, or is
    zero or negative, raises the Validation error before any call: the world
    comes back untouched. *)
Theorem C2_page_size_capping (fuel : nat) (ft : option string) (p : pyval)
        (w : world) :
  (forall n, int_value p = Some n -> (200 < n)%Z ->
     exists new,
       snd (snd (list_spreadsheets fuel ft p w)) = (snd w ++ new)%list
       /\ Forall (fun c => call_page_size c = Some (PInt 200)) new
       /\ (forall ft', validate_folder_token ft = Ok ft' -> (0 < fuel)%nat ->
             exists rest, new = Call_list_files ft' (PInt 200) None :: rest))
  /\ (forall n, int_value p = Some n -> (0 < n <= 200)%Z ->
        exists new,
          snd (snd (list_spreadsheets fuel ft p w)) = (snd w ++ new)%list
          /\ Forall (fun c => call_page_size c = Some p) new
          /\ (forall ft', validate_folder_token ft = Ok ft' ->
                (0 < fuel)%nat ->
                exists rest, new = Call_list_files ft' p None :: rest))
  /\ (int_value p = None
      \/ (exists n, int_value p = Some n /\ (n <= 0)%Z) ->
      list_spreadsheets fuel ft p w
      = (Some (Raise (ValueError "page_size must be a positive integer")), w)).
Proof.
  split; [|split].
  - intros n Hn Hbig.
    assert (Hp : validate_page_size p = Ok (PInt 200)).
    { unfold validate_page_size. rewrite Hn.
      destruct (Z.leb_spec n 0); [lia|].
      destruct (Z.ltb_spec 200 n); [reflexivity|lia]. }
    destruct (validate_folder_token ft) as [ft0|e] eqn:Eft.
    + destruct (list_spreadsheets_log fuel ft ft0 p _ w Hp)
        as (new & Hlog & Hall & Hfirst).
      exists new. repeat split; [exact Hlog|exact Hall|].
      intros ft' Hft'. injection Hft' as <-. exact (Hfirst Eft).
    + destruct (list_spreadsheets_log fuel ft None p _ w Hp)
        as (new & Hlog & Hall & _).
      exists new. repeat split; [exact Hlog|exact Hall|].
      intros ft' Hft'. discriminate.
  - intros n Hn Hrange.
    assert (Hp : validate_page_size p = Ok p).
    { unfold validate_page_size. rewrite Hn.
      destruct (Z.leb_spec n 0); [lia|].
      destruct (Z.ltb_spec 200 n); [lia|reflexivity]. }
    destruct (validate_folder_token ft) as [ft0|e] eqn:Eft.
    + destruct (list_spreadsheets_log fuel ft ft0 p _ w Hp)
        as (new & Hlog & Hall & Hfirst).
      exists new. repeat split; [exact Hlog|exact Hall|].
      intros ft' Hft'. injection Hft' as <-. exact (Hfirst Eft).
    + destruct (list_spreadsheets_log fuel ft None p _ w Hp)
        as (new & Hlog & Hall & _).
      exists new. repeat split; [exact Hlog|exact Hall|].
      intros ft' Hft'. discriminate.
  - intros Hbad. unfold list_spreadsheets, validate_page_size.
    destruct Hbad as [Hnone|(n & Hn & Hneg)].
    + rewrite Hnone. reflexivity.
    + rewrite Hn. destruct (Z.leb_spec n 0); [reflexivity|lia].
Qed.

End Listing.

Lemma C2_page_size_capping_witness :
  (exists new rest,
      snd (snd (list_spreadsheets (models := TestDoubles.models) 5 None
                  (PInt 300) TestDoubles.empty_listing)) = new
      /\ Forall (fun c => call_page_size c = Some (PInt 200)) new
      /\ new = Call_list_files None (PInt 200) None :: rest)
  /\ (exists new rest,
         snd (snd (list_spreadsheets (models := TestDoubles.models) 5 None
                     (PInt 200) TestDoubles.empty_listing)) = new
         /\ Forall (fun c => call_page_size c = Some (PInt 200)) new
         /\ new = Call_list_files None (PInt 200) None :: rest)
  /\ list_spreadsheets (models := TestDoubles.models) 5 None (PInt 0)
       TestDoubles.empty_listing
     = (Some (Raise (ValueError "page_size must be a positive integer")),
        TestDoubles.empty_listing).
Proof.
  split; [|split].
  - destruct (C2_page_size_capping (models := TestDoubles.models)
                (client := TestDoubles.scripted) 5 None (PInt 300)
                TestDoubles.empty_listing)
      as (Hcap & _ & _).
    destruct (Hcap 300%Z eq_refl ltac:(lia)) as (new & Hlog & Hall & Hfirst).
    destruct (Hfirst None eq_refl ltac:(lia)) as [rest Hrest].
    exists new, rest. auto.
  - destruct (C2_page_size_capping (models := TestDoubles.models)
                (client := TestDoubles.scripted) 5 None (PInt 200)
                TestDoubles.empty_listing)
      as (_ & Hexact & _).
    destruct (Hexact 200%Z eq_refl ltac:(lia)) as (new & Hlog & Hall & Hfirst).
    destruct (Hfirst None eq_refl ltac:(lia)) as [rest Hrest].
    exists new, rest. auto.
  - apply (C2_page_size_capping (models := TestDoubles.models)
             (client := TestDoubles.scripted) 5 None (PInt 0)
             TestDoubles.empty_listing).
    right. exists 0%Z. split; [reflexivity|lia].
Defined.

Section Pagination.

Context {models : Models} {client : ApiClient}.

Lemma collect_spreadsheets_well_typed (items : list pyval) :
  forallb entry_well_typed items = true ->
  forall acc,
    collect_spreadsheets items acc = Ok (acc ++ flat_map kept items)%list.
Proof.
  induction items as [|d rest IH]; intros Hall acc; simpl.
  - rewrite app_nil_r. reflexivity.
  - simpl in Hall. apply andb_true_iff in Hall as [Hd Hrest].
    unfold entry_well_typed in Hd. unfold kept.
    destruct d as [| | | | |kv]; try discriminate.
    destruct (py_get (PDict kv) "type" PNone) as [ty|e]; [|discriminate].
    simpl. destruct (py_eq_str ty "sheet").
    + destruct (SpreadsheetInfo_from_api_response (PDict kv)) as [sp|[m|a|c m|c m]];
        try discriminate.
      * rewrite (IH Hrest). rewrite <- app_assoc. reflexivity.
      * rewrite (IH Hrest). reflexivity.
    + rewrite (IH Hrest). reflexivity.
Qed.

Lemma absorb_page_well_typed (response : pyval)
      (acc : list SpreadsheetInfo) :
  page_well_typed response = true ->
  absorb_page response acc
  = Ok ((acc ++ page_documents response)%list, token_of response).
Proof.
  unfold page_well_typed, absorb_page, page_documents, token_of.
  destruct (response_files response) as [items|e]; [|discriminate].
  destruct (response_page_token response) as [t|e]; [|discriminate].
  intros Hall. simpl.
  rewrite (collect_spreadsheets_well_typed items Hall). reflexivity.
Qed.

(** The loop on a run of well-typed pages that each announce a further page,
    closed by a last reply. *)
Lemma list_spreadsheets_loop_run (ft : option string) (ps : pyval)
      (fin : result pyval) (out : result (list SpreadsheetInfo)) :
  forall (pages : list pyval) (fuel : nat) (tok : pyval)
         (acc : list SpreadsheetInfo) (s s' : St) (log : list api_call),
    forallb page_well_typed pages = true ->
    forallb has_next pages = true ->
    replies s (map (list_files_request ft ps) (tok :: map token_of pages))
    = ((map Ok pages ++ [fin])%list, s') ->
    final_outcome fin (acc ++ documents pages)%list = Some out ->
    (List.length pages < fuel)%nat ->
    list_spreadsheets_loop fuel ft ps tok acc (s, log)
    = (Some out,
       (s', (log ++ map (list_files_request ft ps)
                      (tok :: map token_of pages))%list)).
Proof.
  induction pages as [|p rest IH];
    intros fuel tok acc s s' log Htyped Hnext Hreplies Hfin Hfuel;
    (destruct fuel as [|fuel]; [simpl in Hfuel; lia|]).
  - simpl in Hreplies.
    destruct (api (list_files_request ft ps tok) s) as [r s1] eqn:Eapi.
    injection Hreplies as -> ->.
    simpl. unfold call_api. simpl.
    unfold list_files_request in Eapi. rewrite Eapi.
    unfold documents in Hfin. simpl in Hfin. rewrite app_nil_r in Hfin.
    unfold final_outcome in Hfin.
    destruct fin as [response|e]; [|injection Hfin as <-; reflexivity].
    destruct (absorb_page response acc) as [[acc' tok']|e];
      [|injection Hfin as <-; reflexivity].
    destruct (negb (py_truthy tok')); [|discriminate].
    injection Hfin as <-. reflexivity.
  - simpl in Htyped, Hnext.
    apply andb_true_iff in Htyped as [Hp Htyped].
    apply andb_true_iff in Hnext as [Hn Hnext].
    change (map (list_files_request ft ps) (tok :: map token_of (p :: rest)))
      with (list_files_request ft ps tok
              :: map (list_files_request ft ps)
                   (token_of p :: map token_of rest)) in *.
    cbn [replies] in Hreplies.
    destruct (api (list_files_request ft ps tok) s) as [r s1] eqn:Eapi.
    destruct (replies s1 _) as [rs s2] eqn:Erest.
    simpl in Hreplies. injection Hreplies as -> -> ->.
    cbn [list_spreadsheets_loop]. unfold call_api. cbn [fst snd].
    unfold list_files_request in Eapi. rewrite Eapi.
    rewrite (absorb_page_well_typed p acc Hp).
    unfold has_next in Hn. rewrite Hn. cbn [negb].
    rewrite (IH fuel (token_of p) (acc ++ page_documents p)%list s1 s'
               (log ++ [Call_list_files ft ps
                          (if py_truthy tok then Some tok else None)])%list
               Htyped Hnext Erest).
    + rewrite <- app_assoc. reflexivity.
    + rewrite <- app_assoc. exact Hfin.
    + simpl in Hfuel. lia.
Qed.

Lemma list_spreadsheets_run (fuel : nat) (folder_token ft : option string)
      (page_size ps : pyval) (pages : list pyval) (fin : result pyval)
      (out : result (list SpreadsheetInfo)) (s s' : St) :
  validate_page_size page_size = Ok ps ->
  validate_folder_token folder_token = Ok ft ->
  forallb page_well_typed pages = true ->
  forallb has_next pages = true ->
  replies s (page_requests ft ps pages) = ((map Ok pages ++ [fin])%list, s') ->
  final_outcome fin (documents pages) = Some out ->
  (List.length pages < fuel)%nat ->
  list_spreadsheets fuel folder_token page_size (s, [])
  = (Some (except_clauses list_spreadsheets_remap list_spreadsheets_prefix
             out),
     (s', page_requests ft ps pages)).
Proof.
  intros Hps Hft Htyped Hnext Hreplies Hfin Hfuel.
  unfold list_spreadsheets. rewrite Hps, Hft.
  rewrite (list_spreadsheets_loop_run ft ps fin out pages fuel PNone [] s s'
             [] Htyped Hnext Hreplies Hfin Hfuel).
  reflexivity.
Qed.

End Pagination.

Lemma kept_entry_well_typed {models : Models} (d : pyval)
      (x : SpreadsheetInfo) :
  kept d = [x] -> entry_well_typed d = true.
Proof.
  unfold kept, entry_well_typed.
  destruct d as [| | | | |kv]; try discriminate.
  destruct (py_get (PDict kv) "type" PNone) as [ty|e]; [|discriminate].
  destruct (py_eq_str ty "sheet"); [|reflexivity].
  destruct (SpreadsheetInfo_from_api_response (PDict kv)); [reflexivity|].
  discriminate.
Qed.

Lemma documents_app {models : Models} (pages : list pyval) (last : pyval) :
  documents (pages ++ [last]) = (documents pages ++ page_documents last)%list.
Proof.
  unfold documents. rewrite flat_map_app. simpl. rewrite app_nil_r.
  reflexivity.
Qed.

(** C5, as the code has it.  Whatever the client, when it answers the
    successive listing requests with [pages] followed by [last] -- well-typed
    pages (every entry is a JSON object which, when of kind "sheet", the
    record constructor builds or rejects with [ValueError]), each of [pages]
    announcing a further page and [last] none -- [list_spreadsheets] issues
    exactly one request per page, the first without a token and each later
    one with the token of the page before it, and returns the documents of
    all pages in arrival order: of each page, in order, the entries of kind
    "sheet" whose record can be built, an entry the constructor rejects
    being skipped on its own.  In particular, on a mock scripted with two
    pages of one document each (token "next", then null) it returns both
    documents in order and the mock was called exactly twice. *)
Theorem C5_pagination_concatenates_pages {models : Models} :
  (forall (client : ApiClient) fuel folder_token ft page_size ps
          (pages : list pyval) (last : pyval) (s s' : St),
      validate_page_size page_size = Ok ps ->
      validate_folder_token folder_token = Ok ft ->
      forallb page_well_typed (pages ++ [last]) = true ->
      forallb has_next pages = true ->
      has_next last = false ->
      replies s (page_requests ft ps pages)
      = (map Ok (pages ++ [last]), s') ->
      (List.length pages < fuel)%nat ->
      list_spreadsheets fuel folder_token page_size (s, [])
      = (Some (Ok (documents (pages ++ [last]))),
         (s', page_requests ft ps pages))
      /\ List.length (page_requests ft ps pages)
         = List.length (pages ++ [last]))
  /\ (forall fuel page_size ps (d1 d2 : pyval) (x1 x2 : SpreadsheetInfo),
         validate_page_size page_size = Ok ps ->
         kept d1 = [x1] ->
         kept d2 = [x2] ->
         (2 <= fuel)%nat ->
         list_spreadsheets (client := TestDoubles.scripted) fuel None page_size
           ([Ok (TestDoubles.envelope
                   [("files", PList [d1]); ("page_token", PStr "next")]);
             Ok (TestDoubles.envelope
                   [("files", PList [d2]); ("page_token", PNone)])],
            [])
         = (Some (Ok [x1; x2]),
            ([], [Call_list_files None ps None;
                  Call_list_files None ps (Some (PStr "next"))]))).
Proof.
  assert (General :
    forall (client : ApiClient) fuel folder_token ft page_size ps
           (pages : list pyval) (last : pyval) (s s' : St),
      validate_page_size page_size = Ok ps ->
      validate_folder_token folder_token = Ok ft ->
      forallb page_well_typed (pages ++ [last]) = true ->
      forallb has_next pages = true ->
      has_next last = false ->
      replies s (page_requests ft ps pages)
      = (map Ok (pages ++ [last]), s') ->
      (List.length pages < fuel)%nat ->
      list_spreadsheets fuel folder_token page_size (s, [])
      = (Some (Ok (documents (pages ++ [last]))),
         (s', page_requests ft ps pages))
      /\ List.length (page_requests ft ps pages)
         = List.length (pages ++ [last])).
  { intros client fuel folder_token ft page_size ps pages last s s'
           Hps Hft Htyped Hnext Hlast Hreplies Hfuel.
    rewrite forallb_app in Htyped. simpl in Htyped.
    apply andb_true_iff in Htyped as [Htyped Hl].
    rewrite andb_true_r in Hl.
    split.
    - rewrite map_app in Hreplies. simpl in Hreplies.
      rewrite (list_spreadsheets_run fuel folder_token ft page_size ps pages
                 (Ok last) (Ok (documents (pages ++ [last]))) s s'
                 Hps Hft Htyped Hnext Hreplies); [reflexivity| |exact Hfuel].
      unfold final_outcome. rewrite (absorb_page_well_typed _ _ Hl).
      unfold has_next in Hlast. rewrite Hlast. simpl.
      rewrite documents_app. reflexivity.
    - unfold page_requests. rewrite length_map, length_app. simpl.
      rewrite length_map. lia. }
  split; [exact General|].
  intros fuel page_size ps d1 d2 x1 x2 Hps H1 H2 Hfuel.
  pose proof (kept_entry_well_typed d1 x1 H1) as W1.
  pose proof (kept_entry_well_typed d2 x2 H2) as W2.
  destruct (General TestDoubles.scripted fuel None None page_size ps
              [TestDoubles.envelope
                 [("files", PList [d1]); ("page_token", PStr "next")]]
              (TestDoubles.envelope
                 [("files", PList [d2]); ("page_token", PNone)])
              [Ok (TestDoubles.envelope
                     [("files", PList [d1]); ("page_token", PStr "next")]);
               Ok (TestDoubles.envelope
                     [("files", PList [d2]); ("page_token", PNone)])]
              []) as [Hrun _]; try reflexivity; try assumption.
  - simpl. unfold page_well_typed. simpl. rewrite W1, W2. reflexivity.
  - refine (eq_trans Hrun _). unfold documents, page_documents. simpl.
    rewrite H1, H2. reflexivity.
Qed.

Lemma C5_pagination_concatenates_pages_witness :
  list_spreadsheets (models := TestDoubles.models)
    (client := TestDoubles.scripted) 2 None (PInt 1)
    ([Ok (TestDoubles.envelope
            [("files", PList [TestDoubles.file_entry "sheet1" "Sheet 1"]);
             ("page_token", PStr "next")]);
      Ok (TestDoubles.envelope
            [("files", PList [TestDoubles.file_entry "sheet2" "Sheet 2"]);
             ("page_token", PNone)])], [])
  = (Some (Ok [TestDoubles.doc "sheet1" "Sheet 1";
               TestDoubles.doc "sheet2" "Sheet 2"]),
     ([], [Call_list_files None (PInt 1) None;
           Call_list_files None (PInt 1) (Some (PStr "next"))]))
  /\ list_spreadsheets (models := TestDoubles.models)
       (client := TestDoubles.scripted) 5 (Some " fld ") (PInt 300)
       ([Ok (TestDoubles.envelope
               [("files", PList [TestDoubles.malformed_entry;
                                 TestDoubles.file_entry "sheet1" "Sheet 1";
                                 TestDoubles.other_entry]);
                ("page_token", PStr "p2")]);
         Ok (TestDoubles.envelope
               [("files", PList [TestDoubles.file_entry "sheet2" "Sheet 2"])])],
        [])
     = (Some (Ok [TestDoubles.doc "sheet1" "Sheet 1";
                  TestDoubles.doc "sheet2" "Sheet 2"]),
        ([], [Call_list_files (Some "fld") (PInt 200) None;
              Call_list_files (Some "fld") (PInt 200) (Some (PStr "p2"))])).
Proof.
  destruct (C5_pagination_concatenates_pages (models := TestDoubles.models))
    as [General TwoPages].
  split.
  - apply TwoPages; [reflexivity|reflexivity|reflexivity|lia].
  - apply (General TestDoubles.scripted 5%nat (Some " fld ") (Some "fld")
             (PInt 300) (PInt 200)
             [TestDoubles.envelope
                [("files", PList [TestDoubles.malformed_entry;
                                  TestDoubles.file_entry "sheet1" "Sheet 1";
                                  TestDoubles.other_entry]);
                 ("page_token", PStr "p2")]]
             (TestDoubles.envelope
                [("files",
                  PList [TestDoubles.file_entry "sheet2" "Sheet 2"])])
             [Ok (TestDoubles.envelope
                    [("files", PList [TestDoubles.malformed_entry;
                                      TestDoubles.file_entry "sheet1" "Sheet 1";
                                      TestDoubles.other_entry]);
                     ("page_token", PStr "p2")]);
              Ok (TestDoubles.envelope
                    [("files",
                      PList [TestDoubles.file_entry "sheet2" "Sheet 2"])])]
             []);
      try reflexivity.
    simpl. lia.
Defined.

(** A page entry that is not a JSON object is not skipped: [file_data.get]
    at line 56 is outside the inner [try], so the listing aborts with the
    wrapped error and the document of the page before it is not returned. *)
Lemma C5_non_object_entry_aborts_the_listing :
  list_spreadsheets (models := TestDoubles.models)
    (client := TestDoubles.scripted) 3 None (PInt 50)
    ([Ok (TestDoubles.envelope
            [("files", PList [TestDoubles.file_entry "sheet1" "Sheet 1"]);
             ("page_token", PStr "next")]);
      Ok (TestDoubles.envelope
            [("files", PList [PNone;
                              TestDoubles.file_entry "sheet2" "Sheet 2"]);
             ("page_token", PNone)])], [])
  = (Some (Raise (APIError
                    (mkFeishuAPIError (-1)
                       (list_spreadsheets_prefix
                        ++ "'NoneType' object has no attribute 'get'")
                       500))),
     ([], [Call_list_files None (PInt 50) None;
           Call_list_files None (PInt 50) (Some (PStr "next"))])).
Proof.
  reflexivity.
Qed.

(** C10.  [list_spreadsheets] is all-or-nothing across pages.  When the
    client answers the first requests with well-typed [pages] that each
    announce a further page (possibly none) and fails the next request with
    an API error [e], the operation raises [e] as its table remaps it and
    returns no list: the documents of the pages already read are not
    returned in any form.  The failing request is not repeated. *)
Theorem C10_listing_is_all_or_nothing {models : Models} {client : ApiClient}
        (fuel : nat) (folder_token ft : option string) (page_size ps : pyval)
        (pages : list pyval) (e : FeishuAPIError) (s s' : St) :
  validate_page_size page_size = Ok ps ->
  validate_folder_token folder_token = Ok ft ->
  forallb page_well_typed pages = true ->
  forallb has_next pages = true ->
  replies s (page_requests ft ps pages)
  = ((map Ok pages ++ [Raise (APIError e)])%list, s') ->
  (List.length pages < fuel)%nat ->
  list_spreadsheets fuel folder_token page_size (s, [])
  = (Some (Raise (APIError (list_spreadsheets_remap e))),
     (s', page_requests ft ps pages))
  /\ (forall partial,
         fst (list_spreadsheets fuel folder_token page_size (s, []))
         <> Some (Ok partial))
  /\ List.length (page_requests ft ps pages) = S (List.length pages).
Proof.
  intros Hps Hft Htyped Hnext Hreplies Hfuel.
  assert (Hrun :
    list_spreadsheets fuel folder_token page_size (s, [])
    = (Some (Raise (APIError (list_spreadsheets_remap e))),
       (s', page_requests ft ps pages))).
  { apply (list_spreadsheets_run fuel folder_token ft page_size ps pages
             (Raise (APIError e)) (Raise (APIError e)) s s'
             Hps Hft Htyped Hnext Hreplies eq_refl Hfuel). }
  split; [exact Hrun|split].
  - intros partial. rewrite Hrun. simpl. discriminate.
  - unfold page_requests. simpl. rewrite !length_map. reflexivity.
Qed.

Lemma C10_listing_is_all_or_nothing_witness :
  list_spreadsheets (models := TestDoubles.models)
    (client := TestDoubles.scripted) 3 None (PInt 50)
    ([Ok (TestDoubles.envelope
            [("files", PList [TestDoubles.file_entry "sheet1" "Sheet 1"]);
             ("page_token", PStr "next")]);
      Raise (APIError (mkFeishuAPIError 1061004 "permission denied" 403))],
     [])
  = (Some (Raise (APIError
                    (mkFeishuAPIError 1061004
                       "没有访问权限。请检查文档权限设置或联系文档所有者。"
                       403))),
     ([], [Call_list_files None (PInt 50) None;
           Call_list_files None (PInt 50) (Some (PStr "next"))])).
Proof.
  apply (C10_listing_is_all_or_nothing (models := TestDoubles.models)
           (client := TestDoubles.scripted) 3 None None (PInt 50) (PInt 50)
           [TestDoubles.envelope
              [("files", PList [TestDoubles.file_entry "sheet1" "Sheet 1"]);
               ("page_token", PStr "next")]]
           (mkFeishuAPIError 1061004 "permission denied" 403)
           [Ok (TestDoubles.envelope
                  [("files", PList [TestDoubles.file_entry "sheet1" "Sheet 1"]);
                   ("page_token", PStr "next")]);
            Raise (APIError (mkFeishuAPIError 1061004 "permission denied" 403))]
           []);
    try reflexivity.
  simpl. lia.
Defined.

(** ** Batch range read *)

Section BatchRead.

Context {models : Models} {client : ApiClient}.

Lemma collect_ranges_well_typed (validated : list string)
      (items : list pyval) :
  forallb range_entry_well_typed items = true ->
  forall i acc,
    collect_ranges validated i items acc
    = Ok (acc ++ mapped_ranges validated i items)%list.
Proof.
  induction items as [|d rest IH]; intros Hall i acc; simpl.
  - rewrite app_nil_r. reflexivity.
  - simpl in Hall. apply andb_true_iff in Hall as [Hd Hrest].
    unfold range_entry_well_typed in Hd.
    destruct (RangeData_from_api_response d) as [r|[m|a|c m|c m]];
      try discriminate;
      rewrite (IH Hrest); rewrite <- app_assoc; reflexivity.
Qed.

Lemma mapped_ranges_length (validated : list string) (items : list pyval) :
  forall i, List.length (mapped_ranges validated i items) = List.length items.
Proof.
  induction items as [|d rest IH]; intros i; simpl; [reflexivity|].
  rewrite IH. reflexivity.
Qed.

Lemma mapped_ranges_nth (validated : list string) (items : list pyval) :
  forall i k item,
    nth_error items k = Some item ->
    nth_error (mapped_ranges validated i items) k
    = Some match RangeData_from_api_response item with
           | Ok result => result
           | Raise _ => placeholder validated (i + k)
           end.
Proof.
  induction items as [|d rest IH]; intros i k item Hk.
  - destruct k; discriminate.
  - destruct k as [|k]; simpl in *.
    + injection Hk as ->. rewrite Nat.add_0_r. reflexivity.
    + rewrite (IH (S i) k item Hk). rewrite Nat.add_succ_r. reflexivity.
Qed.

Lemma validate_ranges_from_all_valid (ranges : list string) :
  forall i validated,
    validate_ranges_from i ranges = Ok validated -> all_valid ranges validated.
Proof.
  induction ranges as [|r rest IH]; intros i validated; simpl.
  - intros H. injection H as <-. constructor.
  - destruct (validate_range_spec r) as [v|[m|a|c m|c m]] eqn:Er; try discriminate.
    destruct (validate_ranges_from (S i) rest) as [vs|e] eqn:Erest;
      [|discriminate].
    simpl. intros H. injection H as <-.
    constructor; [exact Er|exact (IH _ _ Erest)].
Qed.

Lemma read_multiple_ranges_validate_all_valid (tok tok' : string)
      (ranges validated : list string) (vro dtro : string) :
  read_multiple_ranges_validate tok ranges vro dtro = Ok (tok', validated) ->
  all_valid ranges validated.
Proof.
  unfold read_multiple_ranges_validate.
  destruct (require_text "spreadsheet_token" tok); [|discriminate]. simpl.
  destruct (validate_ranges ranges) as [vs|e] eqn:Ev; [|discriminate]. simpl.
  destruct (validate_render_options vro dtro); [|discriminate]. simpl.
  intros H. injection H as _ <-.
  unfold validate_ranges in Ev.
  destruct (List.length ranges =? 0)%nat; [discriminate|].
  destruct (100 <? List.length ranges)%nat; [discriminate|].
  exact (validate_ranges_from_all_valid _ _ _ Ev).
Qed.

(** C1, as the code has it.  When a batch read reaches the provider and the
    provider's [valueRanges] list is made of entries that either map to a
    record or are rejected as malformed, the returned list has exactly one
    entry per entry of the provider's list, in the provider's order: the
    mapped record, or for a malformed entry at index [i] an empty placeholder
    (ROWS, no values, revision 0) whose range is the i-th validated requested
    range, or "unknown_range_i" when the provider returned more entries than
    were requested.  The result is thus as long as the provider's list, and
    as long as the request list whenever the provider returns one entry per
    requested range. *)
Theorem C1_batch_read_one_entry_per_returned_range
        (tok tok' : string) (ranges validated : list string)
        (vro dtro : string) (response : pyval) (items : list pyval)
        (w : world) (s' : St) :
  read_multiple_ranges_validate tok ranges vro dtro = Ok (tok', validated) ->
  api (Call_read_multiple_ranges tok' validated vro dtro) (fst w)
  = (Ok response, s') ->
  response_value_ranges response = Ok items ->
  forallb range_entry_well_typed items = true ->
  read_multiple_ranges tok ranges vro dtro w
  = (Ok (mapped_ranges validated 0 items),
     (s', (snd w ++ [Call_read_multiple_ranges tok' validated vro dtro])%list))
  /\ List.length (mapped_ranges validated 0 items) = List.length items
  /\ (forall i item,
         nth_error items i = Some item ->
         nth_error (mapped_ranges validated 0 items) i
         = Some match RangeData_from_api_response item with
                | Ok result => result
                | Raise _ => placeholder validated i
                end)
  /\ (forall i,
         placeholder validated i
         = mkRangeData
             match nth_error validated i with
             | Some requested => requested
             | None => "unknown_range_" ++ str_of_nat i
             end "ROWS" [] 0)
  /\ all_valid ranges validated
  /\ (List.length items = List.length ranges ->
      List.length (mapped_ranges validated 0 items) = List.length ranges).
Proof.
  intros Hv Hapi Hitems Htyped.
  split; [|split; [|split; [|split; [|split]]]].
  - unfold read_multiple_ranges. rewrite Hv.
    unfold read_multiple_ranges_try, call_api. rewrite Hapi. simpl.
    rewrite Hitems. simpl.
    rewrite (collect_ranges_well_typed validated items Htyped). reflexivity.
  - apply mapped_ranges_length.
  - intros i item Hi. exact (mapped_ranges_nth validated items 0 i item Hi).
  - intros i. unfold placeholder. f_equal.
    destruct (Nat.ltb_spec i (List.length validated)) as [Hlt|Hge].
    + destruct (nth_error validated i) as [r|] eqn:En.
      * exact (nth_error_nth _ _ _ En).
      * apply nth_error_None in En. lia.
    + apply nth_error_None in Hge. rewrite Hge. reflexivity.
  - exact (read_multiple_ranges_validate_all_valid _ _ _ _ _ _ Hv).
  - intros Hlen. rewrite mapped_ranges_length. exact Hlen.
Qed.

End BatchRead.

Lemma C1_batch_read_one_entry_per_returned_range_witness :
  read_multiple_ranges (models := TestDoubles.models)
    (client := TestDoubles.scripted)
    "test_token" ["Sheet1!A1:B2"; " Sheet2!A1:B2 "] "UnformattedValue"
    "FormattedString"
    ([Ok (TestDoubles.envelope
            [("valueRanges",
              PList [PDict [("range", PStr "Sheet1!A1:B2");
                            ("majorDimension", PStr "ROWS");
                            ("values", PList [PList [PStr "A1"; PStr "B1"]]);
                            ("revision", PInt 123)];
                     PDict [("range", PStr "Sheet2!A1:B2")]])])], [])
  = (Ok [mkRangeData "Sheet1!A1:B2" "ROWS" [[PStr "A1"; PStr "B1"]] 123;
         mkRangeData "Sheet2!A1:B2" "ROWS" [] 0],
     ([], [Call_read_multiple_ranges "test_token"
             ["Sheet1!A1:B2"; "Sheet2!A1:B2"] "UnformattedValue"
             "FormattedString"])).
Proof.
  apply (C1_batch_read_one_entry_per_returned_range
           (models := TestDoubles.models) (client := TestDoubles.scripted)
           "test_token" "test_token" ["Sheet1!A1:B2"; " Sheet2!A1:B2 "]
           ["Sheet1!A1:B2"; "Sheet2!A1:B2"] "UnformattedValue"
           "FormattedString"
           (TestDoubles.envelope
              [("valueRanges",
                PList [PDict [("range", PStr "Sheet1!A1:B2");
                              ("majorDimension", PStr "ROWS");
                              ("values", PList [PList [PStr "A1"; PStr "B1"]]);
                              ("revision", PInt 123)];
                       PDict [("range", PStr "Sheet2!A1:B2")]])])
           [PDict [("range", PStr "Sheet1!A1:B2");
                   ("majorDimension", PStr "ROWS");
                   ("values", PList [PList [PStr "A1"; PStr "B1"]]);
                   ("revision", PInt 123)];
            PDict [("range", PStr "Sheet2!A1:B2")]]
           ([Ok (TestDoubles.envelope
                   [("valueRanges",
                     PList [PDict [("range", PStr "Sheet1!A1:B2");
                                   ("majorDimension", PStr "ROWS");
                                   ("values",
                                    PList [PList [PStr "A1"; PStr "B1"]]);
                                   ("revision", PInt 123)];
                            PDict [("range", PStr "Sheet2!A1:B2")]])])], [])
           []);
    reflexivity.
Defined.

(** The request list and the result list of a batch read differ in length as
    soon as the provider returns fewer entries than were requested (or
    more): here one entry, then none, for two requested ranges. *)
Lemma C1_result_length_can_differ_from_request_length :
  read_multiple_ranges (models := TestDoubles.models)
    (client := TestDoubles.scripted)
    "test_token" ["Sheet1!A1:B2"; "Sheet2!A1:B2"] "UnformattedValue"
    "FormattedString"
    ([Ok (TestDoubles.envelope
            [("valueRanges",
              PList [PDict [("range", PStr "Sheet1!A1:B2");
                            ("majorDimension", PStr "ROWS");
                            ("values", PList [PList [PStr "A1"; PStr "B1"]]);
                            ("revision", PInt 123)]])])], [])
  = (Ok [mkRangeData "Sheet1!A1:B2" "ROWS" [[PStr "A1"; PStr "B1"]] 123],
     ([], [Call_read_multiple_ranges "test_token"
             ["Sheet1!A1:B2"; "Sheet2!A1:B2"] "UnformattedValue"
             "FormattedString"]))
  /\ read_multiple_ranges (models := TestDoubles.models)
       (client := TestDoubles.scripted)
       "test_token" ["Sheet1!A1:B2"; "Sheet2!A1:B2"] "UnformattedValue"
       "FormattedString"
       ([Ok (TestDoubles.envelope [("valueRanges", PList [])])], [])
     = (Ok [],
        ([], [Call_read_multiple_ranges "test_token"
                ["Sheet1!A1:B2"; "Sheet2!A1:B2"] "UnformattedValue"
                "FormattedString"]))
  /\ List.length
       [mkRangeData "Sheet1!A1:B2" "ROWS" [[PStr "A1"; PStr "B1"]] 123]
     <> List.length ["Sheet1!A1:B2"; "Sheet2!A1:B2"]
  /\ List.length (@nil RangeData)
     <> List.length ["Sheet1!A1:B2"; "Sheet2!A1:B2"].
Proof.
  repeat split; discriminate.
Qed.

(** ** Error handling *)

Section ErrorHandling.

Context {models : Models} {re : PyRe} {client : ApiClient}.

Lemma guarded_remaps {A B : Type} (validated : result B) (body : B -> M A)
      remap prefix (b : B) (e : FeishuAPIError) (w w' : world) :
  validated = Ok b ->
  body b w = (Raise (APIError e), w') ->
  guarded validated body remap prefix w = (Raise (APIError (remap e)), w').
Proof.
  intros -> Hbody. unfold guarded. rewrite Hbody. reflexivity.
Qed.



Lemma get_worksheets_guarded (tok : string) (w : world) :
  get_worksheets tok w
  = guarded (require_text "spreadsheet_token" tok) get_worksheets_try
      get_worksheets_remap get_worksheets_prefix w.
Proof.
  unfold get_worksheets, guarded.
  destruct (require_text "spreadsheet_token" tok); reflexivity.
Qed.

Lemma read_range_guarded (tok r vro dtro : string) (w : world) :
  read_range tok r vro dtro w
  = guarded (read_range_validate tok r vro dtro)
      (fun '(tok', r') => read_range_try tok' r' vro dtro)
      read_range_remap read_range_prefix w.
Proof.
  unfold read_range, guarded.
  destruct (read_range_validate tok r vro dtro) as [[tok' r']|e]; reflexivity.
Qed.

Lemma read_multiple_ranges_guarded (tok : string) (ranges : list string)
      (vro dtro : string) (w : world) :
  read_multiple_ranges tok ranges vro dtro w
  = guarded (read_multiple_ranges_validate tok ranges vro dtro)
      (fun '(tok', validated) =>
         read_multiple_ranges_try tok' validated vro dtro)
      read_multiple_ranges_remap read_multiple_ranges_prefix w.
Proof.
  unfold read_multiple_ranges, guarded.
  destruct (read_multiple_ranges_validate tok ranges vro dtro)
    as [[tok' validated]|e]; reflexivity.
Qed.

Lemma find_cells_guarded (tok sid rng text : string) (mc mec rx inc : bool)
      (w : world) :
  find_cells tok sid rng text mc mec rx inc w
  = guarded (find_cells_validate tok sid rng text rx)
      (fun '(tok', sid', rng', text') =>
         find_cells_try tok' sid' rng' text' mc mec rx inc)
      find_cells_remap find_cells_prefix w.
Proof.
  unfold find_cells, guarded.
  destruct (find_cells_validate tok sid rng text rx)
    as [[[[tok' sid'] rng'] text']|e]; reflexivity.
Qed.

(** What each table does to an error: the code and the HTTP status are
    those of the original, whatever the code. *)
Lemma tables_keep_code_and_status (e : FeishuAPIError) :
  Forall (fun remap =>
            code (remap e) = code e /\ http_status (remap e) = http_status e)
         [list_spreadsheets_remap; get_worksheets_remap; read_range_remap;
          read_multiple_ranges_remap; find_cells_remap].
Proof.
  repeat constructor;
    unfold list_spreadsheets_remap, get_worksheets_remap, read_range_remap,
      read_multiple_ranges_remap, find_cells_remap, relabel;
    table_cases e.
Qed.

Lemma tables_say_spreadsheet_not_found (e : FeishuAPIError) :
  code e = 1310214%Z ->
  Forall (fun remap => message (remap e) = spreadsheet_not_found_message)
         [get_worksheets_remap; read_range_remap; read_multiple_ranges_remap;
          find_cells_remap].
Proof.
  intros Hc.
  repeat constructor;
    unfold get_worksheets_remap, read_range_remap,
      read_multiple_ranges_remap, find_cells_remap, relabel;
    rewrite Hc; reflexivity.
Qed.

Lemma classify_by_code (e e' : FeishuAPIError) :
  In (code e) [1310214; 1310213; 1310218]%Z ->
  code e' = code e ->
  classify e'
  = if (code e =? 1310214)%Z then NotFound
    else if (code e =? 1310213)%Z then Permission
    else SizeLimit.
Proof.
  intros Hin Hc. unfold classify. rewrite Hc.
  simpl in Hin. destruct Hin as [<-|[<-|[<-|[]]]]; reflexivity.
Qed.

End ErrorHandling.

Section ProviderFailures.

Context {models : Models} {re : PyRe} {client : ApiClient}.

(** A body whose single call fails raises what the call raised, one call
    later in the log. *)
Lemma get_worksheets_try_fails (tok : string) (ex : exn) (w : world) (s' : St) :
  api (Call_get_worksheets tok) (fst w) = (Raise ex, s') ->
  get_worksheets_try tok w
  = (Raise ex, (s', (snd w ++ [Call_get_worksheets tok])%list)).
Proof.
  intros H. unfold get_worksheets_try, call_api. rewrite H. reflexivity.
Qed.

Lemma read_range_try_fails (tok r vro dtro : string) (ex : exn) (w : world)
      (s' : St) :
  api (Call_read_range tok r vro dtro) (fst w) = (Raise ex, s') ->
  read_range_try tok r vro dtro w
  = (Raise ex, (s', (snd w ++ [Call_read_range tok r vro dtro])%list)).
Proof.
  intros H. unfold read_range_try, call_api. rewrite H. reflexivity.
Qed.

Lemma read_multiple_ranges_try_fails (tok : string) (validated : list string)
      (vro dtro : string) (ex : exn) (w : world) (s' : St) :
  api (Call_read_multiple_ranges tok validated vro dtro) (fst w)
  = (Raise ex, s') ->
  read_multiple_ranges_try tok validated vro dtro w
  = (Raise ex,
     (s', (snd w ++ [Call_read_multiple_ranges tok validated vro dtro])%list)).
Proof.
  intros H. unfold read_multiple_ranges_try, call_api. rewrite H. reflexivity.
Qed.

Lemma find_cells_try_fails (tok sid rng text : string) (mc mec rx inc : bool)
      (ex : exn) (w : world) (s' : St) :
  api (Call_find_cells tok sid rng text mc mec rx inc) (fst w)
  = (Raise ex, s') ->
  find_cells_try tok sid rng text mc mec rx inc w
  = (Raise ex,
     (s', (snd w ++ [Call_find_cells tok sid rng text mc mec rx inc])%list)).
Proof.
  intros H. unfold find_cells_try, call_api. rewrite H. reflexivity.
Qed.

(** C6, as the code has it.  A provider failure [e] with code 1310214,
    1310213 or 1310218 that reaches a query operation is re-raised through
    the operation's table after the one call that failed, never retried, and
    always with the original code and HTTP status, hence in the NotFound,
    Permission or SizeLimit category of its code.  For code 1310214 the four
    operations that take a spreadsheet token ([get_worksheets], [read_range],
    [read_multiple_ranges], [find_cells]) give the error the localized message
    saying that the spreadsheet does not exist; [list_spreadsheets], whose
    table has no row for these codes, re-raises the error with the provider's
    own message, or with the authentication-failed message when the
    authentication predicate holds of the error. *)
Theorem C6_provider_failures_are_remapped (e : FeishuAPIError) :
  In (code e) [1310214; 1310213; 1310218]%Z ->
  (forall tok tok' w s',
      require_text "spreadsheet_token" tok = Ok tok' ->
      api (Call_get_worksheets tok') (fst w) = (Raise (APIError e), s') ->
      get_worksheets tok w
      = (Raise (APIError (get_worksheets_remap e)),
         (s', (snd w ++ [Call_get_worksheets tok'])%list)))
  /\ (forall tok r vro dtro tok' r' w s',
         read_range_validate tok r vro dtro = Ok (tok', r') ->
         api (Call_read_range tok' r' vro dtro) (fst w)
         = (Raise (APIError e), s') ->
         read_range tok r vro dtro w
         = (Raise (APIError (read_range_remap e)),
            (s', (snd w ++ [Call_read_range tok' r' vro dtro])%list)))
  /\ (forall tok ranges vro dtro tok' validated w s',
         read_multiple_ranges_validate tok ranges vro dtro
         = Ok (tok', validated) ->
         api (Call_read_multiple_ranges tok' validated vro dtro) (fst w)
         = (Raise (APIError e), s') ->
         read_multiple_ranges tok ranges vro dtro w
         = (Raise (APIError (read_multiple_ranges_remap e)),
            (s', (snd w ++ [Call_read_multiple_ranges tok' validated vro
                              dtro])%list)))
  /\ (forall tok sid rng text mc mec rx inc tok' sid' rng' text' w s',
         find_cells_validate tok sid rng text rx
         = Ok (tok', sid', rng', text') ->
         api (Call_find_cells tok' sid' rng' text' mc mec rx inc) (fst w)
         = (Raise (APIError e), s') ->
         find_cells tok sid rng text mc mec rx inc w
         = (Raise (APIError (find_cells_remap e)),
            (s', (snd w ++ [Call_find_cells tok' sid' rng' text' mc mec rx
                              inc])%list)))
  /\ (forall fuel folder_token ft page_size ps pages s s',
         validate_page_size page_size = Ok ps ->
         validate_folder_token folder_token = Ok ft ->
         forallb page_well_typed pages = true ->
         forallb has_next pages = true ->
         replies s (page_requests ft ps pages)
         = ((map Ok pages ++ [Raise (APIError e)])%list, s') ->
         (List.length pages < fuel)%nat ->
         list_spreadsheets fuel folder_token page_size (s, [])
         = (Some (Raise (APIError (list_spreadsheets_remap e))),
            (s', page_requests ft ps pages)))
  /\ Forall (fun remap =>
               code (remap e) = code e
               /\ http_status (remap e) = http_status e
               /\ classify (remap e)
                  = if (code e =? 1310214)%Z then NotFound
                    else if (code e =? 1310213)%Z then Permission
                    else SizeLimit)
            [list_spreadsheets_remap; get_worksheets_remap; read_range_remap;
             read_multiple_ranges_remap; find_cells_remap]
  /\ (code e = 1310214%Z ->
      Forall (fun remap =>
                message (remap e) = spreadsheet_not_found_message
                /\ says_does_not_exist (message (remap e)) = true)
             [get_worksheets_remap; read_range_remap;
              read_multiple_ranges_remap; find_cells_remap])
  /\ list_spreadsheets_remap e
     = (if is_authentication_error e
        then mkFeishuAPIError (code e) auth_failed_message (http_status e)
        else e).
Proof.
  intros Hin.
  split; [|split; [|split; [|split; [|split; [|split; [|split]]]]]].
  - intros tok tok' w s' Hv Hapi. rewrite get_worksheets_guarded.
    apply guarded_remaps with (b := tok'); [exact Hv|].
    apply get_worksheets_try_fails. exact Hapi.
  - intros tok r vro dtro tok' r' w s' Hv Hapi. rewrite read_range_guarded.
    apply guarded_remaps with (b := (tok', r')); [exact Hv|].
    apply read_range_try_fails. exact Hapi.
  - intros tok ranges vro dtro tok' validated w s' Hv Hapi.
    rewrite read_multiple_ranges_guarded.
    apply guarded_remaps with (b := (tok', validated)); [exact Hv|].
    apply read_multiple_ranges_try_fails. exact Hapi.
  - intros tok sid rng text mc mec rx inc tok' sid' rng' text' w s' Hv Hapi.
    rewrite find_cells_guarded.
    apply guarded_remaps with (b := (tok', sid', rng', text')); [exact Hv|].
    apply find_cells_try_fails. exact Hapi.
  - intros fuel folder_token ft page_size ps pages s s'
           Hps Hft Htyped Hnext Hreplies Hfuel.
    exact (list_spreadsheets_run fuel folder_token ft page_size ps pages
             (Raise (APIError e)) (Raise (APIError e)) s s'
             Hps Hft Htyped Hnext Hreplies eq_refl Hfuel).
  - pose proof (tables_keep_code_and_status e) as Hkeep.
    rewrite Forall_forall in *. intros remap Hr.
    destruct (Hkeep remap Hr) as [Hc Hs].
    repeat split; [exact Hc|exact Hs|].
    exact (classify_by_code e (remap e) Hin Hc).
  - intros Hc. pose proof (tables_say_spreadsheet_not_found e Hc) as Hsay.
    rewrite Forall_forall in *. intros remap Hr.
    rewrite (Hsay remap Hr). split; reflexivity.
  - unfold list_spreadsheets_remap, relabel. simpl in Hin.
    destruct (Z.eqb_spec (code e) 1061004); [lia|reflexivity].
Qed.

End ProviderFailures.

Lemma C6_provider_failures_are_remapped_witness :
  get_worksheets (models := TestDoubles.models)
    (client := TestDoubles.scripted) "test_token"
    ([Raise (APIError (mkFeishuAPIError 1310214 "spreadsheet not found" 404))],
     [])
  = (Raise (APIError (mkFeishuAPIError 1310214
                        spreadsheet_not_found_message 404)),
     ([], [Call_get_worksheets "test_token"]))
  /\ read_range (models := TestDoubles.models)
       (client := TestDoubles.scripted)
       "test_token" "Sheet1!A1:Z1000" "UnformattedValue" "FormattedString"
       ([Raise (APIError (mkFeishuAPIError 1310214 "spreadsheet not found"
                            404))], [])
     = (Raise (APIError (mkFeishuAPIError 1310214
                           spreadsheet_not_found_message 404)),
        ([], [Call_read_range "test_token" "Sheet1!A1:Z1000"
                "UnformattedValue" "FormattedString"])).
Proof.
  destruct (C6_provider_failures_are_remapped (models := TestDoubles.models)
              (re := TestDoubles.re) (client := TestDoubles.scripted)
              (mkFeishuAPIError 1310214 "spreadsheet not found" 404))
    as (Hworksheets & Hread & _).
  - simpl. auto.
  - split.
    + apply (Hworksheets "test_token" "test_token"); reflexivity.
    + apply (Hread "test_token" "Sheet1!A1:Z1000" "UnformattedValue"
               "FormattedString" "test_token" "Sheet1!A1:Z1000");
        reflexivity.
Defined.

(** [list_spreadsheets] has no row for code 1310214: the error leaves the
    operation with the message the provider gave it, which need not say that
    anything does not exist. *)
Lemma C6_listing_does_not_relabel_not_found :
  list_spreadsheets (models := TestDoubles.models)
    (client := TestDoubles.scripted) 3 None (PInt 50)
    ([Raise (APIError (mkFeishuAPIError 1310214 "request failed" 404))], [])
  = (Some (Raise (APIError (mkFeishuAPIError 1310214 "request failed" 404))),
     ([], [Call_list_files None (PInt 50) None]))
  /\ says_does_not_exist "request failed" = false.
Proof.
  split; reflexivity.
Qed.

Section UnexpectedErrors.

Context {models : Models} {re : PyRe} {client : ApiClient}.




End UnexpectedErrors.



(** * Further properties of the operations *)

(** ** The document tools, uniformly *)

Lemma require_text_ok (name v : string) :
  strip v <> "" -> require_text name v = Ok (strip v).
Proof.
  intros Hv. unfold require_text.
  destruct (String.eqb_spec v "") as [->|_]; [exfalso; apply Hv; reflexivity|].
  destruct (String.eqb_spec (strip v) ""); [contradiction|reflexivity].
Qed.

Lemma require_text_blank (name v : string) :
  strip v = "" -> require_text name v = Raise (ValueError (blank_message name v)).
Proof.
  intros Hv. unfold require_text, blank_message.
  destruct (v =? ""); [reflexivity|]. rewrite Hv. reflexivity.
Qed.

Lemma require_text_value (name v v' : string) :
  require_text name v = Ok v' -> v' = strip v /\ strip v <> "".
Proof.
  unfold require_text. destruct (v =? ""); [discriminate|].
  destruct (String.eqb_spec (strip v) ""); [discriminate|].
  intros H. injection H as <-. auto.
Qed.

Section DocumentTools.

Context {models : Models} {re : PyRe} {client : ApiClient}.

Lemma tag_except_clauses {A : Type} (f : A -> ToolResult) remap prefix
      (r : result A) :
  tag f (except_clauses remap prefix r) = except_clauses remap prefix (tag f r).
Proof.
  destruct r as [a|[m|e|c m|c m]]; reflexivity.
Qed.

Lemma tag_bind {A B : Type} (f : B -> ToolResult) (r : result A)
      (k : A -> result B) :
  tag f (x <- r ;; k x) = (x <- r ;; tag f (k x)).
Proof.
  destruct r; reflexivity.
Qed.

(** Every document tool has the same course: the checks, then one call,
    then the mapping of the response, all closed by the [except] clauses. *)
Lemma run_tool_course (args : ToolArgs) (w : world) :
  run_tool args w
  = match tool_validate args with
    | Raise e => (Raise e, w)
    | Ok c =>
        let (r, s') := api c (fst w) in
        (except_clauses (tool_table args) (tool_prefix args)
           (response <- r ;; tool_decode args c response),
         (s', (snd w ++ [c])%list))
    end.
Proof.
  destruct args as [tok|tok rng vro dtro|tok ranges vro dtro
                    |tok sid rng text mc mec rx inc];
    unfold run_tool, tool_validate, tool_table, tool_prefix, tool_decode.
  - unfold get_worksheets.
    destruct (require_text "spreadsheet_token" tok) as [tok'|e];
      [|reflexivity].
    simpl. unfold get_worksheets_try, call_api.
    destruct (api (Call_get_worksheets tok') (fst w)) as [r s'].
    rewrite tag_except_clauses. f_equal. f_equal.
    destruct r as [response|e]; [|reflexivity]. simpl.
    unfold response_sheets.
    destruct (py_get response "data" (PDict [])) as [data|e]; [|reflexivity].
    simpl. destruct (py_get data "sheets" (PList [])) as [sheets|e];
      [|reflexivity].
    simpl. destruct (py_iter sheets); reflexivity.
  - unfold read_range.
    destruct (read_range_validate tok rng vro dtro) as [[tok' rng']|e];
      [|reflexivity].
    simpl. unfold read_range_try, call_api.
    destruct (api (Call_read_range tok' rng' vro dtro) (fst w)) as [r s'].
    rewrite tag_except_clauses. f_equal. f_equal.
    destruct r as [response|e]; [|reflexivity]. simpl.
    unfold response_value_range.
    destruct (py_get response "data" (PDict [])) as [data|e]; [|reflexivity].
    simpl. destruct (py_get data "valueRange" (PDict [])); reflexivity.
  - unfold read_multiple_ranges.
    destruct (read_multiple_ranges_validate tok ranges vro dtro)
      as [[tok' validated]|e]; [|reflexivity].
    simpl. unfold read_multiple_ranges_try, call_api.
    destruct (api (Call_read_multiple_ranges tok' validated vro dtro) (fst w))
      as [r s'].
    rewrite tag_except_clauses. f_equal. f_equal.
    destruct r as [response|e]; [|reflexivity]. simpl.
    destruct (response_value_ranges response); reflexivity.
  - unfold find_cells.
    destruct (find_cells_validate tok sid rng text rx)
      as [[[[tok' sid'] rng'] text']|e]; [|reflexivity].
    simpl. unfold find_cells_try, call_api.
    destruct (api (Call_find_cells tok' sid' rng' text' mc mec rx inc) (fst w))
      as [r s'].
    rewrite tag_except_clauses. f_equal. f_equal.
    destruct r as [response|e]; [|reflexivity]. simpl.
    unfold response_find_result.
    destruct (py_get response "data" (PDict [])) as [data|e]; [|reflexivity].
    simpl. destruct (py_get data "find_result" (PDict [])); reflexivity.
Qed.

Lemma tool_validate_token (args : ToolArgs) (c : api_call) :
  tool_validate args = Ok c ->
  call_spreadsheet_token c = Some (strip (tool_spreadsheet_token args))
  /\ strip (tool_spreadsheet_token args) <> "".
Proof.
  destruct args as [tok|tok rng vro dtro|tok ranges vro dtro
                    |tok sid rng text mc mec rx inc];
    unfold tool_validate, read_range_validate, read_multiple_ranges_validate,
      find_cells_validate, tool_spreadsheet_token;
    destruct (require_text "spreadsheet_token" tok) as [tok'|e] eqn:Et;
    try discriminate;
    destruct (require_text_value _ _ _ Et) as [-> Hne]; simpl.
  - intros H. injection H as <-. auto.
  - destruct (validate_range_spec rng); [|discriminate]. simpl.
    destruct (validate_render_options vro dtro); [|discriminate]. simpl.
    intros H. injection H as <-. auto.
  - destruct (validate_ranges ranges); [|discriminate]. simpl.
    destruct (validate_render_options vro dtro); [|discriminate]. simpl.
    intros H. injection H as <-. auto.
  - destruct (require_text "sheet_id" sid); [|discriminate]. simpl.
    destruct (require_text "range_spec" rng); [|discriminate]. simpl.
    destruct (require_text "find_text" text); [|discriminate]. simpl.
    destruct (validate_regex rx _); [|discriminate]. simpl.
    intros H. injection H as <-. auto.
Qed.

(** X1.  Whatever its arguments, the client and the outcome, a document tool
    makes at most one client call: none when a check on the arguments
    fails, otherwise exactly the call the checked arguments lead to -- also
    when that call fails or its response cannot be mapped.  The call carries
    the spreadsheet token trimmed, and never a blank one. *)
Theorem X1_document_tools_make_at_most_one_call (args : ToolArgs) (w : world) :
  snd (snd (run_tool args w))
  = (snd w ++ match tool_validate args with
              | Ok c => [c]
              | Raise _ => []
              end)%list
  /\ (forall c, In c match tool_validate args with
                     | Ok c => [c]
                     | Raise _ => []
                     end ->
                call_spreadsheet_token c
                = Some (strip (tool_spreadsheet_token args))
                /\ strip (tool_spreadsheet_token args) <> "").
Proof.
  split.
  - rewrite run_tool_course.
    destruct (tool_validate args) as [c|e]; simpl.
    + destruct (api c (fst w)) as [r s']. reflexivity.
    + rewrite app_nil_r. reflexivity.
  - intros c Hin. destruct (tool_validate args) as [c0|e] eqn:Ev;
      [|destruct Hin].
    destruct Hin as [<-|[]]. exact (tool_validate_token args c0 Ev).
Qed.

(** X2.  A document tool given an empty or whitespace-only spreadsheet token
    raises a [ValueError] naming the argument -- "must be a non-empty
    string" for the empty string, "cannot be empty or whitespace only"
    otherwise -- whatever its other arguments, and leaves the client
    untouched. *)
Theorem X2_blank_spreadsheet_token_is_rejected (args : ToolArgs) (w : world) :
  strip (tool_spreadsheet_token args) = "" ->
  run_tool args w
  = (Raise (ValueError (blank_message "spreadsheet_token"
                          (tool_spreadsheet_token args))), w).
Proof.
  intros Hblank. rewrite run_tool_course.
  destruct args as [tok|tok rng vro dtro|tok ranges vro dtro
                    |tok sid rng text mc mec rx inc];
    unfold tool_validate, read_range_validate, read_multiple_ranges_validate,
      find_cells_validate; simpl in Hblank;
    rewrite (require_text_blank "spreadsheet_token" tok Hblank); reflexivity.
Qed.

End DocumentTools.

(** The blank token of the first run is a space, an ideographic space
    (U+3000) and a no-break space (U+00A0). *)
Lemma X2_blank_spreadsheet_token_is_rejected_witness :
  run_tool (models := TestDoubles.models) (re := TestDoubles.re)
    (client := TestDoubles.scripted)
    (ReadRangeArgs " 　 " "Sheet1!A1:B2" "UnformattedValue" "FormattedString")
    ([Ok PNone], [])
  = (Raise (ValueError "spreadsheet_token cannot be empty or whitespace only"),
     ([Ok PNone], []))
  /\ run_tool (models := TestDoubles.models) (re := TestDoubles.re)
       (client := TestDoubles.scripted) (GetWorksheetsArgs "") ([Ok PNone], [])
     = (Raise (ValueError "spreadsheet_token must be a non-empty string"),
        ([Ok PNone], [])).
Proof.
  split.
  - apply (X2_blank_spreadsheet_token_is_rejected
             (models := TestDoubles.models) (re := TestDoubles.re)
             (client := TestDoubles.scripted)
             (ReadRangeArgs " 　 " "Sheet1!A1:B2" "UnformattedValue"
                "FormattedString")).
    reflexivity.
  - apply (X2_blank_spreadsheet_token_is_rejected
             (models := TestDoubles.models) (re := TestDoubles.re)
             (client := TestDoubles.scripted) (GetWorksheetsArgs "")).
    reflexivity.
Defined.

Lemma X1_document_tools_make_at_most_one_call_witness :
  snd (snd (run_tool (models := TestDoubles.models) (re := TestDoubles.re)
              (client := TestDoubles.scripted)
              (FindCellsArgs "　tok " "sheet1" "A1:B10" "text" false false
                 false false)
              ([Raise (OtherError "TimeoutError" "")], [])))
  = [Call_find_cells "tok" "sheet1" "A1:B10" "text" false false false false]
  /\ call_spreadsheet_token
       (Call_find_cells "tok" "sheet1" "A1:B10" "text" false false false false)
     = Some "tok".
Proof.
  destruct (X1_document_tools_make_at_most_one_call
              (models := TestDoubles.models) (re := TestDoubles.re)
              (client := TestDoubles.scripted)
              (FindCellsArgs "　tok " "sheet1" "A1:B10" "text" false false
                 false false)
              ([Raise (OtherError "TimeoutError" "")], []))
    as [Hlog Htoken].
  split.
  - exact Hlog.
  - apply (Htoken (Call_find_cells "tok" "sheet1" "A1:B10" "text" false false
                     false false)).
    simpl. auto.
Defined.

Section ToolErrors.

Context {models : Models} {re : PyRe} {client : ApiClient}.

Lemma tool_table_keeps_code_and_status (args : ToolArgs)
      (e : FeishuAPIError) :
  code (tool_table args e) = code e
  /\ http_status (tool_table args e) = http_status e.
Proof.
  destruct args; simpl;
    unfold get_worksheets_remap, read_range_remap,
      read_multiple_ranges_remap, find_cells_remap, relabel;
    table_cases e.
Qed.

Lemma tool_table_without_row (args : ToolArgs) (e : FeishuAPIError) :
  ~ In (code e) (tool_rows args) ->
  tool_table args e
  = if is_authentication_error e then relabel e auth_failed_message else e.
Proof.
  intros Hrow.
  destruct args; simpl in *;
    unfold get_worksheets_remap, read_range_remap,
      read_multiple_ranges_remap, find_cells_remap;
    repeat match goal with
           | |- context [(code e =? ?c)%Z] =>
               let E := fresh "E" in
               destruct (Z.eqb_spec (code e) c) as [E|E];
                 [exfalso; apply Hrow; rewrite E; simpl; tauto|]
           end;
    reflexivity.
Qed.

(** X3.  When the one call of a document tool fails with a provider error
    [e], the tool raises a provider error with the code and HTTP status of
    [e] after that call alone.  If the tool's table has no row for the code,
    the error is [e] itself, untouched, unless the authentication predicate
    holds of it, in which case only its message is replaced by the
    "authentication failed" one. *)
Theorem X3_provider_errors_without_a_row (args : ToolArgs) (c : api_call)
        (e : FeishuAPIError) (w : world) (s' : St) :
  tool_validate args = Ok c ->
  api c (fst w) = (Raise (APIError e), s') ->
  run_tool args w
  = (Raise (APIError (tool_table args e)), (s', (snd w ++ [c])%list))
  /\ code (tool_table args e) = code e
  /\ http_status (tool_table args e) = http_status e
  /\ (~ In (code e) (tool_rows args) ->
      tool_table args e
      = if is_authentication_error e
        then mkFeishuAPIError (code e) auth_failed_message (http_status e)
        else e).
Proof.
  intros Hv Hapi. split; [|split; [|split]].
  - rewrite run_tool_course, Hv, Hapi. reflexivity.
  - apply tool_table_keeps_code_and_status.
  - apply tool_table_keeps_code_and_status.
  - apply tool_table_without_row.
Qed.

(** X5.  When the response to the one call of a document tool is not a JSON
    object (a list, a string, a number, null), the tool raises the wrapped
    error: code -1, HTTP status 500, and the operation's prefix followed by
    Python's "'<type>' object has no attribute 'get'". *)
Theorem X5_non_object_response_is_wrapped (args : ToolArgs) (c : api_call)
        (v : pyval) (w : world) (s' : St) :
  tool_validate args = Ok c ->
  api c (fst w) = (Ok v, s') ->
  (forall d, v <> PDict d) ->
  run_tool args w
  = (Raise (APIError (mkFeishuAPIError (-1)
                        (tool_prefix args ++ "'" ++ type_name v
                         ++ "' object has no attribute 'get'") 500)),
     (s', (snd w ++ [c])%list)).
Proof.
  intros Hv Hapi Hnot. rewrite run_tool_course, Hv, Hapi.
  assert (Hget : py_get v "data" (PDict [])
                 = Raise (OtherError "AttributeError"
                            ("'" ++ type_name v
                             ++ "' object has no attribute 'get'"))).
  { destruct v; try reflexivity. exfalso. exact (Hnot d eq_refl). }
  destruct args; simpl;
    unfold response_sheets, response_value_range, response_value_ranges,
      response_find_result; rewrite Hget; reflexivity.
Qed.

End ToolErrors.

(** X4.  A code that has a row in an operation's table is relabelled by that
    row whatever the authentication predicate says of the error: the row
    comes first.  This holds of the four document tools and of code 1061004
    in [list_spreadsheets]. *)
Theorem X4_table_rows_precede_authentication (m1 m2 : Models)
        (e : FeishuAPIError) :
  (forall args,
      In (code e) (tool_rows args) ->
      tool_table (models := m1) args e = tool_table (models := m2) args e)
  /\ (code e = 1061004%Z ->
      list_spreadsheets_remap (models := m1) e
      = list_spreadsheets_remap (models := m2) e).
Proof.
  split.
  - intros args Hrow.
    destruct args; simpl in *;
      unfold get_worksheets_remap, read_range_remap,
        read_multiple_ranges_remap, find_cells_remap;
      repeat match goal with
             | |- context [(code e =? ?c)%Z] =>
                 let E := fresh "E" in
                 destruct (Z.eqb_spec (code e) c) as [E|E]; [reflexivity|]
             end;
      exfalso; simpl in Hrow; intuition congruence.
  - intros Hc. unfold list_spreadsheets_remap. rewrite Hc. reflexivity.
Qed.

Lemma X3_provider_errors_without_a_row_witness :
  run_tool (models := TestDoubles.always_auth_models) (re := TestDoubles.re)
    (client := TestDoubles.scripted) (GetWorksheetsArgs "test_token")
    ([Raise (APIError (mkFeishuAPIError 99991663 "app not found" 200))], [])
  = (Raise (APIError (mkFeishuAPIError 99991663 auth_failed_message 200)),
     ([], [Call_get_worksheets "test_token"]))
  /\ run_tool (models := TestDoubles.models) (re := TestDoubles.re)
       (client := TestDoubles.scripted) (GetWorksheetsArgs "test_token")
       ([Raise (APIError (mkFeishuAPIError 1310218 "data too large" 413))], [])
     = (Raise (APIError (mkFeishuAPIError 1310218 "data too large" 413)),
        ([], [Call_get_worksheets "test_token"])).
Proof.
  split.
  - apply (X3_provider_errors_without_a_row
             (models := TestDoubles.always_auth_models) (re := TestDoubles.re)
             (client := TestDoubles.scripted) (GetWorksheetsArgs "test_token")
             (Call_get_worksheets "test_token")
             (mkFeishuAPIError 99991663 "app not found" 200)
             ([Raise (APIError (mkFeishuAPIError 99991663 "app not found"
                                  200))], []) []);
      reflexivity.
  - apply (X3_provider_errors_without_a_row
             (models := TestDoubles.models) (re := TestDoubles.re)
             (client := TestDoubles.scripted) (GetWorksheetsArgs "test_token")
             (Call_get_worksheets "test_token")
             (mkFeishuAPIError 1310218 "data too large" 413)
             ([Raise (APIError (mkFeishuAPIError 1310218 "data too large"
                                  413))], []) []);
      reflexivity.
Defined.

Lemma X4_table_rows_precede_authentication_witness :
  tool_table (models := TestDoubles.always_auth_models)
    (ReadRangeArgs "test_token" "Sheet1!A1:B2" "UnformattedValue"
       "FormattedString")
    (mkFeishuAPIError 1310213 "permission denied" 403)
  = mkFeishuAPIError 1310213 no_read_permission_message 403
  /\ list_spreadsheets_remap (models := TestDoubles.always_auth_models)
       (mkFeishuAPIError 1061004 "permission denied" 403)
     = list_spreadsheets_remap (models := TestDoubles.models)
         (mkFeishuAPIError 1061004 "permission denied" 403).
Proof.
  destruct (X4_table_rows_precede_authentication
              TestDoubles.always_auth_models TestDoubles.models
              (mkFeishuAPIError 1310213 "permission denied" 403))
    as [Hrows _].
  destruct (X4_table_rows_precede_authentication
              TestDoubles.always_auth_models TestDoubles.models
              (mkFeishuAPIError 1061004 "permission denied" 403))
    as [_ Hlist].
  split.
  - refine (eq_trans (Hrows _ _) _); [simpl; auto|reflexivity].
  - apply Hlist. reflexivity.
Defined.

Lemma X5_non_object_response_is_wrapped_witness :
  run_tool (models := TestDoubles.models) (re := TestDoubles.re)
    (client := TestDoubles.scripted)
    (ReadMultipleRangesArgs "test_token" ["Sheet1!A1:B2"] "UnformattedValue"
       "FormattedString")
    ([Ok (PList [])], [])
  = (Raise (APIError (mkFeishuAPIError (-1)
                        (read_multiple_ranges_prefix
                         ++ "'list' object has no attribute 'get'") 500)),
     ([], [Call_read_multiple_ranges "test_token" ["Sheet1!A1:B2"]
             "UnformattedValue" "FormattedString"])).
Proof.
  apply (X5_non_object_response_is_wrapped
           (models := TestDoubles.models) (re := TestDoubles.re)
           (client := TestDoubles.scripted)
           (ReadMultipleRangesArgs "test_token" ["Sheet1!A1:B2"]
              "UnformattedValue" "FormattedString")
           (Call_read_multiple_ranges "test_token" ["Sheet1!A1:B2"]
              "UnformattedValue" "FormattedString")
           (PList []) ([Ok (PList [])], []) []);
    [reflexivity|reflexivity|discriminate].
Defined.

(** ** Responses with missing parts *)

Lemma missing_field_defaults (response : pyval) (k : string) :
  missing_field response k = true ->
  exists data,
    py_get response "data" (PDict []) = Ok data
    /\ forall default, py_get data k default = Ok default.
Proof.
  unfold missing_field.
  destruct response as [| | | | |d]; try discriminate.
  simpl. destruct (assoc "data" d) as [[| | | | |d']|] eqn:Ed; try discriminate.
  - destruct (assoc k d') eqn:Ek; [discriminate|].
    intros _. exists (PDict d'). split; [reflexivity|].
    intros default. simpl. rewrite Ek. reflexivity.
  - intros _. exists (PDict []). split; [reflexivity|].
    intros default. reflexivity.
Qed.

Section MissingFields.

Context {models : Models} {re : PyRe} {client : ApiClient}.

(** X6.  A response from which [data], or the field of [data] an operation
    reads, is absent is not an error: [get_worksheets] and
    [read_multiple_ranges] return the empty list, [list_spreadsheets] returns
    the empty list after its one request (no page token being announced), and
    [read_range] and [find_cells] hand the empty JSON object to the record
    constructor and return or raise what it makes of it. *)
Theorem X6_missing_fields_default_to_empty :
  (forall tok tok' response w s',
      require_text "spreadsheet_token" tok = Ok tok' ->
      api (Call_get_worksheets tok') (fst w) = (Ok response, s') ->
      missing_field response "sheets" = true ->
      get_worksheets tok w
      = (Ok [], (s', (snd w ++ [Call_get_worksheets tok'])%list)))
  /\ (forall tok ranges vro dtro tok' validated response w s',
         read_multiple_ranges_validate tok ranges vro dtro
         = Ok (tok', validated) ->
         api (Call_read_multiple_ranges tok' validated vro dtro) (fst w)
         = (Ok response, s') ->
         missing_field response "valueRanges" = true ->
         read_multiple_ranges tok ranges vro dtro w
         = (Ok [],
            (s', (snd w ++ [Call_read_multiple_ranges tok' validated vro
                              dtro])%list)))
  /\ (forall fuel folder_token ft page_size ps response s s',
         validate_page_size page_size = Ok ps ->
         validate_folder_token folder_token = Ok ft ->
         api (Call_list_files ft ps None) s = (Ok response, s') ->
         missing_field response "files" = true ->
         has_next response = false ->
         (0 < fuel)%nat ->
         list_spreadsheets fuel folder_token page_size (s, [])
         = (Some (Ok []), (s', [Call_list_files ft ps None])))
  /\ (forall tok rng vro dtro tok' rng' response w s',
         read_range_validate tok rng vro dtro = Ok (tok', rng') ->
         api (Call_read_range tok' rng' vro dtro) (fst w)
         = (Ok response, s') ->
         missing_field response "valueRange" = true ->
         read_range tok rng vro dtro w
         = (except_clauses read_range_remap read_range_prefix
              (RangeData_from_api_response (PDict [])),
            (s', (snd w ++ [Call_read_range tok' rng' vro dtro])%list)))
  /\ (forall tok sid rng text mc mec rx inc tok' sid' rng' text' response w s',
         find_cells_validate tok sid rng text rx
         = Ok (tok', sid', rng', text') ->
         api (Call_find_cells tok' sid' rng' text' mc mec rx inc) (fst w)
         = (Ok response, s') ->
         missing_field response "find_result" = true ->
         find_cells tok sid rng text mc mec rx inc w
         = (except_clauses find_cells_remap find_cells_prefix
              (FindResult_from_api_response (PDict [])),
            (s', (snd w ++ [Call_find_cells tok' sid' rng' text' mc mec rx
                              inc])%list))).
Proof.
  split; [|split; [|split; [|split]]].
  - intros tok tok' response w s' Hv Hapi Hmiss.
    destruct (missing_field_defaults _ _ Hmiss) as (data & Hdata & Hfield).
    unfold get_worksheets. rewrite Hv.
    unfold get_worksheets_try, call_api. rewrite Hapi. simpl.
    rewrite Hdata. simpl. rewrite Hfield. reflexivity.
  - intros tok ranges vro dtro tok' validated response w s' Hv Hapi Hmiss.
    destruct (missing_field_defaults _ _ Hmiss) as (data & Hdata & Hfield).
    unfold read_multiple_ranges. rewrite Hv.
    unfold read_multiple_ranges_try, call_api. rewrite Hapi. simpl.
    unfold response_value_ranges. rewrite Hdata. simpl. rewrite Hfield.
    reflexivity.
  - intros fuel folder_token ft page_size ps response s s'
           Hps Hft Hapi Hmiss Hlast Hfuel.
    destruct (missing_field_defaults _ _ Hmiss) as (data & Hdata & Hfield).
    unfold list_spreadsheets. rewrite Hps, Hft.
    destruct fuel as [|fuel]; [lia|].
    simpl. unfold call_api. simpl. rewrite Hapi.
    unfold absorb_page, response_files. rewrite Hdata. simpl.
    rewrite Hfield. simpl.
    unfold has_next, token_of in Hlast.
    destruct (response_page_token response) as [t|e] eqn:Et.
    + simpl. rewrite Hlast. reflexivity.
    + exfalso. unfold response_page_token in Et. rewrite Hdata in Et.
      simpl in Et.
      destruct data; simpl in Et; try discriminate;
        specialize (Hfield PNone); discriminate.
  - intros tok rng vro dtro tok' rng' response w s' Hv Hapi Hmiss.
    destruct (missing_field_defaults _ _ Hmiss) as (data & Hdata & Hfield).
    unfold read_range. rewrite Hv.
    unfold read_range_try, call_api. rewrite Hapi. simpl.
    rewrite Hdata. simpl. rewrite Hfield. reflexivity.
  - intros tok sid rng text mc mec rx inc tok' sid' rng' text' response w s'
           Hv Hapi Hmiss.
    destruct (missing_field_defaults _ _ Hmiss) as (data & Hdata & Hfield).
    unfold find_cells. rewrite Hv.
    unfold find_cells_try, call_api. rewrite Hapi. simpl.
    rewrite Hdata. simpl. rewrite Hfield. reflexivity.
Qed.

End MissingFields.

Lemma X6_missing_fields_default_to_empty_witness :
  get_worksheets (models := TestDoubles.models)
    (client := TestDoubles.scripted) "test_token" ([Ok (PDict [])], [])
  = (Ok [], ([], [Call_get_worksheets "test_token"]))
  /\ list_spreadsheets (models := TestDoubles.models)
       (client := TestDoubles.scripted) 1 None (PInt 50)
       ([Ok (TestDoubles.envelope [])], [])
     = (Some (Ok []), ([], [Call_list_files None (PInt 50) None])).
Proof.
  destruct (X6_missing_fields_default_to_empty
              (models := TestDoubles.models) (re := TestDoubles.re)
              (client := TestDoubles.scripted))
    as (Hsheets & _ & Hlist & _).
  split.
  - apply (Hsheets "test_token" "test_token" (PDict []) ([Ok (PDict [])], [])
             []); reflexivity.
  - apply (Hlist 1%nat None None (PInt 50) (PInt 50) (TestDoubles.envelope [])
             [Ok (TestDoubles.envelope [])] []); try reflexivity.
    lia.
Defined.

(** ** Worksheets and single ranges *)

Section SingleCalls.

Context {models : Models} {re : PyRe} {client : ApiClient}.

Lemma collect_worksheets_well_typed (items : list pyval) :
  forallb worksheet_entry_well_typed items = true ->
  forall acc,
    collect_worksheets items acc
    = Ok (acc ++ flat_map kept_worksheet items)%list.
Proof.
  induction items as [|d rest IH]; intros Hall acc; simpl.
  - rewrite app_nil_r. reflexivity.
  - simpl in Hall. apply andb_true_iff in Hall as [Hd Hrest].
    unfold worksheet_entry_well_typed in Hd. unfold kept_worksheet.
    destruct (WorksheetInfo_from_api_response d) as [ws|[m|a|c m|c m]];
      try discriminate; rewrite (IH Hrest).
    + rewrite <- app_assoc. reflexivity.
    + reflexivity.
Qed.

Lemma kept_worksheets_length (items : list pyval) :
  (List.length (flat_map kept_worksheet items) <= List.length items)%nat.
Proof.
  induction items as [|d rest IH]; simpl; [lia|].
  rewrite length_app. unfold kept_worksheet at 1.
  destruct (WorksheetInfo_from_api_response d); simpl; lia.
Qed.

Lemma get_worksheets_try_decodes (tok : string) (w : world) :
  get_worksheets_try tok w
  = let (r, w') := call_api (Call_get_worksheets tok) w in
    (response <- r ;;
     items <- response_sheets response ;;
     collect_worksheets items [], w').
Proof.
  unfold get_worksheets_try.
  destruct (call_api (Call_get_worksheets tok) w) as [[response|e] w'];
    [|reflexivity].
  simpl. unfold response_sheets.
  destruct (py_get response "data" (PDict [])) as [data|e]; [|reflexivity].
  simpl. destruct (py_get data "sheets" (PList [])) as [sheets|e];
    [|reflexivity].
  simpl. destruct (py_iter sheets); reflexivity.
Qed.

(** X7.  When the provider's sheet list is made of entries that the record
    constructor either builds or rejects as malformed, [get_worksheets]
    returns, after its one call, the worksheets built from the entries it
    could build, in the provider's order; each malformed entry is left out on
    its own, so the result is never longer than the provider's list. *)
Theorem X7_get_worksheets_keeps_buildable_entries
        (tok tok' : string) (response : pyval) (items : list pyval)
        (w : world) (s' : St) :
  require_text "spreadsheet_token" tok = Ok tok' ->
  api (Call_get_worksheets tok') (fst w) = (Ok response, s') ->
  response_sheets response = Ok items ->
  forallb worksheet_entry_well_typed items = true ->
  get_worksheets tok w
  = (Ok (flat_map kept_worksheet items),
     (s', (snd w ++ [Call_get_worksheets tok'])%list))
  /\ (List.length (flat_map kept_worksheet items) <= List.length items)%nat.
Proof.
  intros Hv Hapi Hitems Htyped. split; [|apply kept_worksheets_length].
  unfold get_worksheets. rewrite Hv, get_worksheets_try_decodes.
  unfold call_api. rewrite Hapi. simpl. rewrite Hitems. simpl.
  rewrite (collect_worksheets_well_typed items Htyped). reflexivity.
Qed.

(** X8.  [read_range] maps the [valueRange] of the response through the
    record constructor: what the constructor builds is returned as it is.
    Unlike the batch read, the single read does not replace a malformed
    value range by a placeholder: when the constructor rejects it with a
    [ValueError] the operation raises the wrapped error (code -1, status 500)
    carrying the constructor's message. *)
Theorem X8_read_range_maps_or_wraps
        (tok rng vro dtro tok' rng' : string) (response value_range : pyval)
        (w : world) (s' : St) :
  read_range_validate tok rng vro dtro = Ok (tok', rng') ->
  api (Call_read_range tok' rng' vro dtro) (fst w) = (Ok response, s') ->
  response_value_range response = Ok value_range ->
  (forall range_data,
      RangeData_from_api_response value_range = Ok range_data ->
      read_range tok rng vro dtro w
      = (Ok range_data,
         (s', (snd w ++ [Call_read_range tok' rng' vro dtro])%list)))
  /\ (forall m,
         RangeData_from_api_response value_range = Raise (ValueError m) ->
         read_range tok rng vro dtro w
         = (Raise (APIError (mkFeishuAPIError (-1) (read_range_prefix ++ m)
                               500)),
            (s', (snd w ++ [Call_read_range tok' rng' vro dtro])%list))).
Proof.
  intros Hv Hapi Hvr.
  assert (Hrun :
    read_range tok rng vro dtro w
    = (except_clauses read_range_remap read_range_prefix
         (RangeData_from_api_response value_range),
       (s', (snd w ++ [Call_read_range tok' rng' vro dtro])%list))).
  { unfold read_range. rewrite Hv.
    unfold read_range_try, call_api. rewrite Hapi. simpl.
    unfold response_value_range in Hvr.
    destruct (py_get response "data" (PDict [])) as [data|e]; [|discriminate].
    simpl in *. rewrite Hvr. reflexivity. }
  split.
  - intros range_data Hc. rewrite Hrun, Hc. reflexivity.
  - intros m Hc. rewrite Hrun, Hc. reflexivity.
Qed.

End SingleCalls.

Lemma X7_get_worksheets_keeps_buildable_entries_witness :
  get_worksheets (models := TestDoubles.models)
    (client := TestDoubles.scripted) "test_token"
    ([Ok (TestDoubles.envelope
            [("sheets",
              PList [TestDoubles.sheet_entry "valid_sheet" "Valid Sheet";
                     PDict [("sheet_id", PStr "invalid_sheet");
                            ("title", PStr "Invalid Sheet")]])])], [])
  = (Ok [TestDoubles.mkSheet "valid_sheet" "Valid Sheet"],
     ([], [Call_get_worksheets "test_token"])).
Proof.
  apply (X7_get_worksheets_keeps_buildable_entries
           (models := TestDoubles.models) (client := TestDoubles.scripted)
           "test_token" "test_token"
           (TestDoubles.envelope
              [("sheets",
                PList [TestDoubles.sheet_entry "valid_sheet" "Valid Sheet";
                       PDict [("sheet_id", PStr "invalid_sheet");
                              ("title", PStr "Invalid Sheet")]])])
           [TestDoubles.sheet_entry "valid_sheet" "Valid Sheet";
            PDict [("sheet_id", PStr "invalid_sheet");
                   ("title", PStr "Invalid Sheet")]]
           ([Ok (TestDoubles.envelope
                   [("sheets",
                     PList [TestDoubles.sheet_entry "valid_sheet" "Valid Sheet";
                            PDict [("sheet_id", PStr "invalid_sheet");
                                   ("title", PStr "Invalid Sheet")]])])], [])
           []);
    reflexivity.
Defined.

Lemma X8_read_range_maps_or_wraps_witness :
  read_range (models := TestDoubles.models) (client := TestDoubles.scripted)
    "test_token" "Sheet1!A1:B2" "UnformattedValue" "FormattedString"
    ([Ok (TestDoubles.envelope
            [("valueRange", PDict [("range", PStr "Sheet1!A1:B2")])])], [])
  = (Raise (APIError (mkFeishuAPIError (-1)
                        (read_range_prefix
                         ++ "Missing required field: majorDimension") 500)),
     ([], [Call_read_range "test_token" "Sheet1!A1:B2" "UnformattedValue"
             "FormattedString"])).
Proof.
  apply (X8_read_range_maps_or_wraps
           (models := TestDoubles.models) (client := TestDoubles.scripted)
           "test_token" "Sheet1!A1:B2" "UnformattedValue" "FormattedString"
           "test_token" "Sheet1!A1:B2"
           (TestDoubles.envelope
              [("valueRange", PDict [("range", PStr "Sheet1!A1:B2")])])
           (PDict [("range", PStr "Sheet1!A1:B2")])
           ([Ok (TestDoubles.envelope
                   [("valueRange", PDict [("range", PStr "Sheet1!A1:B2")])])],
            []) []);
    reflexivity.
Defined.

(** ** Render options *)

Lemma py_in_spec (x : string) (options : list string) :
  py_in x options = true <-> In x options.
Proof.
  unfold py_in. rewrite existsb_exists. split.
  - intros (y & Hy & Heq). apply String.eqb_eq in Heq. subst. exact Hy.
  - intros Hx. exists x. split; [exact Hx|apply String.eqb_refl].
Qed.

Lemma validate_render_options_spec (vro dtro : string) :
  validate_render_options vro dtro = Ok tt
  <-> In vro valid_value_options /\ dtro = "FormattedString".
Proof.
  unfold validate_render_options.
  destruct (py_in vro valid_value_options) eqn:Ev; cbn [negb].
  - apply py_in_spec in Ev.
    destruct (py_in dtro valid_datetime_options) eqn:Ed; cbn [negb].
    + apply py_in_spec in Ed. simpl in Ed. destruct Ed as [<-|[]].
      split; auto.
    + split; [discriminate|]. intros [_ ->]. vm_compute in Ed. discriminate.
  - split; [discriminate|]. intros [Hin _].
    apply py_in_spec in Hin. congruence.
Qed.

Lemma validate_render_options_bad_value (vro dtro : string) :
  ~ In vro valid_value_options ->
  validate_render_options vro dtro
  = Raise (ValueError ("value_render_option must be one of "
                       ++ valid_value_options_repr)).
Proof.
  intros Hv. unfold validate_render_options.
  destruct (py_in vro valid_value_options) eqn:E; [|reflexivity].
  apply py_in_spec in E. contradiction.
Qed.

Lemma validate_render_options_bad_datetime (vro dtro : string) :
  In vro valid_value_options ->
  dtro <> "FormattedString" ->
  validate_render_options vro dtro
  = Raise (ValueError ("date_time_render_option must be one of "
                       ++ valid_datetime_options_repr)).
Proof.
  intros Hv Hd. unfold validate_render_options.
  apply py_in_spec in Hv. rewrite Hv. cbn [negb].
  destruct (py_in dtro valid_datetime_options) eqn:E; [|reflexivity].
  apply py_in_spec in E. simpl in E. destruct E as [<-|[]]. contradiction.
Qed.

Section RenderOptions.

Context {models : Models} {client : ApiClient}.

(** X9.  The render options are closed enumerations: the value render
    option must be one of ToString, Formula, FormattedValue and
    UnformattedValue, the date-time render option must be FormattedString,
    and the server's defaults are among them.  With any other option
    [read_range] and [read_multiple_ranges] raise without calling the client;
    when the token and the ranges are in order, the error is the
    [ValueError] that names the value option first and lists what is
    allowed. *)
Theorem X9_render_options_are_enumerations (vro dtro : string) :
  (validate_render_options vro dtro = Ok tt
   <-> In vro ["ToString"; "Formula"; "FormattedValue"; "UnformattedValue"]
       /\ dtro = "FormattedString")
  /\ validate_render_options default_value_render_option
       default_date_time_render_option = Ok tt
  /\ (validate_render_options vro dtro <> Ok tt ->
      (forall tok rng w,
          exists e, read_range tok rng vro dtro w = (Raise e, w))
      /\ (forall tok ranges w,
             exists e,
               read_multiple_ranges tok ranges vro dtro w = (Raise e, w)))
  /\ (forall tok rng tok' rng' w,
         require_text "spreadsheet_token" tok = Ok tok' ->
         validate_range_spec rng = Ok rng' ->
         ~ In vro valid_value_options ->
         read_range tok rng vro dtro w
         = (Raise (ValueError
                     "value_render_option must be one of ['ToString', 'Formula', 'FormattedValue', 'UnformattedValue']"),
            w))
  /\ (forall tok rng tok' rng' w,
         require_text "spreadsheet_token" tok = Ok tok' ->
         validate_range_spec rng = Ok rng' ->
         In vro valid_value_options ->
         dtro <> "FormattedString" ->
         read_range tok rng vro dtro w
         = (Raise (ValueError
                     "date_time_render_option must be one of ['FormattedString']"),
            w)).
Proof.
  split; [exact (validate_render_options_spec vro dtro)|].
  split; [reflexivity|].
  split; [|split].
  - intros Hbad.
    assert (Hraise : exists e, validate_render_options vro dtro = Raise e).
    { destruct (validate_render_options vro dtro) as [[]|e];
        [contradiction|eauto]. }
    destruct Hraise as [e He]. split.
    + intros tok rng w. unfold read_range, read_range_validate.
      destruct (require_text "spreadsheet_token" tok); simpl; [|eauto].
      destruct (validate_range_spec rng); simpl; [|eauto].
      rewrite He. simpl. eauto.
    + intros tok ranges w.
      unfold read_multiple_ranges, read_multiple_ranges_validate.
      destruct (require_text "spreadsheet_token" tok); simpl; [|eauto].
      destruct (validate_ranges ranges); simpl; [|eauto].
      rewrite He. simpl. eauto.
  - intros tok rng tok' rng' w Ht Hr Hv.
    unfold read_range, read_range_validate.
    rewrite Ht. cbn [bind]. rewrite Hr. cbn [bind].
    rewrite (validate_render_options_bad_value vro dtro Hv). reflexivity.
  - intros tok rng tok' rng' w Ht Hr Hv Hd.
    unfold read_range, read_range_validate.
    rewrite Ht. cbn [bind]. rewrite Hr. cbn [bind].
    rewrite (validate_render_options_bad_datetime vro dtro Hv Hd).
    reflexivity.
Qed.

End RenderOptions.

Lemma X9_render_options_are_enumerations_witness :
  read_range (models := TestDoubles.models) (client := TestDoubles.scripted)
    "test_token" "Sheet1!A1:B2" "Invalid" "FormattedString" ([Ok PNone], [])
  = (Raise (ValueError
              "value_render_option must be one of ['ToString', 'Formula', 'FormattedValue', 'UnformattedValue']"),
     ([Ok PNone], []))
  /\ read_range (models := TestDoubles.models)
       (client := TestDoubles.scripted)
       "test_token" "Sheet1!A1:B2" "Formula" "SerialNumber" ([Ok PNone], [])
     = (Raise (ValueError
                 "date_time_render_option must be one of ['FormattedString']"),
        ([Ok PNone], [])).
Proof.
  split.
  - apply (X9_render_options_are_enumerations
             (models := TestDoubles.models) (client := TestDoubles.scripted)
             "Invalid" "FormattedString")
      with (tok' := "test_token") (rng' := "Sheet1!A1:B2");
      [reflexivity|reflexivity|].
    simpl. intros [H|[H|[H|[H|[]]]]]; discriminate.
  - apply (X9_render_options_are_enumerations
             (models := TestDoubles.models) (client := TestDoubles.scripted)
             "Formula" "SerialNumber")
      with (tok' := "test_token") (rng' := "Sheet1!A1:B2");
      [reflexivity|reflexivity|simpl; auto|discriminate].
Defined.

(** ** Searching cells *)

Section FindCells.

Context {models : Models} {re : PyRe} {client : ApiClient}.

Lemma find_cells_log (tok sid rng text : string) (mc mec rx inc : bool)
      (tok' sid' rng' text' : string) (w : world) :
  find_cells_validate tok sid rng text rx = Ok (tok', sid', rng', text') ->
  snd (snd (find_cells tok sid rng text mc mec rx inc w))
  = (snd w ++ [Call_find_cells tok' sid' rng' text' mc mec rx inc])%list.
Proof.
  intros Hv. unfold find_cells. rewrite Hv.
  unfold find_cells_try, call_api.
  destruct (api _ (fst w)) as [r s']. reflexivity.
Qed.

(** X10.  [find_cells] checks its range only for being non-blank; the
    range-spec validator is not applied to it.  Whenever the four texts are
    non-blank and the trimmed search text compiles (or no regex search is
    asked for), the operation makes exactly one call, which carries the four
    texts trimmed and the four flags as given. *)
Theorem X10_find_cells_sends_trimmed_arguments
        (tok sid rng text : string) (mc mec rx inc : bool) (w : world) :
  strip tok <> "" -> strip sid <> "" -> strip rng <> "" -> strip text <> "" ->
  rx = false \/ re_compile (strip text) = Compiled ->
  snd (snd (find_cells tok sid rng text mc mec rx inc w))
  = (snd w ++ [Call_find_cells (strip tok) (strip sid) (strip rng)
                 (strip text) mc mec rx inc])%list.
Proof.
  intros Ht Hs Hr Hx Hre. apply find_cells_log.
  unfold find_cells_validate.
  rewrite (require_text_ok _ _ Ht), (require_text_ok _ _ Hs),
    (require_text_ok _ _ Hr), (require_text_ok _ _ Hx). simpl.
  unfold validate_regex.
  destruct Hre as [->|Hre]; [reflexivity|].
  destruct rx; [rewrite Hre|]; reflexivity.
Qed.

(** X12.  [find_cells] reports the first blank argument in the order
    spreadsheet token, sheet id, range, search text, each by its own name,
    and compiles the trimmed pattern only after all four passed: with
    [search_by_regex] set and four non-blank texts, a pattern on which the
    compiler raises [re.error] gives "Invalid regular expression: ..." with
    the compiler's message, and any other exception of the compiler leaves
    the operation as it was raised.  None of these errors touches the
    client. *)
Theorem X12_find_cells_reports_first_blank_argument
        (tok sid rng text : string) (mc mec rx inc : bool) (w : world) :
  strip tok <> "" ->
  (strip sid = "" ->
   find_cells tok sid rng text mc mec rx inc w
   = (Raise (ValueError (blank_message "sheet_id" sid)), w))
  /\ (strip sid <> "" -> strip rng = "" ->
      find_cells tok sid rng text mc mec rx inc w
      = (Raise (ValueError (blank_message "range_spec" rng)), w))
  /\ (strip sid <> "" -> strip rng <> "" -> strip text = "" ->
      find_cells tok sid rng text mc mec rx inc w
      = (Raise (ValueError (blank_message "find_text" text)), w))
  /\ (forall m,
         strip sid <> "" -> strip rng <> "" -> strip text <> "" ->
         rx = true -> re_compile (strip text) = ReError m ->
         find_cells tok sid rng text mc mec rx inc w
         = (Raise (ValueError ("Invalid regular expression: " ++ m)), w))
  /\ (forall e,
         strip sid <> "" -> strip rng <> "" -> strip text <> "" ->
         rx = true -> re_compile (strip text) = CompileRaises e ->
         find_cells tok sid rng text mc mec rx inc w = (Raise e, w)).
Proof.
  intros Ht. unfold find_cells, find_cells_validate.
  rewrite (require_text_ok _ _ Ht). simpl.
  split; [|split; [|split; [|split]]].
  - intros Hs. rewrite (require_text_blank _ _ Hs). reflexivity.
  - intros Hs Hr. rewrite (require_text_ok _ _ Hs). simpl.
    rewrite (require_text_blank _ _ Hr). reflexivity.
  - intros Hs Hr Hx. rewrite (require_text_ok _ _ Hs). simpl.
    rewrite (require_text_ok _ _ Hr). simpl.
    rewrite (require_text_blank _ _ Hx). reflexivity.
  - intros m Hs Hr Hx -> Hre. rewrite (require_text_ok _ _ Hs). simpl.
    rewrite (require_text_ok _ _ Hr). simpl.
    rewrite (require_text_ok _ _ Hx). simpl.
    rewrite Hre. reflexivity.
  - intros e Hs Hr Hx -> Hre. rewrite (require_text_ok _ _ Hs). simpl.
    rewrite (require_text_ok _ _ Hr). simpl.
    rewrite (require_text_ok _ _ Hx). simpl.
    rewrite Hre. reflexivity.
Qed.

End FindCells.

(** The search text of the second run is padded with ideographic spaces
    (U+3000). *)
Lemma X10_find_cells_sends_trimmed_arguments_witness :
  snd (snd (find_cells (models := TestDoubles.models) (re := TestDoubles.re)
              (client := TestDoubles.scripted)
              "test_token" " sheet1 " "invalid_range" "[" true false false
              true ([Raise (APIError (mkFeishuAPIError 1310216 "invalid range"
                                        400))], [])))
  = [Call_find_cells "test_token" "sheet1" "invalid_range" "[" true false
       false true]
  /\ snd (snd (find_cells (models := TestDoubles.models)
                 (re := TestDoubles.re) (client := TestDoubles.scripted)
                 "test_token" "sheet123" "A1:B10" "　test.*　" false false
                 true false ([Ok PNone], [])))
     = [Call_find_cells "test_token" "sheet123" "A1:B10" "test.*" false false
          true false].
Proof.
  split.
  - apply (X10_find_cells_sends_trimmed_arguments
             (models := TestDoubles.models) (re := TestDoubles.re)
             (client := TestDoubles.scripted)
             "test_token" " sheet1 " "invalid_range" "[" true false false true
             ([Raise (APIError (mkFeishuAPIError 1310216 "invalid range"
                                  400))], []));
      try discriminate.
    left. reflexivity.
  - apply (X10_find_cells_sends_trimmed_arguments
             (models := TestDoubles.models) (re := TestDoubles.re)
             (client := TestDoubles.scripted)
             "test_token" "sheet123" "A1:B10" "　test.*　" false false true
             false ([Ok PNone], []));
      try discriminate.
    right. reflexivity.
Defined.

Lemma X12_find_cells_reports_first_blank_argument_witness :
  find_cells (models := TestDoubles.models) (re := TestDoubles.re)
    (client := TestDoubles.scripted)
    "test_token" "sheet123" "  " "" false false true false ([Ok PNone], [])
  = (Raise (ValueError "range_spec cannot be empty or whitespace only"),
     ([Ok PNone], []))
  /\ find_cells (models := TestDoubles.models) (re := TestDoubles.re)
       (client := TestDoubles.scripted)
       "test_token" "sheet123" "A1:B10" " [ " false false true false
       ([Ok PNone], [])
     = (Raise (ValueError
                 "Invalid regular expression: unterminated character set at position 0"),
        ([Ok PNone], []))
  /\ find_cells (models := TestDoubles.models) (re := TestDoubles.re)
       (client := TestDoubles.scripted)
       "test_token" "sheet123" "A1:B10" "a{4294967296}" false false true
       false ([Ok PNone], [])
     = (Raise (OtherError "OverflowError" "the repetition number is too large"),
        ([Ok PNone], [])).
Proof.
  split; [|split].
  - refine (proj1 (proj2 (X12_find_cells_reports_first_blank_argument
                            (models := TestDoubles.models)
                            (re := TestDoubles.re)
                            (client := TestDoubles.scripted)
                            "test_token" "sheet123" "  " "" false false true
                            false ([Ok PNone], []) _)) _ _);
      [discriminate|discriminate|reflexivity].
  - refine (proj1 (proj2 (proj2 (proj2
              (X12_find_cells_reports_first_blank_argument
                 (models := TestDoubles.models) (re := TestDoubles.re)
                 (client := TestDoubles.scripted)
                 "test_token" "sheet123" "A1:B10" " [ " false false true false
                 ([Ok PNone], []) _)))) _ _ _ _ _ _);
      try discriminate; reflexivity.
  - refine (proj2 (proj2 (proj2 (proj2
              (X12_find_cells_reports_first_blank_argument
                 (models := TestDoubles.models) (re := TestDoubles.re)
                 (client := TestDoubles.scripted)
                 "test_token" "sheet123" "A1:B10" "a{4294967296}" false false
                 true false ([Ok PNone], []) _)))) _ _ _ _ _ _);
      try discriminate; reflexivity.
Defined.

(** ** The listing loop *)

Section ListingLoop.

Context {models : Models} {client : ApiClient}.

Lemma list_spreadsheets_loop_endless (inv : St -> Prop) (ft : option string)
      (ps : pyval) :
  always_more inv ->
  forall (fuel : nat) (tok : pyval) (acc : list SpreadsheetInfo) (s : St)
         (log : list api_call),
    inv s ->
    exists s' new,
      list_spreadsheets_loop fuel ft ps tok acc (s, log)
      = (None, (s', (log ++ new)%list))
      /\ List.length new = fuel
      /\ inv s'.
Proof.
  intros Hmore.
  induction fuel as [|fuel IH]; intros tok acc s log Hs.
  - exists s, []. simpl. rewrite app_nil_r. auto.
  - destruct (Hmore s (list_files_request ft ps tok) Hs)
      as (response & s1 & Hapi & Htyped & Hnext & Hs1).
    cbn [list_spreadsheets_loop]. unfold call_api. cbn [fst snd].
    unfold list_files_request in Hapi. rewrite Hapi.
    rewrite (absorb_page_well_typed response acc Htyped).
    unfold has_next in Hnext. rewrite Hnext. cbn [negb].
    destruct (IH (token_of response) (acc ++ page_documents response)%list s1
                 (log ++ [Call_list_files ft ps
                            (if py_truthy tok then Some tok else None)])%list
                 Hs1) as (s' & new & Hrun & Hlen & Hs').
    exists s',
      (Call_list_files ft ps (if py_truthy tok then Some tok else None) :: new).
    rewrite Hrun. rewrite <- app_assoc. simpl. auto.
Qed.

(** X11.  The listing has no page cap of its own.  Against a provider that
    answers every request with a well-typed page announcing a further page,
    [list_spreadsheets] never returns: whatever bound is put on the number of
    iterations, the loop is still running when the bound is reached, having
    issued one request per iteration. *)
Theorem X11_listing_runs_as_long_as_tokens_come
        (inv : St -> Prop) (fuel : nat) (folder_token ft : option string)
        (page_size ps : pyval) (s : St) :
  always_more inv ->
  inv s ->
  validate_page_size page_size = Ok ps ->
  validate_folder_token folder_token = Ok ft ->
  exists s' new,
    list_spreadsheets fuel folder_token page_size (s, []) = (None, (s', new))
    /\ List.length new = fuel.
Proof.
  intros Hmore Hs Hps Hft.
  destruct (list_spreadsheets_loop_endless inv ft ps Hmore fuel PNone [] s []
              Hs) as (s' & new & Hrun & Hlen & _).
  exists s', new. unfold list_spreadsheets. rewrite Hps, Hft, Hrun.
  simpl. auto.
Qed.

Lemma list_spreadsheets_loop_requests (ft : option string) (ps : pyval) :
  forall (fuel : nat) (tok : pyval) (acc : list SpreadsheetInfo) (w : world),
  exists new,
    snd (snd (list_spreadsheets_loop fuel ft ps tok acc w))
    = (snd w ++ new)%list
    /\ (List.length new <= fuel)%nat
    /\ (new = []
        \/ exists tokens,
             new = list_files_request ft ps tok :: token_requests ft ps tokens
             /\ Forall (fun t => py_truthy t = true) tokens).
Proof.
  induction fuel as [|fuel IH]; intros tok acc w; simpl.
  - exists []. rewrite app_nil_r. auto.
  - unfold call_api.
    destruct (api _ (fst w)) as [[response|e] s'] eqn:Eapi.
    + destruct (absorb_page response acc) as [[acc' tok']|e].
      * destruct (py_truthy tok') eqn:Etok; cbn [negb].
        -- destruct (IH tok' acc'
                       (s', (snd w ++ [list_files_request ft ps tok])%list))
             as (new & Hlog & Hlen & Hshape).
           exists (list_files_request ft ps tok :: new).
           unfold list_files_request at 1 in Hlog.
           unfold list_files_request at 1. rewrite Hlog. simpl.
           rewrite <- app_assoc. simpl.
           split; [reflexivity|]. split; [lia|]. right.
           destruct Hshape as [->|(tokens & -> & Hall)].
           ++ exists []. split; [reflexivity|constructor].
           ++ exists (tok' :: tokens). split.
              ** unfold list_files_request at 2. rewrite Etok. reflexivity.
              ** constructor; assumption.
        -- eexists [_]. simpl. split; [reflexivity|]. split; [lia|].
           right. exists []. split; [reflexivity|constructor].
      * eexists [_]. simpl. split; [reflexivity|]. split; [lia|].
        right. exists []. split; [reflexivity|constructor].
    + eexists [_]. simpl. split; [reflexivity|]. split; [lia|].
      right. exists []. split; [reflexivity|constructor].
Qed.

(** X13.  In every run of [list_spreadsheets], whatever the provider does
    and however the run ends, the requests issued have one shape: the first
    carries no page token, each later one carries a page token that is not
    empty (never null, "", 0 or false), and all carry the same validated
    folder token and page size.  There is at most one request per
    iteration. *)
Theorem X13_listing_requests_have_one_shape
        (fuel : nat) (folder_token ft : option string) (page_size ps : pyval)
        (w : world) :
  validate_page_size page_size = Ok ps ->
  validate_folder_token folder_token = Ok ft ->
  exists new,
    snd (snd (list_spreadsheets fuel folder_token page_size w))
    = (snd w ++ new)%list
    /\ (List.length new <= fuel)%nat
    /\ (new = []
        \/ exists tokens,
             new = Call_list_files ft ps None :: token_requests ft ps tokens
             /\ Forall (fun t => py_truthy t = true) tokens).
Proof.
  intros Hps Hft. unfold list_spreadsheets. rewrite Hps, Hft.
  destruct (list_spreadsheets_loop_requests ft ps fuel PNone [] w)
    as (new & Hlog & Hlen & Hshape).
  destruct (list_spreadsheets_loop fuel ft ps PNone [] w) as [r w'].
  exists new. simpl in *. auto.
Qed.

(** X14.  The folder token of a listing is optional.  A folder token that is
    empty or whitespace-only raises a [ValueError] before any call; a
    page-size error is reported before it.  Otherwise the first request
    carries the folder token trimmed, and no folder token when none was
    given. *)
Theorem X14_folder_token_is_trimmed_or_rejected
        (fuel : nat) (page_size : pyval) (w : world) :
  (forall t ps,
      validate_page_size page_size = Ok ps ->
      strip t = "" ->
      list_spreadsheets fuel (Some t) page_size w
      = (Some (Raise (ValueError
                        "folder_token must be a non-empty string if provided")),
         w))
  /\ (forall folder_token e,
         validate_page_size page_size = Raise e ->
         list_spreadsheets fuel folder_token page_size w
         = (Some (Raise e), w))
  /\ (forall folder_token ps,
         validate_page_size page_size = Ok ps ->
         (forall t, folder_token = Some t -> strip t <> "") ->
         (0 < fuel)%nat ->
         exists rest,
           snd (snd (list_spreadsheets fuel folder_token page_size w))
           = (snd w ++ Call_list_files (option_map strip folder_token) ps None
                     :: rest)%list).
Proof.
  split; [|split].
  - intros t ps Hps Hblank. unfold list_spreadsheets. rewrite Hps.
    unfold validate_folder_token. rewrite Hblank. reflexivity.
  - intros folder_token e Hps. unfold list_spreadsheets. rewrite Hps.
    reflexivity.
  - intros folder_token ps Hps Hvalid Hfuel.
    assert (Hft : validate_folder_token folder_token
                  = Ok (option_map strip folder_token)).
    { destruct folder_token as [t|]; [|reflexivity].
      unfold validate_folder_token.
      destruct (String.eqb_spec (strip t) "") as [E|_]; [|reflexivity].
      exfalso. exact (Hvalid t eq_refl E). }
    destruct (list_spreadsheets_log fuel folder_token
                (option_map strip folder_token) page_size ps w Hps)
      as (new & Hlog & _ & Hfirst).
    destruct (Hfirst Hft Hfuel) as [rest ->].
    exists rest. exact Hlog.
Qed.

End ListingLoop.

Lemma X11_listing_runs_as_long_as_tokens_come_witness :
  exists s' new,
    list_spreadsheets (models := TestDoubles.models)
      (client := TestDoubles.endless) 3 None (PInt 50) (tt, [])
    = (None, (s', new))
    /\ List.length new = 3%nat.
Proof.
  apply (X11_listing_runs_as_long_as_tokens_come
           (models := TestDoubles.models) (client := TestDoubles.endless)
           (fun _ => True) 3 None None (PInt 50) (PInt 50) tt).
  - intros s c _.
    exists (TestDoubles.envelope
              [("files", PList []); ("page_token", PStr "more")]), s.
    repeat split.
  - exact I.
  - reflexivity.
  - reflexivity.
Defined.

Lemma X13_listing_requests_have_one_shape_witness :
  exists new,
    snd (snd (list_spreadsheets (models := TestDoubles.models)
                (client := TestDoubles.endless) 3 (Some " fld ") (PInt 300)
                (tt, [])))
    = new
    /\ (List.length new <= 3)%nat
    /\ (new = []
        \/ exists tokens,
             new = Call_list_files (Some "fld") (PInt 200) None
                   :: token_requests (Some "fld") (PInt 200) tokens
             /\ Forall (fun t => py_truthy t = true) tokens).
Proof.
  apply (X13_listing_requests_have_one_shape
           (models := TestDoubles.models) (client := TestDoubles.endless)
           3 (Some " fld ") (Some "fld") (PInt 300) (PInt 200) (tt, []));
    reflexivity.
Defined.

(** The blank folder token is a no-break space (U+00A0) between two
    spaces; the other one is padded with ideographic spaces (U+3000). *)
Lemma X14_folder_token_is_trimmed_or_rejected_witness :
  list_spreadsheets (models := TestDoubles.models)
    (client := TestDoubles.scripted) 3 (Some "   ") (PInt 50)
    TestDoubles.empty_listing
  = (Some (Raise (ValueError
                    "folder_token must be a non-empty string if provided")),
     TestDoubles.empty_listing)
  /\ (exists rest,
         snd (snd (list_spreadsheets (models := TestDoubles.models)
                     (client := TestDoubles.scripted) 3 (Some "　fld　")
                     (PInt 50) TestDoubles.empty_listing))
         = Call_list_files (Some "fld") (PInt 50) None :: rest).
Proof.
  destruct (X14_folder_token_is_trimmed_or_rejected
              (models := TestDoubles.models) (client := TestDoubles.scripted)
              3 (PInt 50) TestDoubles.empty_listing)
    as (Hblank & _ & Hfirst).
  split.
  - apply (Hblank "   " (PInt 50)); reflexivity.
  - apply (Hfirst (Some "　fld　") (PInt 50)).
    + reflexivity.
    + intros t Ht. injection Ht as <-. discriminate.
    + lia.
Defined.

(** ** Entries that fail otherwise than as malformed *)

Section Aborts.

Context {models : Models} {client : ApiClient}.

Lemma collect_ranges_abort (validated : list string) (before after : list pyval)
      (bad : pyval) (cls m : string) :
  forallb range_entry_well_typed before = true ->
  RangeData_from_api_response bad = Raise (OtherError cls m) ->
  forall i acc,
    collect_ranges validated i (before ++ bad :: after) acc
    = Raise (OtherError cls m).
Proof.
  intros Hbefore Hbad.
  induction before as [|d rest IH]; intros i acc; simpl.
  - rewrite Hbad. reflexivity.
  - simpl in Hbefore. apply andb_true_iff in Hbefore as [Hd Hrest].
    unfold range_entry_well_typed in Hd.
    destruct (RangeData_from_api_response d) as [r|[m0|a|c m0|c m0]];
      try discriminate; apply (IH Hrest).
Qed.

Lemma collect_worksheets_abort (before after : list pyval) (bad : pyval)
      (cls m : string) :
  forallb worksheet_entry_well_typed before = true ->
  WorksheetInfo_from_api_response bad = Raise (OtherError cls m) ->
  forall acc,
    collect_worksheets (before ++ bad :: after) acc = Raise (OtherError cls m).
Proof.
  intros Hbefore Hbad.
  induction before as [|d rest IH]; intros acc; simpl.
  - rewrite Hbad. reflexivity.
  - simpl in Hbefore. apply andb_true_iff in Hbefore as [Hd Hrest].
    unfold worksheet_entry_well_typed in Hd.
    destruct (WorksheetInfo_from_api_response d) as [r|[m0|a|c m0|c m0]];
      try discriminate; apply (IH Hrest).
Qed.

Lemma collect_spreadsheets_abort (before after : list pyval) (bad : pyval) :
  forallb entry_well_typed before = true ->
  (forall d, bad <> PDict d) ->
  forall acc,
    collect_spreadsheets (before ++ bad :: after) acc
    = Raise (OtherError "AttributeError"
               ("'" ++ type_name bad ++ "' object has no attribute 'get'")).
Proof.
  intros Hbefore Hbad.
  induction before as [|d rest IH]; intros acc.
  - simpl. destruct bad; try reflexivity. exfalso. exact (Hbad d eq_refl).
  - simpl in Hbefore. apply andb_true_iff in Hbefore as [Hd Hrest].
    rewrite <- app_comm_cons. cbn [collect_spreadsheets].
    unfold entry_well_typed in Hd.
    destruct d as [| | | | |kv]; try discriminate.
    destruct (py_get (PDict kv) "type" PNone) as [ty|e]; [|discriminate].
    cbn [bind]. destruct (py_eq_str ty "sheet"); [|apply (IH Hrest)].
    destruct (SpreadsheetInfo_from_api_response (PDict kv))
      as [sp|[m0|a|c m0|c m0]]; try discriminate; apply (IH Hrest).
Qed.

(** X15.  Only a [ValueError] marks an entry as malformed.  When the record
    constructor fails on an entry with any other exception (a [KeyError],
    say), or when an entry of a listing page is not a JSON object, the whole
    operation fails with the wrapped error (code -1, status 500) carrying
    that exception's text: the entries mapped before it are not returned, and
    no placeholder stands in for it. *)
Theorem X15_other_failures_abort_the_operation :
  (forall tok ranges vro dtro tok' validated response before bad after cls m
          w s',
      read_multiple_ranges_validate tok ranges vro dtro
      = Ok (tok', validated) ->
      api (Call_read_multiple_ranges tok' validated vro dtro) (fst w)
      = (Ok response, s') ->
      response_value_ranges response = Ok (before ++ bad :: after)%list ->
      forallb range_entry_well_typed before = true ->
      RangeData_from_api_response bad = Raise (OtherError cls m) ->
      read_multiple_ranges tok ranges vro dtro w
      = (Raise (APIError (mkFeishuAPIError (-1)
                            (read_multiple_ranges_prefix ++ m) 500)),
         (s', (snd w ++ [Call_read_multiple_ranges tok' validated vro
                           dtro])%list)))
  /\ (forall tok tok' response before bad after cls m w s',
         require_text "spreadsheet_token" tok = Ok tok' ->
         api (Call_get_worksheets tok') (fst w) = (Ok response, s') ->
         response_sheets response = Ok (before ++ bad :: after)%list ->
         forallb worksheet_entry_well_typed before = true ->
         WorksheetInfo_from_api_response bad = Raise (OtherError cls m) ->
         get_worksheets tok w
         = (Raise (APIError (mkFeishuAPIError (-1)
                               (get_worksheets_prefix ++ m) 500)),
            (s', (snd w ++ [Call_get_worksheets tok'])%list)))
  /\ (forall fuel folder_token ft page_size ps response before bad after s s',
         validate_page_size page_size = Ok ps ->
         validate_folder_token folder_token = Ok ft ->
         api (Call_list_files ft ps None) s = (Ok response, s') ->
         response_files response = Ok (before ++ bad :: after)%list ->
         forallb entry_well_typed before = true ->
         (forall d, bad <> PDict d) ->
         (0 < fuel)%nat ->
         list_spreadsheets fuel folder_token page_size (s, [])
         = (Some (Raise (APIError
                           (mkFeishuAPIError (-1)
                              (list_spreadsheets_prefix ++ "'"
                               ++ type_name bad
                               ++ "' object has no attribute 'get'") 500))),
            (s', [Call_list_files ft ps None]))).
Proof.
  split; [|split].
  - intros tok ranges vro dtro tok' validated response before bad after cls m
           w s' Hv Hapi Hitems Hbefore Hbad.
    unfold read_multiple_ranges. rewrite Hv.
    unfold read_multiple_ranges_try, call_api. rewrite Hapi. simpl.
    rewrite Hitems. simpl.
    rewrite (collect_ranges_abort validated before after bad cls m Hbefore
               Hbad).
    reflexivity.
  - intros tok tok' response before bad after cls m w s'
           Hv Hapi Hitems Hbefore Hbad.
    unfold get_worksheets. rewrite Hv, get_worksheets_try_decodes.
    unfold call_api. rewrite Hapi. simpl. rewrite Hitems. simpl.
    rewrite (collect_worksheets_abort before after bad cls m Hbefore Hbad).
    reflexivity.
  - intros fuel folder_token ft page_size ps response before bad after s s'
           Hps Hft Hapi Hitems Hbefore Hbad Hfuel.
    unfold list_spreadsheets. rewrite Hps, Hft.
    destruct fuel as [|fuel]; [lia|].
    cbn [list_spreadsheets_loop]. unfold call_api. cbn [fst snd py_truthy].
    rewrite Hapi. unfold absorb_page. rewrite Hitems. cbn [bind].
    rewrite (collect_spreadsheets_abort before after bad Hbefore Hbad).
    reflexivity.
Qed.

End Aborts.

Lemma X15_other_failures_abort_the_operation_witness :
  read_multiple_ranges (models := TestDoubles.key_error_models)
    (client := TestDoubles.scripted)
    "test_token" ["Sheet1!A1:B2"] "UnformattedValue" "FormattedString"
    ([Ok (TestDoubles.envelope
            [("valueRanges", PList [PDict [("values", PList [])]])])], [])
  = (Raise (APIError (mkFeishuAPIError (-1)
                        (read_multiple_ranges_prefix ++ "'range'") 500)),
     ([], [Call_read_multiple_ranges "test_token" ["Sheet1!A1:B2"]
             "UnformattedValue" "FormattedString"]))
  /\ list_spreadsheets (models := TestDoubles.models)
       (client := TestDoubles.scripted) 2 None (PInt 50)
       ([Ok (TestDoubles.envelope
               [("files",
                 PList [TestDoubles.file_entry "sheet1" "Sheet 1"; PNone])])],
        [])
     = (Some (Raise (APIError
                       (mkFeishuAPIError (-1)
                          (list_spreadsheets_prefix
                           ++ "'NoneType' object has no attribute 'get'")
                          500))),
        ([], [Call_list_files None (PInt 50) None])).
Proof.
  split.
  - destruct (X15_other_failures_abort_the_operation
                (models := TestDoubles.key_error_models)
                (client := TestDoubles.scripted)) as (Hbatch & _ & _).
    apply (Hbatch "test_token" ["Sheet1!A1:B2"] "UnformattedValue"
             "FormattedString" "test_token" ["Sheet1!A1:B2"]
             (TestDoubles.envelope
                [("valueRanges", PList [PDict [("values", PList [])]])])
             [] (PDict [("values", PList [])]) [] "KeyError" "'range'"
             ([Ok (TestDoubles.envelope
                     [("valueRanges", PList [PDict [("values", PList [])]])])],
              []) []);
      reflexivity.
  - destruct (X15_other_failures_abort_the_operation
                (models := TestDoubles.models)
                (client := TestDoubles.scripted)) as (_ & _ & Hlist).
    apply (Hlist 2%nat None None (PInt 50) (PInt 50)
             (TestDoubles.envelope
                [("files",
                  PList [TestDoubles.file_entry "sheet1" "Sheet 1"; PNone])])
             [TestDoubles.file_entry "sheet1" "Sheet 1"] PNone []
             [Ok (TestDoubles.envelope
                    [("files",
                      PList [TestDoubles.file_entry "sheet1" "Sheet 1";
                             PNone])])] []);
      try reflexivity; [discriminate|lia].
Defined.
